(** * Abode: the referential-integrity and derived-status layer

    A shallow embedding of the repository service [src/services/db.ts] and of
    the status and cascade helpers that live in the views
    ([TenantList.vue], [RentTracking.vue], [AlertsTodo.vue]), together with
    the properties the specification states about them.

    Conventions of the embedding.
    - A collection is the JavaScript array stored under one idb-keyval key:
      a [list], in storage order.
    - An [async] function of the source is a state transformer over the
      IndexedDB contents ([Async]); the state also records, newest first,
      every idb-keyval [get] and [set] the function issued, so that
      "no storage call" and "no storage write" are statements about it.
    - The database is the one [openDB] opened with success and idb-keyval's
      promises resolve: [ensureDbReady] returns and the [catch] arms of the
      repository functions are not entered.
    - What the code asks of the JavaScript runtime (number arithmetic and
      comparison, [Date] parsing, [String.prototype.toLowerCase]) is the
      interface [JsBuiltins]; every theorem holds for every implementation
      of it, IEEE doubles included. *)

From Stdlib Require Import ZArith String Ascii List Bool Lia.
From stdpp Require Import base decidable option list numbers strings pretty sorting.

Local Open Scope string_scope.
Local Open Scope list_scope.
Local Open Scope Z_scope.

(** ** The JavaScript runtime the code relies on *)

Class JsBuiltins (Num : Type) := {
  (** the literal [0] *)
  num_zero : Num;
  (** [a + b] *)
  num_add : Num → Num → Num;
  (** [a >= b] *)
  num_geb : Num → Num → bool;
  (** [a > b] *)
  num_gtb : Num → Num → bool;
  (** [a === b] *)
  num_eqb : Num → Num → bool;
  (** [ToBoolean(a)]: false for [0] and [NaN] *)
  num_truthy : Num → bool;
  (** [new Date(s).getTime()]; [None] stands for [NaN] (an Invalid Date) *)
  date_getTime : string → option Z;
  (** [s.toLowerCase()] *)
  toLowerCase : string → string
}.

(** [x || 0] on a number. *)
Definition orZero `{JsBuiltins Num} (x : Num) : Num :=
  if num_truthy x then x else num_zero.

(** ** Entities *)

(** Modelled from the spec: [src/types.ts] is not among the sources; the
    fields of [User] are those the code reads and writes and section 3 of the
    specification lists. [name] is optional ([name?: string]). *)
Module User.
Record t := mk {
  id : string;
  username : string;
  password : string;
  name : option string
}.
End User.

(** Modelled from the spec: [src/types.ts] is not among the sources; fields
    as used by [PropertyList.vue] and [seedData.ts]. *)
Module Property.
Record t {Num : Type} := mk {
  id : string;
  name : string;
  address : string;
  floors : Num;
  rooms : Num;
  archive : bool
}.
Arguments t : clear implicits.
Arguments mk {Num}.
End Property.

(** Modelled from the spec: [src/types.ts] is not among the sources; fields
    as built by [addOrUpdateTenant] in [TenantList.vue]. *)
Module Tenant.
Record t {Num : Type} := mk {
  id : string;
  name : string;
  rent : Num;
  leaseStart : string;
  leaseEnd : string;
  rentStatus : string;
  propertyId : string;
  floor : Num;
  room : string;
  archive : bool
}.
Arguments t : clear implicits.
Arguments mk {Num}.
End Tenant.

(** Modelled from the spec: [src/types.ts] is not among the sources; fields
    as built by [addOrUpdatePayment] in [RentTracking.vue]. [status] is one
    of the string literals ['paid'], ['partial'], ['pending'], ['due'],
    ['overdue']. *)
Module RentPayment.
Record t {Num : Type} := mk {
  id : string;
  tenantId : string;
  amount : Num;
  date : string;
  status : string;
  month : string;
  archive : bool
}.
Arguments t : clear implicits.
Arguments mk {Num}.
End RentPayment.

(** Modelled from the spec: [src/types.ts] is not among the sources; fields
    as built by [addTodo] in [AlertsTodo.vue]. *)
Module TodoItem.
Record t := mk {
  id : string;
  text : string;
  completed : bool;
  createdAt : string
}.
End TodoItem.

(** ** Array helpers *)

(** [arr.find(P)]: the first element that satisfies [P], or [undefined]. *)
Definition find {A} (P : A → Prop) `{∀ x, Decision (P x)} (l : list A) : option A :=
  snd <$> list_find P l.

(** [arr.findIndex(P)]: the index of the first element that satisfies [P];
    [None] stands for [-1]. *)
Definition findIndex {A} (P : A → Prop) `{∀ x, Decision (P x)} (l : list A) : option nat :=
  fst <$> list_find P l.

(** [arr.push(x)]. *)
Definition push {A} (l : list A) (x : A) : list A := l ++ [x].

(** Insertion of [x] into a list ordered by the comparator [cmp]: [x] goes in
    front of the first element it does not have to follow. *)
Fixpoint insertBy {A} (cmp : A → A → Z) (x : A) (l : list A) : list A :=
  match l with
  | [] => [x]
  | y :: l' => if cmp x y <=? 0 then x :: l else y :: insertBy cmp x l'
  end.

(** [arr.sort(cmp)]. ECMAScript requires the sort to be stable, and leaves
    the order implementation-defined only when [cmp] is not a consistent
    comparator; a stable insertion sort is one such implementation, and for
    a consistent comparator all of them return the same array. *)
Definition sortBy {A} (cmp : A → A → Z) (l : list A) : list A :=
  foldr (insertBy cmp) [] l.

(** ** The IndexedDB contents and the calls made on them *)

Inductive IdbCall :=
  | IdbGet (key : string)
  | IdbSet (key : string).

(** The five values held under the keys ['users'], ['properties'],
    ['tenants'], ['payments'] and ['todos']. *)
Module Collections.
Record t {Num : Type} := mk {
  users : list User.t;
  properties : list (Property.t Num);
  tenants : list (Tenant.t Num);
  payments : list (RentPayment.t Num);
  todos : list TodoItem.t
}.
Arguments t : clear implicits.
Arguments mk {Num}.
End Collections.

Section Store.
Context {Num : Type}.

Record Idb := {
  data : Collections.t Num;
  calls : list IdbCall
}.

(** An [async] function returning [A]. *)
Definition Async (A : Type) : Type := Idb → A * Idb.

(** [return a]. *)
Definition ret {A} (a : A) : Async A := λ s, (a, s).

(** [const a = await m; k a]. *)
Definition bind {A B} (m : Async A) (k : A → Async B) : Async B :=
  λ s, let (a, s') := m s in k a s'.

(** A named collection: its idb-keyval key, how it is read from and
    stored into the contents, and the [id] of its records. *)
Record Collection (A : Type) := {
  coll_key : string;
  coll_get : Collections.t Num → list A;
  coll_put : list A → Collections.t Num → Collections.t Num;
  coll_id : A → string
}.
Arguments coll_key {A}.
Arguments coll_get {A}.
Arguments coll_put {A}.
Arguments coll_id {A}.

Definition usersColl : Collection User.t := {|
  coll_key := "users";
  coll_get := Collections.users;
  coll_put := λ xs d,
    Collections.mk xs (Collections.properties d) (Collections.tenants d)
                   (Collections.payments d) (Collections.todos d);
  coll_id := User.id |}.

Definition propertiesColl : Collection (Property.t Num) := {|
  coll_key := "properties";
  coll_get := Collections.properties;
  coll_put := λ xs d,
    Collections.mk (Collections.users d) xs (Collections.tenants d)
                   (Collections.payments d) (Collections.todos d);
  coll_id := Property.id |}.

Definition tenantsColl : Collection (Tenant.t Num) := {|
  coll_key := "tenants";
  coll_get := Collections.tenants;
  coll_put := λ xs d,
    Collections.mk (Collections.users d) (Collections.properties d) xs
                   (Collections.payments d) (Collections.todos d);
  coll_id := Tenant.id |}.

Definition paymentsColl : Collection (RentPayment.t Num) := {|
  coll_key := "payments";
  coll_get := Collections.payments;
  coll_put := λ xs d,
    Collections.mk (Collections.users d) (Collections.properties d)
                   (Collections.tenants d) xs (Collections.todos d);
  coll_id := RentPayment.id |}.

Definition todosColl : Collection TodoItem.t := {|
  coll_key := "todos";
  coll_get := Collections.todos;
  coll_put := λ xs d,
    Collections.mk (Collections.users d) (Collections.properties d)
                   (Collections.tenants d) (Collections.payments d) xs;
  coll_id := TodoItem.id |}.

(** The state after one more call, the contents left as they are. *)
Definition logCall (call : IdbCall) (s : Idb) : Idb :=
  {| data := data s; calls := call :: calls s |}.

(** [await get(key) || []]. *)
Definition idbGet {A} (c : Collection A) : Async (list A) :=
  λ s, (coll_get c (data s), logCall (IdbGet (coll_key c)) s).

(** [await set(key, xs)]. *)
Definition idbSet {A} (c : Collection A) (xs : list A) : Async unit :=
  λ s, (tt, {| data := coll_put c xs (data s);
               calls := IdbSet (coll_key c) :: calls s |}).

(** [for (const x of l) { await f(x) }]. *)
Fixpoint forOf {A} (l : list A) (f : A → Async unit) : Async unit :=
  match l with
  | [] => ret tt
  | x :: l' => bind (f x) (λ _, forOf l' f)
  end.
End Store.

Arguments Idb : clear implicits.
Arguments Async : clear implicits.
Arguments Collection : clear implicits.
Arguments coll_key {Num A}.
Arguments coll_get {Num A}.
Arguments coll_put {Num A}.
Arguments coll_id {Num A}.

Notation "'await' x := m 'in' k" := (bind m (λ x, k))
  (at level 10, x name, m at level 100, k at level 200,
   format "'[v' 'await'  x  :=  m  'in' '/' k ']'").
Notation "'await_' m 'in' k" := (bind m (λ _, k))
  (at level 10, m at level 100, k at level 200,
   format "'[v' 'await_'  m  'in' '/' k ']'").

(** ** [src/services/db.ts] *)

Module Db.
Section Db.
Context `{JsBuiltins Num}.

(** The result object [{ success, message? }] of the user operations. *)
Record Result := {
  success : bool;
  message : option string
}.

(** The shape shared by [getUsers], [getProperties], [getTenants],
    [getPayments] and [getTodos]. *)
Definition getAll {A} (c : Collection Num A) : Async Num (list A) :=
  idbGet c.

(** The shape shared by [addProperty], [addTenant], [addPayment] and
    [addTodo]: read the array, [push], write it back. *)
Definition addTo {A} (c : Collection Num A) (record : A) : Async Num unit :=
  await xs := getAll c in
  idbSet c (push xs record).

(** The shape shared by [updateProperty], [updateTenant], [updatePayment]
    and [updateTodo]: [findIndex] on the id, then [xs[index] = record] and
    a write, or a [console.warn] and no write when the index is [-1]. *)
Definition updateIn {A} (c : Collection Num A) (record : A) : Async Num unit :=
  await xs := getAll c in
  match findIndex (λ x, coll_id c x = coll_id c record) xs with
  | Some index => idbSet c (<[index := record]> xs)
  | None => ret tt
  end.

(** The shape shared by [deleteProperty], [deleteTenant], [deletePayment]
    and [deleteTodo]: [filter] on the id, then a write when the array got
    shorter, or a [console.warn] and no write. *)
Definition deleteFrom {A} (c : Collection Num A) (id : string) : Async Num unit :=
  await xs := getAll c in
  let initialLength := length xs in
  let filtered := filter (λ x, coll_id c x ≠ id) xs in
  if (length filtered <? initialLength)%nat
  then idbSet c filtered
  else ret tt.

Definition getUsers : Async Num (list User.t) := getAll usersColl.

Definition addUser (user : User.t) : Async Num Result :=
  await users := getUsers in
  let existingUser :=
    find (λ u, toLowerCase (User.username u) = toLowerCase (User.username user)) users in
  match existingUser with
  | Some _ =>
      ret {| success := false; message := Some "Username is already taken." |}
  | None =>
      await_ idbSet usersColl (push users user) in
      ret {| success := true; message := None |}
  end.

Definition getUserByUsername (username : string) : Async Num (option User.t) :=
  await users := getUsers in
  ret (find (λ u, toLowerCase (User.username u) = toLowerCase username) users).

Definition updateUser (updatedUser : User.t) : Async Num Result :=
  await users := getUsers in
  match findIndex (λ u, User.id u = User.id updatedUser) users with
  | None => ret {| success := false; message := Some "User not found." |}
  | Some index =>
      await_ idbSet usersColl (<[index := updatedUser]> users) in
      ret {| success := true; message := None |}
  end.

Definition getProperties := getAll propertiesColl.
Definition addProperty := addTo propertiesColl.
Definition updateProperty := updateIn propertiesColl.
Definition deleteProperty := deleteFrom propertiesColl.

Definition getTenants := getAll tenantsColl.
Definition addTenant := addTo tenantsColl.
Definition updateTenant := updateIn tenantsColl.
Definition deleteTenant := deleteFrom tenantsColl.

Definition getPayments := getAll paymentsColl.
Definition addPayment := addTo paymentsColl.
Definition updatePayment := updateIn paymentsColl.
Definition deletePayment := deleteFrom paymentsColl.

Definition getTodos := getAll todosColl.
Definition addTodo := addTo todosColl.
Definition updateTodo := updateIn todosColl.
Definition deleteTodo := deleteFrom todosColl.
End Db.
End Db.

(** ** JavaScript truthiness of the optional fields of a form *)

(** [!s] on [string | undefined]: true for [undefined] and for ['']. *)
Definition falsyStr (s : option string) : bool :=
  match s with
  | None => true
  | Some s => bool_decide (s = "")
  end.

(** [x == null] on [number | undefined]. *)
Definition isNullish {A} (x : option A) : bool :=
  match x with
  | None => true
  | Some _ => false
  end.

(** ** [src/views/TenantList.vue] *)

Module TenantList.
Section TenantList.
Context `{JsBuiltins Num}.

(** The refs of the component that the functions below read and write. *)
Record Refs := {
  tenants : list (Tenant.t Num);
  properties : list (Property.t Num);
  payments : list (RentPayment.t Num)
}.

(** [property?.archive ?? false]. *)
Definition getPropertyArchivedStatus (v : Refs) (propertyId : string) : bool :=
  let property := find (λ p, Property.id p = propertyId) (properties v) in
  match property with
  | Some p => Property.archive p
  | None => false
  end.

Definition isEffectivelyArchived (v : Refs) (tenant : Tenant.t Num) : bool :=
  Tenant.archive tenant || getPropertyArchivedStatus v (Tenant.propertyId tenant).

(** [(a, b) => new Date(b.date).getTime() - new Date(a.date).getTime()];
    a [NaN] result is read as [+0] by [sort]. *)
Definition byDateDesc (a b : RentPayment.t Num) : Z :=
  match date_getTime (RentPayment.date b), date_getTime (RentPayment.date a) with
  | Some tb, Some ta => tb - ta
  | _, _ => 0
  end.

Definition getLatestRentStatus (v : Refs) (tenantId : string) : string :=
  let tenantObj := find (λ t, Tenant.id t = tenantId) (tenants v) in
  match tenantObj with
  | None => "n/a"
  | Some tenantObj =>
      if isEffectivelyArchived v tenantObj then "archive"
      else
        let tenantPayments :=
          sortBy byDateDesc
            (filter (λ p, RentPayment.tenantId p = tenantId) (payments v)) in
        match tenantPayments with
        | latest :: _ => RentPayment.status latest
        | [] => "no payments"
        end
  end.

(** [getRentStatusClass(status)], restricted to the badge colour: the key
    of the returned object that is switched on beside the base classes
    (the conditions exclude one another), [None] when there is none. *)
Definition getRentStatusClass (status : option string) : option string :=
  let status :=
    match status with
    | Some s => toLowerCase s
    | None => "n/a"
    end in
  if bool_decide (status = "paid") || bool_decide (status = "advance paid")
     || bool_decide (status = "contract active")
     || bool_decide (status = "contract renewed")
  then Some "bg-green-100 text-green-800"
  else if bool_decide (status = "partial") || bool_decide (status = "notice period")
  then Some "bg-yellow-100 text-yellow-800"
  else if bool_decide (status = "pending") || bool_decide (status = "contract breach")
  then Some "bg-red-100 text-red-800"
  else if bool_decide (status = "due")
  then Some "bg-orange-100 text-orange-800"
  else if bool_decide (status = "overdue") || bool_decide (status = "contract expired")
  then Some "bg-purple-100 text-purple-800"
  else if bool_decide (status = "no payments") || bool_decide (status = "n/a")
  then Some "bg-gray-100 text-gray-500"
  else if bool_decide (status = "archived")
  then Some "bg-gray-400 text-white"
  else None.

(** The tail of [deleteTenant]: the repository call and the two
    re-fetches. *)
Definition removeAndRefetch (v : Refs) (id : string) : Async Num Refs :=
  await_ Db.deleteTenant id in
  await tenants' := Db.getTenants in
  await payments' := Db.getPayments in
  ret {| tenants := tenants'; properties := properties v; payments := payments' |}.

(** [deleteTenant(id)]; [confirmDelete] is the answer the user gives to
    the [confirm] dialog. *)
Definition deleteTenant (v : Refs) (confirmDelete : bool) (id : string)
  : Async Num Refs :=
  let tenantToDelete := find (λ t, Tenant.id t = id) (tenants v) in
  match tenantToDelete with
  | None => ret v
  | Some _ =>
      let associatedPayments :=
        filter (λ p, RentPayment.tenantId p = id) (payments v) in
      if (0 <? length associatedPayments)%nat then
        if negb confirmDelete then ret v
        else
          await_ forOf associatedPayments
                   (λ payment, Db.deletePayment (RentPayment.id payment)) in
          removeAndRefetch v id
      else
        if negb confirmDelete then ret v
        else removeAndRefetch v id
  end.

(** [onMounted]: the three arrays are fetched, properties first. *)
Definition onMounted : Async Num Refs :=
  await properties' := Db.getProperties in
  await tenants' := Db.getTenants in
  await payments' := Db.getPayments in
  ret {| tenants := tenants'; properties := properties'; payments := payments' |}.

(** [getPropertyName(propertyId)]. *)
Definition getPropertyName (v : Refs) (propertyId : string) : string :=
  match find (λ p, Property.id p = propertyId) (properties v) with
  | Some property => Property.name property
  | None => "Unknown Property"
  end.

(** [activeProperties]: the properties the dropdown of the modal offers. *)
Definition activeProperties (v : Refs) : list (Property.t Num) :=
  filter (λ p, Property.archive p = false) (properties v).
End TenantList.
Arguments Refs : clear implicits.
End TenantList.

(** ** [src/views/RentTracking.vue] *)

(** [Partial<RentPayment>], the value of the [newPayment] ref. *)
Module PaymentDraft.
Record t {Num : Type} := mk {
  id : option string;
  tenantId : option string;
  amount : option Num;
  date : option string;
  status : option string;
  month : option string;
  archive : option bool
}.
Arguments t : clear implicits.
Arguments mk {Num}.
End PaymentDraft.

Module RentTracking.
Section RentTracking.
Context `{JsBuiltins Num}.

Record Refs := {
  payments : list (RentPayment.t Num);
  tenants : list (Tenant.t Num);
  properties : list (Property.t Num);
  showAddModal : bool;
  isEditingPayment : bool;
  editingPaymentId : option string;
  newPayment : PaymentDraft.t Num
}.

(** What the function takes from its environment: the answer to the
    [confirm] dialog, the value of [crypto.randomUUID()], and the two
    strings [resetPaymentModal] derives from [new Date()]. *)
Record Env := {
  confirmPaid : bool;
  randomUUID : string;
  todayISO : string;
  currentMonthName : string
}.

(** The [alert] a submission can raise:
    - [AlertFillDetails]: 'Please fill in all payment details.'
    - [AlertTenantArchived]: 'Cannot record or update payment for an
      archived tenant or a tenant in an archived property.'
    - [AlertPartialTooLarge amount rent]: 'Partial payment amount
      ($amount) cannot be equal to or exceed the full rent ($rent). ...' *)
Inductive Alert :=
  | AlertFillDetails
  | AlertTenantArchived
  | AlertPartialTooLarge (amount rent : Num).

(** How a submission ends: an [alert] and an early return, an early
    return after the user declined the [confirm] dialog, or the
    repository call. *)
Inductive Outcome :=
  | Rejected (a : Alert)
  | Declined
  | Saved.

(** [property?.archive ?? false]. *)
Definition getPropertyArchivedStatus (v : Refs) (propertyId : string) : bool :=
  let property := find (λ p, Property.id p = propertyId) (properties v) in
  match property with
  | Some p => Property.archive p
  | None => false
  end.

Definition isTenantEffectivelyArchived (v : Refs) (tenant : option (Tenant.t Num)) : bool :=
  match tenant with
  | None => true
  | Some tenant =>
      Tenant.archive tenant || getPropertyArchivedStatus v (Tenant.propertyId tenant)
  end.

Definition resetPaymentModal (v : Refs) (env : Env) : Refs := {|
  payments := payments v;
  tenants := tenants v;
  properties := properties v;
  showAddModal := false;
  isEditingPayment := false;
  editingPaymentId := None;
  newPayment :=
    PaymentDraft.mk None (Some "") (Some num_zero) (Some (todayISO env))
                    (Some "paid") (Some (currentMonthName env)) (Some false)
|}.

Definition setPayments (v : Refs) (ps : list (RentPayment.t Num)) : Refs := {|
  payments := ps;
  tenants := tenants v;
  properties := properties v;
  showAddModal := showAddModal v;
  isEditingPayment := isEditingPayment v;
  editingPaymentId := editingPaymentId v;
  newPayment := newPayment v
|}.

(** The condition of the first [if] of [addOrUpdatePayment]:
    [!tenantId || amount == null || !date || !status || !month]. *)
Definition missingDetails (np : PaymentDraft.t Num) : bool :=
  falsyStr (PaymentDraft.tenantId np) || isNullish (PaymentDraft.amount np)
  || falsyStr (PaymentDraft.date np) || falsyStr (PaymentDraft.status np)
  || falsyStr (PaymentDraft.month np).

(** [tenants.value.find(t => t.id === newPayment.value.tenantId)]. *)
Definition selectedTenant (v : Refs) : option (Tenant.t Num) :=
  find (λ t, Some (Tenant.id t) = PaymentDraft.tenantId (newPayment v)) (tenants v).

(** [addOrUpdatePayment()]. After the first check the amount is not
    [undefined]; the arm for an absent amount is never taken. *)
Definition addOrUpdatePayment (v : Refs) (env : Env) : Async Num (Outcome * Refs) :=
  let np := newPayment v in
  if missingDetails np
  then ret (Rejected AlertFillDetails, v)
  else
    match selectedTenant v, PaymentDraft.amount np with
    | Some tenant, Some amount =>
        if isTenantEffectivelyArchived v (selectedTenant v)
        then ret (Rejected AlertTenantArchived, v)
        else if bool_decide (PaymentDraft.status np = Some "partial")
                && num_geb amount (Tenant.rent tenant)
        then ret (Rejected (AlertPartialTooLarge amount (Tenant.rent tenant)), v)
        else if bool_decide (PaymentDraft.status np = Some "paid")
                && negb (num_eqb amount (Tenant.rent tenant))
                && negb (confirmPaid env)
        then ret (Declined, v)
        else
          let payment :=
            RentPayment.mk
              (if isEditingPayment v && negb (falsyStr (editingPaymentId v))
               then default "" (editingPaymentId v)
               else randomUUID env)
              (default "" (PaymentDraft.tenantId np))
              amount
              (default "" (PaymentDraft.date np))
              (default "" (PaymentDraft.status np))
              (default "" (PaymentDraft.month np))
              (default false (PaymentDraft.archive np)) in
          await_ (if isEditingPayment v
                  then Db.updatePayment payment
                  else Db.addPayment payment) in
          await payments' := Db.getPayments in
          ret (Saved, resetPaymentModal (setPayments v payments') env)
    | None, _ => ret (Rejected AlertTenantArchived, v)
    | Some _, None => ret (Rejected AlertFillDetails, v)
    end.
End RentTracking.
Arguments Refs : clear implicits.
Arguments Alert : clear implicits.
Arguments Outcome : clear implicits.
End RentTracking.

(** ** [src/views/AlertsTodo.vue] *)

Module AlertsTodo.
Section AlertsTodo.
Context `{JsBuiltins Num}.

Record Refs := {
  tenants : list (Tenant.t Num);
  properties : list (Property.t Num);
  payments : list (RentPayment.t Num);
  todos : list TodoItem.t;
  isLoading : bool;
  errorLoading : option string
}.

Definition getPropertyArchivedStatus (v : Refs) (propertyId : string) : bool :=
  if bool_decide (length (properties v) = 0%nat) then false
  else
    let property := find (λ p, Property.id p = propertyId) (properties v) in
    match property with
    | Some p => Property.archive p
    | None => false
    end.

Definition isTenantEffectivelyArchived (v : Refs) (tenant : option (Tenant.t Num)) : bool :=
  match tenant with
  | None => true
  | Some tenant =>
      Tenant.archive tenant || getPropertyArchivedStatus v (Tenant.propertyId tenant)
  end.

(** The object [monthlyRentStatus] returns, without the two fields that
    only name the month for display. *)
Record MonthlyRentStatus := {
  activeTenantsCount : nat;
  paidTenantsCount : nat;
  totalExpectedRent : Num;
  totalCollectedThisMonth : Num
}.

(** [!isNaN(d.getTime()) && d >= startOfMonth && d <= endOfMonth] for
    [d = new Date(p.date)]. *)
Definition inMonth (startOfMonth endOfMonth : Z) (p : RentPayment.t Num) : bool :=
  match date_getTime (RentPayment.date p) with
  | Some t => (startOfMonth <=? t) && (t <=? endOfMonth)
  | None => false
  end.

(** [ps.reduce((sum, p) => sum + (p.amount || 0), 0)]. *)
Definition sumAmounts (ps : list (RentPayment.t Num)) : Num :=
  fold_left (λ sum p, num_add sum (orZero (RentPayment.amount p))) ps num_zero.

Definition activeTenants (v : Refs) : list (Tenant.t Num) :=
  filter (λ tenant, isTenantEffectivelyArchived v (Some tenant) = false
                    ∧ num_gtb (Tenant.rent tenant) num_zero = true)
         (tenants v).

Definition paymentsThisMonth (v : Refs) (startOfMonth endOfMonth : Z)
  : list (RentPayment.t Num) :=
  filter (λ p, inMonth startOfMonth endOfMonth p = true) (payments v).

(** [sumPaidByTenantThisMonth] for one tenant. *)
Definition sumPaidByTenantThisMonth (v : Refs) (startOfMonth endOfMonth : Z)
    (tenant : Tenant.t Num) : Num :=
  sumAmounts
    (filter (λ p, RentPayment.tenantId p = Tenant.id tenant)
            (paymentsThisMonth v startOfMonth endOfMonth)).

(** The computed [monthlyRentStatus]; [startOfMonth] and [endOfMonth] are
    the timestamps of the first instant and of the last millisecond of
    the calendar month of [new Date()]. *)
Definition monthlyRentStatus (v : Refs) (startOfMonth endOfMonth : Z)
  : MonthlyRentStatus :=
  if isLoading v || negb (falsyStr (errorLoading v))
     || bool_decide (length (tenants v) = 0%nat)
  then {| activeTenantsCount := 0; paidTenantsCount := 0;
          totalExpectedRent := num_zero; totalCollectedThisMonth := num_zero |}
  else
    let active := activeTenants v in
    {| activeTenantsCount := length active;
       paidTenantsCount :=
         fold_left
           (λ paidTenantsCount tenant,
              if num_geb (sumPaidByTenantThisMonth v startOfMonth endOfMonth tenant)
                         (Tenant.rent tenant)
              then S paidTenantsCount
              else paidTenantsCount)
           active 0%nat;
       totalExpectedRent :=
         fold_left (λ sum tenant, num_add sum (orZero (Tenant.rent tenant)))
                   active num_zero;
       totalCollectedThisMonth :=
         sumAmounts (paymentsThisMonth v startOfMonth endOfMonth) |}.
End AlertsTodo.
Arguments Refs : clear implicits.
Arguments MonthlyRentStatus : clear implicits.
End AlertsTodo.

(** ** More of the JavaScript runtime *)

(** What the rest of the views asks of the runtime beside [JsBuiltins]. *)
Class JsExtras (Num : Type) := {
  (** [a - b] *)
  num_sub : Num → Num → Num;
  (** [Math.max(a, b)] *)
  num_max : Num → Num → Num;
  (** [a / b] *)
  num_div : Num → Num → Num;
  (** [Math.floor(a)] *)
  num_floor : Num → Num;
  (** [a <= b] *)
  num_leb : Num → Num → bool;
  (** the number of a natural: a literal, an array index *)
  num_ofNat : nat → Num;
  (** the length of [Array.from({ length: a })] *)
  num_toLength : Num → nat;
  (** the text of a number in a template literal *)
  num_toString : Num → string;
  (** [s.trim()] *)
  trim : string → string;
  (** [new Date(t).toISOString()] for a time value [t] *)
  date_toISOString : Z → string
}.

(** The double-quote character as a string, for the messages that quote a
    name. *)
Definition quote : string := String (ascii_of_nat 34) EmptyString.

(** [x || 0] on [number | undefined]. *)
Definition orZeroOpt `{JsBuiltins Num} (x : option Num) : Num :=
  match x with
  | Some n => orZero n
  | None => num_zero
  end.

(** [!x] on [number | undefined]. *)
Definition falsyNum `{JsBuiltins Num} (x : option Num) : bool :=
  match x with
  | Some n => negb (num_truthy n)
  | None => true
  end.

(** [new Date(s).toISOString()]: [None] stands for the [RangeError] thrown
    for an Invalid Date. *)
Definition toISOString `{JsBuiltins Num} `{!JsExtras Num} (s : string) : option string :=
  date_toISOString <$> date_getTime s.

(** ** [src/views/PropertyList.vue] *)

(** [Partial<Property>], the value of the [newProperty] ref. *)
Module PropertyDraft.
Record t {Num : Type} := mk {
  id : option string;
  name : option string;
  address : option string;
  floors : option Num;
  rooms : option Num;
  archive : option bool
}.
Arguments t : clear implicits.
Arguments mk {Num}.
End PropertyDraft.

Module PropertyList.
Section PropertyList.
Context `{JsBuiltins Num}.

(** The refs of the component; [floorRooms] holds the values of the object
    in the order [Object.values] lists them. *)
Record Refs := {
  properties : list (Property.t Num);
  tenants : list (Tenant.t Num);
  showAddModal : bool;
  isEditingProperty : bool;
  editingPropertyId : option string;
  newProperty : PropertyDraft.t Num;
  floorRooms : list Num
}.

Definition setProperties (v : Refs) (ps : list (Property.t Num)) : Refs := {|
  properties := ps;
  tenants := tenants v;
  showAddModal := showAddModal v;
  isEditingProperty := isEditingProperty v;
  editingPropertyId := editingPropertyId v;
  newProperty := newProperty v;
  floorRooms := floorRooms v
|}.

Definition calculateTotalRooms (v : Refs) : Refs := {|
  properties := properties v;
  tenants := tenants v;
  showAddModal := showAddModal v;
  isEditingProperty := isEditingProperty v;
  editingPropertyId := editingPropertyId v;
  newProperty :=
    PropertyDraft.mk (PropertyDraft.id (newProperty v))
      (PropertyDraft.name (newProperty v)) (PropertyDraft.address (newProperty v))
      (PropertyDraft.floors (newProperty v))
      (Some (fold_left (λ sum val, num_add sum val) (floorRooms v) num_zero))
      (PropertyDraft.archive (newProperty v));
  floorRooms := floorRooms v
|}.

Definition onMounted (v : Refs) : Async Num Refs :=
  await properties' := Db.getProperties in
  await tenants' := Db.getTenants in
  ret {| properties := properties'; tenants := tenants';
         showAddModal := showAddModal v;
         isEditingProperty := isEditingProperty v;
         editingPropertyId := editingPropertyId v;
         newProperty := newProperty v;
         floorRooms := floorRooms v |}.

Definition resetPropertyModal (v : Refs) : Refs := {|
  properties := properties v;
  tenants := tenants v;
  showAddModal := false;
  isEditingProperty := false;
  editingPropertyId := None;
  newProperty :=
    PropertyDraft.mk None (Some "") (Some "") (Some num_zero) (Some num_zero)
                     (Some false);
  floorRooms := []
|}.

(** [addOrUpdateProperty()]; [randomUUID] is the value of
    [crypto.randomUUID()]. *)
Definition addOrUpdateProperty (v : Refs) (randomUUID : string) : Async Num Refs :=
  let np := newProperty v in
  if falsyStr (PropertyDraft.name np) || falsyStr (PropertyDraft.address np)
  then ret v
  else
    let record (id : string) :=
      Property.mk id
        (default "" (PropertyDraft.name np))
        (default "" (PropertyDraft.address np))
        (orZeroOpt (PropertyDraft.floors np))
        (orZeroOpt (PropertyDraft.rooms np))
        (default false (PropertyDraft.archive np)) in
    await_ (if isEditingProperty v && negb (falsyStr (editingPropertyId v))
            then Db.updateProperty (record (default "" (editingPropertyId v)))
            else Db.addProperty (record randomUUID)) in
    await properties' := Db.getProperties in
    ret (resetPropertyModal (setProperties v properties')).

Definition deleteProperty (v : Refs) (id : string) : Async Num Refs :=
  await_ Db.deleteProperty id in
  await properties' := Db.getProperties in
  ret (setProperties v properties').

Definition editProperty (v : Refs) (property : Property.t Num) : Refs := {|
  properties := properties v;
  tenants := tenants v;
  showAddModal := true;
  isEditingProperty := true;
  editingPropertyId := Some (Property.id property);
  newProperty :=
    PropertyDraft.mk (Some (Property.id property)) (Some (Property.name property))
      (Some (Property.address property)) (Some (Property.floors property))
      (Some (Property.rooms property)) (Some (Property.archive property));
  floorRooms := []
|}.

(** [{ ...property, archive: !property.archive }]. *)
Definition withArchiveToggled (property : Property.t Num) : Property.t Num :=
  Property.mk (Property.id property) (Property.name property)
    (Property.address property) (Property.floors property)
    (Property.rooms property) (negb (Property.archive property)).

Definition toggleArchiveProperty (v : Refs) (property : Property.t Num)
  : Async Num Refs :=
  let updatedProperty := withArchiveToggled property in
  await_ Db.updateProperty updatedProperty in
  await properties' := Db.getProperties in
  ret (setProperties v properties').

Definition getTenantCount (v : Refs) (propertyId : string) : nat :=
  length (filter (λ t, Tenant.propertyId t = propertyId) (tenants v)).
End PropertyList.
Arguments Refs : clear implicits.
End PropertyList.

(** ** [src/views/TenantList.vue], the add and edit modal *)

(** [Partial<Tenant>], the value of the [newTenant] ref. *)
Module TenantDraft.
Record t {Num : Type} := mk {
  id : option string;
  name : option string;
  rent : option Num;
  leaseStart : option string;
  leaseEnd : option string;
  rentStatus : option string;
  propertyId : option string;
  floor : option Num;
  room : option string;
  archive : option bool
}.
Arguments t : clear implicits.
Arguments mk {Num}.
End TenantDraft.

Module TenantListForm.
Section TenantListForm.
Context `{JsBuiltins Num} `{!JsExtras Num}.

(** The refs of the modal, beside the three arrays of [TenantList.Refs]. *)
Record Form := {
  showAddModal : bool;
  selectedProperty : option (Property.t Num);
  isEditing : bool;
  editingTenantId : option string;
  newTenant : TenantDraft.t Num
}.

(** What [addOrUpdateTenant] takes from its environment: the value of
    [crypto.randomUUID()] and the time values of the two [new Date()] it may
    evaluate, for the start and for the end of the lease. *)
Record Env := {
  randomUUID : string;
  nowLeaseStart : Z;
  nowLeaseEnd : Z
}.

(** How a call ends: an [alert] with its message and an early return, an
    exception before the [try], or the repository call. *)
Inductive Outcome :=
  | Alerted (msg : string)
  | Thrown
  | Saved.

Definition withNewTenant (f : Form) (nt : TenantDraft.t Num) : Form := {|
  showAddModal := showAddModal f;
  selectedProperty := selectedProperty f;
  isEditing := isEditing f;
  editingTenantId := editingTenantId f;
  newTenant := nt
|}.

(** [newTenant.value.floor = floor; newTenant.value.room = room]. *)
Definition withFloorRoom (nt : TenantDraft.t Num) (floor : Num) (room : string)
  : TenantDraft.t Num :=
  TenantDraft.mk (TenantDraft.id nt) (TenantDraft.name nt) (TenantDraft.rent nt)
    (TenantDraft.leaseStart nt) (TenantDraft.leaseEnd nt) (TenantDraft.rentStatus nt)
    (TenantDraft.propertyId nt) (Some floor) (Some room) (TenantDraft.archive nt).

(** [newTenant.value.propertyId = propertyId]. *)
Definition withPropertyId (nt : TenantDraft.t Num) (propertyId : string)
  : TenantDraft.t Num :=
  TenantDraft.mk (TenantDraft.id nt) (TenantDraft.name nt) (TenantDraft.rent nt)
    (TenantDraft.leaseStart nt) (TenantDraft.leaseEnd nt) (TenantDraft.rentStatus nt)
    (Some propertyId) (TenantDraft.floor nt) (TenantDraft.room nt)
    (TenantDraft.archive nt).

(** [generateDefaultRoomOption(property)]. *)
Definition generateDefaultRoomOption (property : option (Property.t Num)) : string :=
  match property with
  | None => "All Rooms"
  | Some property =>
      if negb (num_truthy (Property.floors property))
         || negb (num_truthy (Property.rooms property))
         || num_leb (Property.floors property) num_zero
         || num_leb (Property.rooms property) num_zero
      then "All Rooms"
      else
        let roomsPerFloor :=
          num_max (num_ofNat 1)
            (num_floor (num_div (Property.rooms property) (Property.floors property))) in
        let displayRooms :=
          if num_gtb roomsPerFloor num_zero then roomsPerFloor else num_ofNat 1 in
        (num_toString displayRooms ++ " (All Rooms)")%string
  end.

(** [Array.from({ length: n }, (_, i) => f(i))]. *)
Definition arrayFrom {A} (n : nat) (f : nat → A) : list A :=
  f <$> seq 0 n.

(** The computed [availableFloors]. *)
Definition availableFloors (f : Form) : list Num :=
  match selectedProperty f with
  | None => []
  | Some property =>
      arrayFrom (num_toLength (Property.floors property)) (λ i, num_ofNat (i + 1))
  end.

(** The computed [availableRooms]. *)
Definition availableRooms (f : Form) : list string :=
  match selectedProperty f with
  | None => ["All Rooms"]
  | Some property =>
      if falsyNum (TenantDraft.floor (newTenant f))
         || num_leb (Property.floors property) num_zero
         || num_leb (Property.rooms property) num_zero
      then ["All Rooms"]
      else
        let roomsPerFloor :=
          num_max (num_ofNat 1)
            (num_floor (num_div (Property.rooms property) (Property.floors property))) in
        let roomList :=
          arrayFrom (num_toLength roomsPerFloor)
                    (λ i, ("Room " ++ num_toString (num_ofNat (i + 1)))%string) in
        let allRoomsText := generateDefaultRoomOption (selectedProperty f) in
        allRoomsText :: roomList
  end.

(** The callback of [watch(() => newTenant.value.propertyId, ...)], run for
    the property id the form holds; the message is the [alert] raised, if
    any. *)
Definition onPropertyIdChange (v : TenantList.Refs Num) (f : Form)
  : option string * Form :=
  let id := TenantDraft.propertyId (newTenant f) in
  let selected := find (λ p, Some (Property.id p) = id) (TenantList.properties v) in
  match selected with
  | Some property =>
      if Property.archive property
      then (Some "This property is archived. Please unarchive the property first or select a different one.",
            {| showAddModal := showAddModal f;
               selectedProperty := None;
               isEditing := isEditing f;
               editingTenantId := editingTenantId f;
               newTenant := withPropertyId (newTenant f) "" |})
      else (None,
            {| showAddModal := showAddModal f;
               selectedProperty := selected;
               isEditing := isEditing f;
               editingTenantId := editingTenantId f;
               newTenant := withFloorRoom (newTenant f) (num_ofNat 1)
                              (generateDefaultRoomOption selected) |})
  | None =>
      (None,
       {| showAddModal := showAddModal f;
          selectedProperty := None;
          isEditing := isEditing f;
          editingTenantId := editingTenantId f;
          newTenant := withFloorRoom (newTenant f) (num_ofNat 1) "All Rooms" |})
  end.

Definition resetModal : Form := {|
  showAddModal := false;
  isEditing := false;
  editingTenantId := None;
  newTenant :=
    TenantDraft.mk None (Some "") (Some num_zero) (Some "") (Some "")
      (Some "advance paid") (Some "") (Some (num_ofNat 1)) (Some "All Rooms")
      (Some false);
  selectedProperty := None
|}.

(** [s ? new Date(s).toISOString() : new Date().toISOString()]; [None]
    stands for the [RangeError] of an Invalid Date. *)
Definition leaseDate (s : option string) (now : Z) : option string :=
  if falsyStr s then Some (date_toISOString now)
  else toISOString (default "" s).

(** [addOrUpdateTenant()]. *)
Definition addOrUpdateTenant (v : TenantList.Refs Num) (f : Form) (env : Env)
  : Async Num (Outcome * (TenantList.Refs Num * Form)) :=
  let nt := newTenant f in
  if falsyStr (TenantDraft.name nt) || falsyStr (TenantDraft.propertyId nt)
     || falsyNum (TenantDraft.floor nt) || falsyStr (TenantDraft.room nt)
  then ret (Alerted "Please fill in all required tenant details.", (v, f))
  else
    let property :=
      find (λ p, Some (Property.id p) = TenantDraft.propertyId nt)
           (TenantList.properties v) in
    if match property with
       | Some p => Property.archive p
       | None => false
       end
    then ret (Alerted "Cannot add or assign tenants to an archived property.", (v, f))
    else
      match leaseDate (TenantDraft.leaseStart nt) (nowLeaseStart env) with
      | None => ret (Thrown, (v, f))
      | Some leaseStartDate =>
          match leaseDate (TenantDraft.leaseEnd nt) (nowLeaseEnd env),
                TenantDraft.floor nt with
          | Some leaseEndDate, Some floor =>
              let tenant :=
                Tenant.mk
                  (if isEditing f && negb (falsyStr (editingTenantId f))
                   then default "" (editingTenantId f)
                   else randomUUID env)
                  (default "" (TenantDraft.name nt))
                  (orZeroOpt (TenantDraft.rent nt))
                  leaseStartDate
                  leaseEndDate
                  (if falsyStr (TenantDraft.rentStatus nt) then "advance paid"
                   else default "" (TenantDraft.rentStatus nt))
                  (default "" (TenantDraft.propertyId nt))
                  floor
                  (default "" (TenantDraft.room nt))
                  (if isEditing f then default false (TenantDraft.archive nt)
                   else false) in
              await_ (if isEditing f
                      then Db.updateTenant tenant
                      else Db.addTenant tenant) in
              await properties' := Db.getProperties in
              await tenants' := Db.getTenants in
              await payments' := Db.getPayments in
              ret (Saved,
                   ({| TenantList.tenants := tenants';
                       TenantList.properties := properties';
                       TenantList.payments := payments' |},
                    resetModal))
          | _, _ => ret (Thrown, (v, f))
          end
      end.

(** [editTenant(tenant)]. *)
Definition editTenant (v : TenantList.Refs Num) (f : Form) (tenant : Tenant.t Num)
  : option string * Form :=
  if TenantList.getPropertyArchivedStatus v (Tenant.propertyId tenant)
  then (Some ("Tenant " ++ quote ++ Tenant.name tenant ++ quote
              ++ " cannot be edited because their property " ++ quote
              ++ TenantList.getPropertyName v (Tenant.propertyId tenant) ++ quote
              ++ " is archived. Please unarchive the property first.")%string,
        f)
  else (None,
        {| newTenant :=
             TenantDraft.mk (Some (Tenant.id tenant)) (Some (Tenant.name tenant))
               (Some (Tenant.rent tenant)) (Some (Tenant.leaseStart tenant))
               (Some (Tenant.leaseEnd tenant)) (Some (Tenant.rentStatus tenant))
               (Some (Tenant.propertyId tenant)) (Some (Tenant.floor tenant))
               (Some (Tenant.room tenant)) (Some (Tenant.archive tenant));
           editingTenantId := Some (Tenant.id tenant);
           selectedProperty :=
             find (λ p, Property.id p = Tenant.propertyId tenant)
                  (TenantList.properties v);
           isEditing := true;
           showAddModal := true |}).

(** [{ ...tenant, archive: !tenant.archive }]. *)
Definition withArchiveToggled (tenant : Tenant.t Num) : Tenant.t Num :=
  Tenant.mk (Tenant.id tenant) (Tenant.name tenant) (Tenant.rent tenant)
    (Tenant.leaseStart tenant) (Tenant.leaseEnd tenant) (Tenant.rentStatus tenant)
    (Tenant.propertyId tenant) (Tenant.floor tenant) (Tenant.room tenant)
    (negb (Tenant.archive tenant)).

(** [toggleArchiveTenant(tenant)]. *)
Definition toggleArchiveTenant (v : TenantList.Refs Num) (tenant : Tenant.t Num)
  : Async Num (option string * TenantList.Refs Num) :=
  if TenantList.getPropertyArchivedStatus v (Tenant.propertyId tenant)
  then ret (Some ("Cannot change archive status for " ++ quote
                  ++ Tenant.name tenant ++ quote
                  ++ " because the property " ++ quote
                  ++ TenantList.getPropertyName v (Tenant.propertyId tenant) ++ quote
                  ++ " is archived.")%string,
            v)
  else
    let updatedTenant := withArchiveToggled tenant in
    await_ Db.updateTenant updatedTenant in
    await tenants' := Db.getTenants in
    ret (None,
         {| TenantList.tenants := tenants';
            TenantList.properties := TenantList.properties v;
            TenantList.payments := TenantList.payments v |}).
End TenantListForm.
Arguments Form : clear implicits.
End TenantListForm.

(** ** [src/views/RentTracking.vue], the list and the modal helpers *)

Module RentTrackingList.
Section RentTrackingList.
Context `{JsBuiltins Num} `{!JsExtras Num}.

(** [onMounted]: the three arrays are fetched, properties first. *)
Definition onMounted (v : RentTracking.Refs Num) : Async Num (RentTracking.Refs Num) :=
  await properties' := Db.getProperties in
  await tenants' := Db.getTenants in
  await payments' := Db.getPayments in
  ret {| RentTracking.payments := payments';
         RentTracking.tenants := tenants';
         RentTracking.properties := properties';
         RentTracking.showAddModal := RentTracking.showAddModal v;
         RentTracking.isEditingPayment := RentTracking.isEditingPayment v;
         RentTracking.editingPaymentId := RentTracking.editingPaymentId v;
         RentTracking.newPayment := RentTracking.newPayment v |}.

Definition withNewPayment (v : RentTracking.Refs Num) (np : PaymentDraft.t Num)
  : RentTracking.Refs Num := {|
  RentTracking.payments := RentTracking.payments v;
  RentTracking.tenants := RentTracking.tenants v;
  RentTracking.properties := RentTracking.properties v;
  RentTracking.showAddModal := RentTracking.showAddModal v;
  RentTracking.isEditingPayment := RentTracking.isEditingPayment v;
  RentTracking.editingPaymentId := RentTracking.editingPaymentId v;
  RentTracking.newPayment := np
|}.

(** [newPayment.value.amount = amount]. *)
Definition withAmount (np : PaymentDraft.t Num) (amount : Num) : PaymentDraft.t Num :=
  PaymentDraft.mk (PaymentDraft.id np) (PaymentDraft.tenantId np) (Some amount)
    (PaymentDraft.date np) (PaymentDraft.status np) (PaymentDraft.month np)
    (PaymentDraft.archive np).

(** The callback of [watch(() => newPayment.value.tenantId, ...)], run for
    the tenant id the form holds. *)
Definition onTenantIdChange (v : RentTracking.Refs Num) : RentTracking.Refs Num :=
  let np := RentTracking.newPayment v in
  if falsyStr (PaymentDraft.tenantId np)
  then withNewPayment v (withAmount np num_zero)
  else
    let tenant :=
      find (λ t, Some (Tenant.id t) = PaymentDraft.tenantId np) (RentTracking.tenants v) in
    match tenant with
    | Some t =>
        if RentTracking.isTenantEffectivelyArchived v tenant
        then v
        else withNewPayment v (withAmount np (Tenant.rent t))
    | None => withNewPayment v (withAmount np num_zero)
    end.

Definition getPropertyName (v : RentTracking.Refs Num) (propertyId : string) : string :=
  match find (λ p, Property.id p = propertyId) (RentTracking.properties v) with
  | Some property => Property.name property
  | None => "Unknown Property"
  end.

(** An element of [paymentsWithDetails]: the fields of the payment, spread,
    and the fields computed for it. *)
Record PaymentDetails := {
  payment : RentPayment.t Num;
  tenantName : string;
  propertyName : string;
  tenantInfo : string;
  remainingAmount : option Num;
  tenantRent : Num;
  isEffectivelyArchived : bool
}.

(** The body of the [map] of [paymentsWithDetails]. *)
Definition paymentDetails (v : RentTracking.Refs Num) (payment : RentPayment.t Num)
  : PaymentDetails :=
  let tenant :=
    find (λ t, Tenant.id t = RentPayment.tenantId payment) (RentTracking.tenants v) in
  let tenantRent :=
    match tenant with
    | Some t => Tenant.rent t
    | None => num_zero
    end in
  let tenantIsEffectivelyArchived := RentTracking.isTenantEffectivelyArchived v tenant in
  let isEffectivelyArchived := RentPayment.archive payment || tenantIsEffectivelyArchived in
  match tenant with
  | Some t =>
      let propertyName := getPropertyName v (Tenant.propertyId t) in
      let propertyStatus :=
        if RentTracking.getPropertyArchivedStatus v (Tenant.propertyId t)
        then "[Property Archived]" else "" in
      let tenantStatus := if Tenant.archive t then "[Tenant Archived]" else "" in
      {| payment := payment;
         tenantName := Tenant.name t;
         propertyName := propertyName;
         tenantInfo :=
           trim (Tenant.name t ++ " - " ++ propertyName ++ " (Floor "
                 ++ num_toString (Tenant.floor t) ++ ", " ++ Tenant.room t ++ ") "
                 ++ propertyStatus ++ " " ++ tenantStatus)%string;
         remainingAmount :=
           if bool_decide (RentPayment.status payment = "partial")
              && num_gtb tenantRent num_zero
           then Some (num_max num_zero (num_sub tenantRent (RentPayment.amount payment)))
           else None;
         tenantRent := tenantRent;
         isEffectivelyArchived := isEffectivelyArchived |}
  | None =>
      {| payment := payment;
         tenantName := "Unknown Tenant";
         propertyName := "Unknown Property";
         tenantInfo :=
           ("Unknown Tenant (ID: " ++ RentPayment.tenantId payment ++ ")")%string;
         remainingAmount := None;
         tenantRent := tenantRent;
         isEffectivelyArchived := isEffectivelyArchived |}
  end.

(** [(a, b) => new Date(b.date).getTime() - new Date(a.date).getTime()] on
    the rows. *)
Definition rowsByDateDesc (a b : PaymentDetails) : Z :=
  TenantList.byDateDesc (payment a) (payment b).

(** The computed [paymentsWithDetails]. *)
Definition paymentsWithDetails (v : RentTracking.Refs Num) : list PaymentDetails :=
  sortBy rowsByDateDesc (paymentDetails v <$> RentTracking.payments v).

(** The computed [activeTenantsForSelect]. *)
Definition activeTenantsForSelect (v : RentTracking.Refs Num) : list (Tenant.t Num) :=
  filter (λ tenant, RentTracking.isTenantEffectivelyArchived v (Some tenant) = false)
         (RentTracking.tenants v).

(** [arr.some(P)]. *)
Definition some {A} (P : A → Prop) `{∀ x, Decision (P x)} (l : list A) : bool :=
  bool_decide (Exists P l).

(** The computed [tenantsForModal]. *)
Definition tenantsForModal (v : RentTracking.Refs Num) : list (Tenant.t Num) :=
  let activeTenants :=
    filter (λ tenant, RentTracking.isTenantEffectivelyArchived v (Some tenant) = false)
           (RentTracking.tenants v) in
  if RentTracking.isEditingPayment v
     && negb (falsyStr (PaymentDraft.tenantId (RentTracking.newPayment v)))
  then
    let currentTenant :=
      find (λ t, Some (Tenant.id t) = PaymentDraft.tenantId (RentTracking.newPayment v))
           (RentTracking.tenants v) in
    match currentTenant with
    | Some current =>
        if negb (some (λ at', Tenant.id at' = Tenant.id current) activeTenants)
        then activeTenants ++ [current]
        else activeTenants
    | None => activeTenants
    end
  else activeTenants.

(** [deletePayment(id)]; [confirmDelete] is the answer to the [confirm]
    dialog. *)
Definition deletePayment (v : RentTracking.Refs Num) (confirmDelete : bool)
    (id : string) : Async Num (RentTracking.Refs Num) :=
  if negb confirmDelete then ret v
  else
    await_ Db.deletePayment id in
    await payments' := Db.getPayments in
    ret (RentTracking.setPayments v payments').

(** [editPayment(payment)], for a row of [paymentsWithDetails]; the message
    is the [alert] raised, if any. *)
Definition editPayment (v : RentTracking.Refs Num) (row : PaymentDetails)
  : option string * RentTracking.Refs Num :=
  if isEffectivelyArchived row
  then (Some "Cannot edit an archived payment record.", v)
  else
    let originalPayment :=
      find (λ p, RentPayment.id p = RentPayment.id (payment row))
           (RentTracking.payments v) in
    match originalPayment with
    | None => (Some "Original payment record not found.", v)
    | Some original =>
        (None,
         {| RentTracking.payments := RentTracking.payments v;
            RentTracking.tenants := RentTracking.tenants v;
            RentTracking.properties := RentTracking.properties v;
            RentTracking.showAddModal := true;
            RentTracking.isEditingPayment := true;
            RentTracking.editingPaymentId := Some (RentPayment.id (payment row));
            RentTracking.newPayment :=
              PaymentDraft.mk (Some (RentPayment.id original))
                (Some (RentPayment.tenantId original))
                (Some (RentPayment.amount original))
                (Some (RentPayment.date original))
                (Some (RentPayment.status original))
                (Some (RentPayment.month original))
                (Some (RentPayment.archive original)) |})
    end.

(** A click on the edit button as the component runs it: [editPayment], and
    then the watcher on [newPayment.value.tenantId], which Vue runs when the
    tenant id of the draft is no longer the one it was. *)
Definition editPaymentClick (v : RentTracking.Refs Num) (row : PaymentDetails)
  : option string * RentTracking.Refs Num :=
  let r := editPayment v row in
  if bool_decide (PaymentDraft.tenantId (RentTracking.newPayment r.2)
                  = PaymentDraft.tenantId (RentTracking.newPayment v))
  then r
  else (r.1, onTenantIdChange r.2).

(** [formatTenantOption(tenant)]. *)
Definition formatTenantOption (v : RentTracking.Refs Num) (tenant : Tenant.t Num)
  : string :=
  let propertyName := getPropertyName v (Tenant.propertyId tenant) in
  let rentInfo := ("(Rent: $" ++ num_toString (Tenant.rent tenant) ++ ")")%string in
  let baseInfo := (Tenant.name tenant ++ " - " ++ propertyName ++ " " ++ rentInfo)%string in
  if RentTracking.isTenantEffectivelyArchived v (Some tenant)
  then (baseInfo ++ " [ARCHIVED]")%string
  else baseInfo.
End RentTrackingList.
Arguments PaymentDetails : clear implicits.
End RentTrackingList.

(** ** [src/views/AlertsTodo.vue], the alerts and the to-do list *)

Module AlertsTodoLists.
Section AlertsTodoLists.
Context `{JsBuiltins Num} `{!JsExtras Num}.

Definition setTodos (v : AlertsTodo.Refs Num) (ts : list TodoItem.t)
  : AlertsTodo.Refs Num := {|
  AlertsTodo.tenants := AlertsTodo.tenants v;
  AlertsTodo.properties := AlertsTodo.properties v;
  AlertsTodo.payments := AlertsTodo.payments v;
  AlertsTodo.todos := ts;
  AlertsTodo.isLoading := AlertsTodo.isLoading v;
  AlertsTodo.errorLoading := AlertsTodo.errorLoading v
|}.

Definition getPropertyName (v : AlertsTodo.Refs Num) (propertyId : string) : string :=
  if bool_decide (length (AlertsTodo.properties v) = 0%nat) then "Loading..."
  else
    match find (λ p, Property.id p = propertyId) (AlertsTodo.properties v) with
    | Some property => Property.name property
    | None => "Unknown Property"
    end.

(** [p.date && !isNaN(new Date(p.date).getTime())]. *)
Definition hasValidDate (p : RentPayment.t Num) : Prop :=
  RentPayment.date p ≠ "" ∧ is_Some (date_getTime (RentPayment.date p)).

(** [getLatestPaymentStatus(tenantId)]; [None] stands for [null]. *)
Definition getLatestPaymentStatus (v : AlertsTodo.Refs Num) (tenantId : string)
  : option string :=
  if bool_decide (length (AlertsTodo.payments v) = 0%nat) then None
  else
    let tenantPayments :=
      sortBy TenantList.byDateDesc
        (filter hasValidDate
           (filter (λ p, RentPayment.tenantId p = tenantId) (AlertsTodo.payments v))) in
    match tenantPayments with
    | latest :: _ =>
        if bool_decide (RentPayment.status latest = "") then None
        else Some (toLowerCase (RentPayment.status latest))
    | [] => None
    end.

(** [(a, b) => new Date(a.leaseEnd).getTime() - new Date(b.leaseEnd).getTime()];
    a [NaN] result is read as [+0] by [sort]. *)
Definition byLeaseEndAsc (a b : Tenant.t Num) : Z :=
  match date_getTime (Tenant.leaseEnd a), date_getTime (Tenant.leaseEnd b) with
  | Some ta, Some tb => ta - tb
  | _, _ => 0
  end.

(** The condition of the [filter] of [expiringLeases]. *)
Definition leaseExpiring (v : AlertsTodo.Refs Num) (today threeMonthsFromNow : Z)
    (tenant : Tenant.t Num) : bool :=
  if AlertsTodo.isTenantEffectivelyArchived v (Some tenant)
     || bool_decide (Tenant.leaseEnd tenant = "")
  then false
  else
    match date_getTime (Tenant.leaseEnd tenant) with
    | None => false
    | Some leaseEndDate =>
        (today <=? leaseEndDate) && (leaseEndDate <=? threeMonthsFromNow)
    end.

(** The computed [expiringLeases]; [today] is the time value of the start
    of the current day and [threeMonthsFromNow] the one [setMonth] gives
    three months later. *)
Definition expiringLeases (v : AlertsTodo.Refs Num) (today threeMonthsFromNow : Z)
  : list (Tenant.t Num) :=
  if AlertsTodo.isLoading v || negb (falsyStr (AlertsTodo.errorLoading v))
     || bool_decide (length (AlertsTodo.tenants v) = 0%nat)
  then []
  else
    sortBy byLeaseEndAsc
      (filter (λ tenant, leaseExpiring v today threeMonthsFromNow tenant = true)
              (AlertsTodo.tenants v)).

(** The computed [overdueTenants]. *)
Definition overdueTenants (v : AlertsTodo.Refs Num) : list (Tenant.t Num) :=
  if AlertsTodo.isLoading v || negb (falsyStr (AlertsTodo.errorLoading v))
     || bool_decide (length (AlertsTodo.tenants v) = 0%nat)
  then []
  else
    filter (λ tenant,
              AlertsTodo.isTenantEffectivelyArchived v (Some tenant) = false
              ∧ getLatestPaymentStatus v (Tenant.id tenant) = Some "overdue")
           (AlertsTodo.tenants v).

(** The comparator of [allTodosSorted]: open tasks first, then the newest
    first. *)
Definition byCompletedThenNewest (a b : TodoItem.t) : Z :=
  if bool_decide (TodoItem.completed a = TodoItem.completed b)
  then
    match date_getTime (TodoItem.createdAt b), date_getTime (TodoItem.createdAt a) with
    | Some tb, Some ta => tb - ta
    | _, _ => 0
    end
  else if TodoItem.completed a then 1 else -1.

(** The computed [allTodosSorted]. *)
Definition allTodosSorted (v : AlertsTodo.Refs Num) : list TodoItem.t :=
  if AlertsTodo.isLoading v || negb (falsyStr (AlertsTodo.errorLoading v))
  then []
  else sortBy byCompletedThenNewest (AlertsTodo.todos v).

(** [addTodo()]; [newTodoText] is the text of the input, returned with the
    refs; [randomUUID] and [now] are the values of [crypto.randomUUID()] and
    of [new Date().getTime()]. *)
Definition addTodo (v : AlertsTodo.Refs Num) (newTodoText : string)
    (randomUUID : string) (now : Z) : Async Num (AlertsTodo.Refs Num * string) :=
  let text := trim newTodoText in
  if bool_decide (text = "") then ret (v, newTodoText)
  else
    let newTodo := TodoItem.mk randomUUID text false (date_toISOString now) in
    await_ Db.addTodo newTodo in
    await todos' := Db.getTodos in
    ret (setTodos v todos', "").

(** [{ ...todo, completed: !todo.completed }]. *)
Definition withCompletedToggled (todo : TodoItem.t) : TodoItem.t :=
  TodoItem.mk (TodoItem.id todo) (TodoItem.text todo)
    (negb (TodoItem.completed todo)) (TodoItem.createdAt todo).

Definition toggleComplete (v : AlertsTodo.Refs Num) (todo : TodoItem.t)
  : Async Num (AlertsTodo.Refs Num) :=
  let updatedTodo := withCompletedToggled todo in
  await_ Db.updateTodo updatedTodo in
  await todos' := Db.getTodos in
  ret (setTodos v todos').

Definition deleteTodo (v : AlertsTodo.Refs Num) (id : string)
  : Async Num (AlertsTodo.Refs Num) :=
  await_ Db.deleteTodo id in
  await todos' := Db.getTodos in
  ret (setTodos v todos').
End AlertsTodoLists.
End AlertsTodoLists.

(** ** [src/composables/useAuth.ts] *)

Module UseAuth.
Section UseAuth.
Context `{JsBuiltins Num} `{!JsExtras Num}.

(** The refs of the module, the item of [sessionStorage] under
    ['abode_auth_user_username'], and the name of the route [router.push]
    was last given. *)
Record State := {
  isAuthenticated : bool;
  currentUser : option User.t;
  authError : option string;
  isLoading : bool;
  isFetchingInitialUser : bool;
  sessionItem : option string;
  pushed : option string
}.

(** The argument of [updateProfile]. *)
Record Updates := {
  name : option string;
  currentPassword : option string;
  newPassword : option string
}.

(** The module body: the refs as they are initialised from the session, and
    the re-fetch of the user when the session names one. *)
Definition init (initialUsername : option string) : Async Num State :=
  if negb (falsyStr initialUsername)
  then
    await user := Db.getUserByUsername (default "" initialUsername) in
    match user with
    | Some user =>
        ret {| isAuthenticated := true; currentUser := Some user;
               authError := None; isLoading := false;
               isFetchingInitialUser := false;
               sessionItem := initialUsername; pushed := None |}
    | None =>
        ret {| isAuthenticated := false; currentUser := None;
               authError := None; isLoading := false;
               isFetchingInitialUser := false;
               sessionItem := None; pushed := None |}
    end
  else
    ret {| isAuthenticated := false; currentUser := None;
           authError := None; isLoading := false;
           isFetchingInitialUser := false;
           sessionItem := initialUsername; pushed := None |}.

Definition login (a : State) (username password : string) : Async Num (bool * State) :=
  await user := Db.getUserByUsername username in
  match user with
  | Some user =>
      if bool_decide (User.password user = password)
      then ret (true,
                {| isAuthenticated := true; currentUser := Some user;
                   authError := None; isLoading := false;
                   isFetchingInitialUser := isFetchingInitialUser a;
                   sessionItem := Some (User.username user);
                   pushed := pushed a |})
      else ret (false,
                {| isAuthenticated := isAuthenticated a;
                   currentUser := currentUser a;
                   authError := Some "Invalid username or password.";
                   isLoading := false;
                   isFetchingInitialUser := isFetchingInitialUser a;
                   sessionItem := sessionItem a; pushed := pushed a |})
  | None =>
      ret (false,
           {| isAuthenticated := isAuthenticated a;
              currentUser := currentUser a;
              authError := Some "Invalid username or password.";
              isLoading := false;
              isFetchingInitialUser := isFetchingInitialUser a;
              sessionItem := sessionItem a; pushed := pushed a |})
  end.

(** [message || fallback] on [string | undefined]. *)
Definition orMessage (message : option string) (fallback : string) : string :=
  if falsyStr message then fallback else default "" message.

(** [register(username, name, password)]; [randomUUID] is the value of
    [crypto.randomUUID()]. *)
Definition register (a : State) (username name password randomUUID : string)
  : Async Num (bool * State) :=
  let newUser := User.mk randomUUID username password (Some name) in
  await result := Db.addUser newUser in
  if Db.success result
  then ret (true,
            {| isAuthenticated := isAuthenticated a; currentUser := currentUser a;
               authError := None; isLoading := false;
               isFetchingInitialUser := isFetchingInitialUser a;
               sessionItem := sessionItem a; pushed := pushed a |})
  else ret (false,
            {| isAuthenticated := isAuthenticated a; currentUser := currentUser a;
               authError := Some (orMessage (Db.message result) "Registration failed.");
               isLoading := false;
               isFetchingInitialUser := isFetchingInitialUser a;
               sessionItem := sessionItem a; pushed := pushed a |}).

(** The state at the [finally] of [updateProfile], for a return inside the
    [try] that leaves the user as it is. *)
Definition settled (a : State) (error : option string) : State :=
  {| isAuthenticated := isAuthenticated a; currentUser := currentUser a;
     authError := error; isLoading := false;
     isFetchingInitialUser := isFetchingInitialUser a;
     sessionItem := sessionItem a; pushed := pushed a |}.

Definition failure (message : string) : Db.Result :=
  {| Db.success := false; Db.message := Some message |}.

(** The name and password steps of [updateProfile] on the copy of the
    current user: the record to store and whether the password changed, or
    the failure returned. A string is the sequence of its code units, so
    [String.length] is [.length]. *)
Definition prepareUpdate (user : User.t) (updates : Updates)
  : Db.Result + (User.t * bool) :=
  let withPassword : Db.Result + (string * bool) :=
    if negb (falsyStr (newPassword updates))
    then
      if falsyStr (currentPassword updates)
      then inl (failure "Current password is required to set a new password.")
      else if negb (bool_decide (currentPassword updates = Some (User.password user)))
      then inl (failure "Incorrect current password.")
      else if (String.length (default "" (newPassword updates)) <? 6)%nat
      then inl (failure "New password must be at least 6 characters long.")
      else inr (default "" (newPassword updates), true)
    else inr (User.password user, false) in
  match withPassword with
  | inl result => inl result
  | inr (password, passwordChanged) =>
      let name' :=
        match name updates with
        | Some n =>
            if negb (bool_decide (Some n = User.name user))
            then (if bool_decide (trim n = "") then None else Some (trim n))
            else User.name user
        | None => User.name user
        end in
      inr (User.mk (User.id user) (User.username user) password name',
           passwordChanged)
  end.

Definition updateProfile (a : State) (updates : Updates)
  : Async Num (Db.Result * State) :=
  match currentUser a with
  | Some user =>
      if negb (isAuthenticated a)
      then ret (failure "User not authenticated.", a)
      else
        match prepareUpdate user updates with
        | inl result => ret (result, settled a None)
        | inr (userToUpdate, passwordChanged) =>
            await result := Db.updateUser userToUpdate in
            if Db.success result
            then ret ({| Db.success := true;
                         Db.message :=
                           Some (if passwordChanged
                                 then "Profile and password updated."
                                 else "Profile updated.") |},
                      {| isAuthenticated := isAuthenticated a;
                         currentUser := Some userToUpdate;
                         authError := None; isLoading := false;
                         isFetchingInitialUser := isFetchingInitialUser a;
                         sessionItem := sessionItem a; pushed := pushed a |})
            else
              let error := orMessage (Db.message result) "Profile update failed." in
              ret (failure error, settled a (Some error))
        end
  | None => ret (failure "User not authenticated.", a)
  end.

Definition logout (a : State) : State :=
  {| isAuthenticated := false; currentUser := None; authError := None;
     isLoading := isLoading a;
     isFetchingInitialUser := isFetchingInitialUser a;
     sessionItem := None; pushed := Some "login" |}.
End UseAuth.
End UseAuth.

(** ** [src/router/index.ts] *)

Module Router.
(** A route record: its name and [meta.requiresAuth]. *)
Record Route := {
  name : string;
  path : string;
  requiresAuth : bool
}.

Definition routes : list Route := [
  {| path := "/login"; name := "login"; requiresAuth := false |};
  {| path := "/register"; name := "register"; requiresAuth := false |};
  {| path := "/aboutus"; name := "aboutus"; requiresAuth := false |};
  {| path := "/profile"; name := "profile"; requiresAuth := true |};
  {| path := "/"; name := "home"; requiresAuth := true |};
  {| path := "/properties"; name := "properties"; requiresAuth := true |};
  {| path := "/tenants"; name := "tenants"; requiresAuth := true |};
  {| path := "/rent-tracking"; name := "rent-tracking"; requiresAuth := true |};
  {| path := "/alertstodo"; name := "alertstodo"; requiresAuth := true |}
].

(** [checkAuth()], on the item of [sessionStorage]. *)
Definition checkAuth (sessionItem : option string) : bool :=
  negb (falsyStr sessionItem).

(** What the guard calls [next] with. *)
Inductive Navigation :=
  | Proceed
  | RedirectTo (name : string).

(** The guard of [router.beforeEach], for a target whose matched records are
    the target itself (the routes have no children). *)
Definition beforeEach (to : Route) (sessionItem : option string) : Navigation :=
  let isAuthenticated := checkAuth sessionItem in
  if requiresAuth to && negb isAuthenticated
  then RedirectTo "login"
  else if (bool_decide (name to = "login") || bool_decide (name to = "register"))
          && isAuthenticated
  then RedirectTo "home"
  else Proceed.
End Router.

(** ** [src/views/ProfileView.vue] *)

Module ProfileView.
Section ProfileView.
Context `{JsBuiltins Num} `{!JsExtras Num}.

(** [{ type: 'success' | 'error', text }]. *)
Record StatusMessage := {
  isSuccess : bool;
  text : string
}.

Record Form := {
  currentPassword : string;
  newPassword : string;
  confirmPassword : string;
  displayName : string;
  statusMessage : option StatusMessage
}.

Definition withStatus (f : Form) (m : option StatusMessage) : Form :=
  {| currentPassword := currentPassword f; newPassword := newPassword f;
     confirmPassword := confirmPassword f; displayName := displayName f;
     statusMessage := m |}.

(** The [updates] object [handleProfileUpdate] builds, when it gets as far
    as building it. *)
Definition updatesOf (user : User.t) (f : Form) : UseAuth.Updates :=
  {| UseAuth.name :=
       if negb (bool_decide (displayName f = default "" (User.name user)))
       then Some (displayName f) else None;
     UseAuth.currentPassword :=
       if bool_decide (newPassword f = "") then None else Some (currentPassword f);
     UseAuth.newPassword :=
       if bool_decide (newPassword f = "") then None else Some (newPassword f) |}.

(** [handleProfileUpdate()], from its first statement to its return. The
    [watchEffect] of the view, which refills [displayName] whenever the
    current user changes, is a separate effect and runs after it. *)
Definition handleProfileUpdate (a : UseAuth.State) (f : Form)
  : Async Num (UseAuth.State * Form) :=
  match UseAuth.currentUser a with
  | None => ret (a, withStatus f None)
  | Some user =>
      if negb (bool_decide (newPassword f = ""))
         && negb (bool_decide (newPassword f = confirmPassword f))
      then ret (a, withStatus f (Some {| isSuccess := false;
                                         text := "New passwords do not match." |}))
      else if negb (bool_decide (newPassword f = ""))
              && bool_decide (currentPassword f = "")
      then ret (a, withStatus f
                     (Some {| isSuccess := false;
                              text := "Current password is required to set a new one." |}))
      else if bool_decide (displayName f = default "" (User.name user))
              && bool_decide (newPassword f = "")
      then ret (a, withStatus f (Some {| isSuccess := true;
                                         text := "No changes detected." |}))
      else
        await result := UseAuth.updateProfile a (updatesOf user f) in
        let '(result, a') := result in
        if Db.success result
        then ret (a',
                  {| currentPassword := ""; newPassword := ""; confirmPassword := "";
                     displayName := displayName f;
                     statusMessage :=
                       Some {| isSuccess := true;
                               text := UseAuth.orMessage (Db.message result)
                                         "Profile updated successfully!" |} |})
        else ret (a',
                  withStatus f
                    (Some {| isSuccess := false;
                             text := UseAuth.orMessage (Db.message result)
                                       "Failed to update profile." |}))
  end.
End ProfileView.
End ProfileView.

(** ** A concrete runtime

    One implementation of [JsBuiltins], used to evaluate the code on
    examples: numbers are the integers, [toLowerCase] maps the letters
    [A]..[Z], and a date is read when it is a calendar day written
    [YYYY-MM-DD] (what [<input type="date">] yields), as midnight UTC. *)

Module Runtime.
Definition lowerAscii (c : ascii) : ascii :=
  let n := nat_of_ascii c in
  if (65 <=? n)%nat && (n <=? 90)%nat then ascii_of_nat (n + 32) else c.

Fixpoint lower (s : string) : string :=
  match s with
  | EmptyString => EmptyString
  | String c s' => String (lowerAscii c) (lower s')
  end.

Definition digit (c : ascii) : option Z :=
  let n := nat_of_ascii c in
  if (48 <=? n)%nat && (n <=? 57)%nat then Some (Z.of_nat (n - 48)) else None.

Fixpoint digits (acc : Z) (s : string) : option Z :=
  match s with
  | EmptyString => Some acc
  | String c s' =>
      match digit c with
      | Some d => digits (10 * acc + d) s'
      | None => None
      end
  end.

Definition isLeap (y : Z) : bool :=
  ((y mod 4 =? 0) && negb (y mod 100 =? 0)) || (y mod 400 =? 0).

Definition daysInMonth (y m : Z) : Z :=
  if m =? 2 then (if isLeap y then 29 else 28)
  else if (m =? 4) || (m =? 6) || (m =? 9) || (m =? 11) then 30
  else 31.

(** Days between 1970-01-01 and the given day of the proleptic Gregorian
    calendar. *)
Definition daysFromCivil (y m d : Z) : Z :=
  let y' := if m <=? 2 then y - 1 else y in
  let era := y' / 400 in
  let yoe := y' - era * 400 in
  let mp := if m <=? 2 then m + 9 else m - 3 in
  let doy := (153 * mp + 2) / 5 + d - 1 in
  let doe := yoe * 365 + yoe / 4 - yoe / 100 + doy in
  era * 146097 + doe - 719468.

Definition getTime (s : string) : option Z :=
  if bool_decide (String.length s = 10%nat)
     && bool_decide (String.get 4 s = Some "-"%char)
     && bool_decide (String.get 7 s = Some "-"%char)
  then
    match digits 0 (substring 0 4 s), digits 0 (substring 5 2 s),
          digits 0 (substring 8 2 s) with
    | Some y, Some m, Some d =>
        if (1 <=? m) && (m <=? 12) && (1 <=? d) && (d <=? daysInMonth y m)
        then Some (daysFromCivil y m d * 86400000)
        else None
    | _, _, _ => None
    end
  else None.

#[global] Instance builtins : JsBuiltins Z := {|
  num_zero := 0;
  num_add := Z.add;
  num_geb := Z.geb;
  num_gtb := Z.gtb;
  num_eqb := Z.eqb;
  num_truthy := λ x, negb (x =? 0);
  date_getTime := getTime;
  toLowerCase := lower
|}.
End Runtime.


(** The rest of the concrete runtime: [trim] removes the white space of the
    Latin-1 range, a quotient is rounded down at once (the code only ever
    takes its [Math.floor]), and [toISOString] covers the years 0000 to
    9999. *)
Module RuntimeExtras.
Definition isSpace (c : ascii) : bool :=
  let n := nat_of_ascii c in
  ((9 <=? n)%nat && (n <=? 13)%nat) || (n =? 32)%nat || (n =? 160)%nat.

Fixpoint trimStart (s : string) : string :=
  match s with
  | EmptyString => EmptyString
  | String c s' => if isSpace c then trimStart s' else s
  end.

Fixpoint reverse (acc s : string) : string :=
  match s with
  | EmptyString => acc
  | String c s' => reverse (String c acc) s'
  end.

Definition trimSpaces (s : string) : string :=
  reverse EmptyString (trimStart (reverse EmptyString (trimStart s))).

(** A natural number in decimal, padded with zeros to [width] digits. *)
Definition pad (width : nat) (n : Z) : string :=
  let digits := pretty (Z.to_N n) in
  (String.concat "" (replicate (width - String.length digits) "0") ++ digits)%string.

(** The year, month and day of a number of days since 1970-01-01. *)
Definition civilFromDays (days : Z) : Z * Z * Z :=
  let z := days + 719468 in
  let era := z / 146097 in
  let doe := z - era * 146097 in
  let yoe := (doe - doe / 1460 + doe / 36524 - doe / 146096) / 365 in
  let doy := doe - (365 * yoe + yoe / 4 - yoe / 100) in
  let mp := (5 * doy + 2) / 153 in
  let d := doy - (153 * mp + 2) / 5 + 1 in
  let m := if mp <? 10 then mp + 3 else mp - 9 in
  let y := yoe + era * 400 + (if m <=? 2 then 1 else 0) in
  (y, m, d).

Definition formatISO (t : Z) : string :=
  let days := t / 86400000 in
  let ms := t mod 86400000 in
  let '(y, m, d) := civilFromDays days in
  (pad 4 y ++ "-" ++ pad 2 m ++ "-" ++ pad 2 d ++ "T"
   ++ pad 2 (ms / 3600000) ++ ":" ++ pad 2 (ms / 60000 mod 60) ++ ":"
   ++ pad 2 (ms / 1000 mod 60) ++ "." ++ pad 3 (ms mod 1000) ++ "Z")%string.

#[global] Instance extras : JsExtras Z := {|
  num_sub := Z.sub;
  num_max := Z.max;
  num_div := Z.div;
  num_floor := λ x, x;
  num_leb := Z.leb;
  num_ofNat := Z.of_nat;
  num_toLength := Z.to_nat;
  num_toString := pretty;
  trim := trimSpaces;
  date_toISOString := formatISO
|}.
End RuntimeExtras.

(** ** Vocabulary of the statements *)

(** What reading ([coll_get]) and storing ([coll_put]) a collection satisfy:
    a stored array is read back, a second store replaces the first, and
    storing what was read changes nothing. *)
Record Lawful {Num A} (c : Collection Num A) : Prop := {
  get_put : ∀ xs d, coll_get c (coll_put c xs d) = xs;
  put_put : ∀ xs ys d, coll_put c xs (coll_put c ys d) = coll_put c xs d;
  put_get : ∀ d, coll_put c (coll_get c d) d = d
}.

(** The id [propertyId] resolves to the property [p] of the array [ps]: [p]
    is the first record of [ps] with that id. *)
Definition resolvesTo {Num} (ps : list (Property.t Num)) (propertyId : string)
    (p : Property.t Num) : Prop :=
  ∃ i, ps !! i = Some p ∧ Property.id p = propertyId
       ∧ ∀ j q, ps !! j = Some q → (j < i)%nat → Property.id q ≠ propertyId.

(** No record of [ps] has the id [propertyId]: a dangling reference. *)
Definition dangling {Num} (ps : list (Property.t Num)) (propertyId : string) : Prop :=
  Forall (λ p, Property.id p ≠ propertyId) ps.

(** The timestamp of a payment with a valid date; [0] stands in for the
    others, which the statements that use it exclude. *)
Definition timeOf `{JsBuiltins Num} (p : RentPayment.t Num) : Z :=
  default 0 (date_getTime (RentPayment.date p)).

(** The payments array after the [deletePayment] calls of a tenant
    deletion, one per payment of [doomed]. *)
Definition purge {Num} (doomed : list (RentPayment.t Num))
    (ps : list (RentPayment.t Num)) : list (RentPayment.t Num) :=
  filter (λ x, Forall (λ q, RentPayment.id x ≠ RentPayment.id q) doomed) ps.

(** The elements of [l] come in the order [R]: whatever comes earlier is
    related to whatever comes later. *)
Definition inOrder {A} (R : A → A → Prop) (l : list A) : Prop :=
  ∀ i j a b, (i < j)%nat → l !! i = Some a → l !! j = Some b → R a b.

(** The order of the to-do list: an open task comes before a completed one,
    and of two tasks in the same state the one created later comes first. *)
Definition todoOrder `{JsBuiltins Num} (a b : TodoItem.t) : Prop :=
  (TodoItem.completed a = false ∧ TodoItem.completed b = true)
  ∨ (TodoItem.completed a = TodoItem.completed b
     ∧ default 0 (date_getTime (TodoItem.createdAt b))
       ≤ default 0 (date_getTime (TodoItem.createdAt a))).

(** The time value of the end of a lease with a valid date; [0] stands in
    for the others, which the statements that use it exclude. *)
Definition leaseEndOf `{JsBuiltins Num} (t : Tenant.t Num) : Z :=
  default 0 (date_getTime (Tenant.leaseEnd t)).

(** A call on the collection stored under [key]. *)
Definition onKey (key : string) (call : IdbCall) : Prop :=
  call = IdbGet key ∨ call = IdbSet key.

(** No two users of the array have the same username, letter case aside. *)
Definition uniqueUsernames `{JsBuiltins Num} (us : list User.t) : Prop :=
  NoDup ((λ u, toLowerCase (User.username u)) <$> us).

(** The session is consistent: [isAuthenticated] holds exactly when a
    current user is loaded. *)
Definition signedIn (a : UseAuth.State) : Prop :=
  UseAuth.isAuthenticated a = true ↔ is_Some (UseAuth.currentUser a).

(** ** The scenario of section 8 of the specification, as data *)

Module Fixture.
Import Runtime.

Definition propertyP : Property.t Z :=
  Property.mk "P" "Ocean View Condo" "456 Beach Rd, Coast City" 2 4 false.

Definition propertyP_archived : Property.t Z :=
  Property.mk "P" "Ocean View Condo" "456 Beach Rd, Coast City" 2 4 true.

Definition tenantT1 : Tenant.t Z :=
  Tenant.mk "T1" "Diana Prince" 1000 "2025-01-01" "2025-12-31"
            "contract active" "P" 1 "Room 1" false.

Definition tenantT1_archived : Tenant.t Z :=
  Tenant.mk "T1" "Diana Prince" 1000 "2025-01-01" "2025-12-31"
            "contract active" "P" 1 "Room 1" true.

(** A tenant whose property was deleted. *)
Definition tenantDangling : Tenant.t Z :=
  Tenant.mk "T2" "Arthur Curry" 800 "2025-01-01" "2025-12-31"
            "contract active" "gone" 1 "Room 2" false.

Definition paymentApril : RentPayment.t Z :=
  RentPayment.mk "pay-0" "T1" 400 "2025-04-03" "partial" "April" false.

Definition paymentMay : RentPayment.t Z :=
  RentPayment.mk "pay-1" "T1" 1000 "2025-05-05" "paid" "May" false.

Definition paymentOther : RentPayment.t Z :=
  RentPayment.mk "pay-2" "T2" 800 "2025-05-02" "paid" "May" false.

Definition alice : User.t := User.mk "u-1" "alice" "secret1" (Some "Alice").

Definition aliceAgain : User.t := User.mk "u-2" "Alice" "secret2" None.

Definition todo1 : TodoItem.t :=
  TodoItem.mk "todo-1" "Prepare new property for new tenants." false "2025-05-01".

Definition emptyDb : Idb Z :=
  {| data := Collections.mk [] [] [] [] []; calls := [] |}.

(** Property P, tenant T1 and two payments of T1, one of another tenant. *)
Definition scenarioDb : Idb Z :=
  {| data := Collections.mk [alice] [propertyP] [tenantT1; tenantDangling]
                            [paymentApril; paymentMay; paymentOther] [todo1];
     calls := [] |}.

(** The tenant list showing these contents. *)
Definition tenantListRefs : TenantList.Refs Z :=
  {| TenantList.tenants := [tenantT1; tenantDangling];
     TenantList.properties := [propertyP];
     TenantList.payments := [paymentApril; paymentMay; paymentOther] |}.

(** The same after property P was archived. *)
Definition tenantListRefs_archived : TenantList.Refs Z :=
  {| TenantList.tenants := [tenantT1; tenantDangling];
     TenantList.properties := [propertyP_archived];
     TenantList.payments := [paymentApril; paymentMay; paymentOther] |}.

Definition env0 : RentTracking.Env :=
  {| RentTracking.confirmPaid := true;
     RentTracking.randomUUID := "pay-3";
     RentTracking.todayISO := "2025-05-06";
     RentTracking.currentMonthName := "May" |}.

(** The payment form, as the rent tracking view holds it, over the given
    properties. *)
Definition rentTrackingRefs (ps : list (Property.t Z)) (np : PaymentDraft.t Z)
  : RentTracking.Refs Z :=
  {| RentTracking.payments := [paymentApril; paymentMay; paymentOther];
     RentTracking.tenants := [tenantT1; tenantDangling];
     RentTracking.properties := ps;
     RentTracking.showAddModal := true;
     RentTracking.isEditingPayment := false;
     RentTracking.editingPaymentId := None;
     RentTracking.newPayment := np |}.

(** A full payment of T1's rent. *)
Definition draftPaid : PaymentDraft.t Z :=
  PaymentDraft.mk None (Some "T1") (Some 1000) (Some "2025-05-06")
                  (Some "paid") (Some "May") (Some false).

(** The same with the date left empty. *)
Definition draftNoDate : PaymentDraft.t Z :=
  PaymentDraft.mk None (Some "T1") (Some 1000) (Some "")
                  (Some "paid") (Some "May") (Some false).

(** A payment marked partial that covers the whole rent. *)
Definition draftPartialFull : PaymentDraft.t Z :=
  PaymentDraft.mk None (Some "T1") (Some 1000) (Some "2025-05-06")
                  (Some "partial") (Some "May") (Some false).

(** A payment for a tenant that is not in the list. *)
Definition draftUnknownTenant : PaymentDraft.t Z :=
  PaymentDraft.mk None (Some "T9") (Some 500) (Some "2025-05-06")
                  (Some "paid") (Some "May") (Some false).

(** The action center showing the contents. *)
Definition alertsRefs : AlertsTodo.Refs Z :=
  {| AlertsTodo.tenants := [tenantT1; tenantDangling];
     AlertsTodo.properties := [propertyP];
     AlertsTodo.payments := [paymentApril; paymentMay; paymentOther];
     AlertsTodo.todos := [todo1];
     AlertsTodo.isLoading := false;
     AlertsTodo.errorLoading := None |}.

(** The form of a new tenant for property P; the archive box is ticked, which
    a new tenant ignores. *)
Definition tenantDraftNew : TenantDraft.t Z :=
  TenantDraft.mk None (Some "Barry Allen") (Some 700) (Some "2025-06-01")
    (Some "2026-05-31") (Some "contract active") (Some "P") (Some 1)
    (Some "2 (All Rooms)") (Some true).

Definition tenantForm (nt : TenantDraft.t Z) : TenantListForm.Form Z :=
  {| TenantListForm.showAddModal := true;
     TenantListForm.selectedProperty := Some propertyP;
     TenantListForm.isEditing := false;
     TenantListForm.editingTenantId := None;
     TenantListForm.newTenant := nt |}.

Definition tenantEnv : TenantListForm.Env :=
  {| TenantListForm.randomUUID := "T3";
     TenantListForm.nowLeaseStart := 1746403200000;
     TenantListForm.nowLeaseEnd := 1746403200001 |}.

(** The property list showing the contents. *)
Definition propertyListRefs : PropertyList.Refs Z :=
  {| PropertyList.properties := [propertyP];
     PropertyList.tenants := [tenantT1; tenantDangling];
     PropertyList.showAddModal := false;
     PropertyList.isEditingProperty := false;
     PropertyList.editingPropertyId := None;
     PropertyList.newProperty :=
       PropertyDraft.mk None (Some "") (Some "") (Some 0) (Some 0) (Some false);
     PropertyList.floorRooms := [] |}.

(** A user that is not stored yet. *)
Definition bob : User.t := User.mk "u-9" "Bob" "hunter22" (Some "Bob B").

(** The state of the auth module with no session, and with alice signed
    in. *)
Definition signedOut : UseAuth.State :=
  {| UseAuth.isAuthenticated := false; UseAuth.currentUser := None;
     UseAuth.authError := None; UseAuth.isLoading := false;
     UseAuth.isFetchingInitialUser := false;
     UseAuth.sessionItem := None; UseAuth.pushed := None |}.

Definition aliceSession : UseAuth.State :=
  {| UseAuth.isAuthenticated := true; UseAuth.currentUser := Some alice;
     UseAuth.authError := None; UseAuth.isLoading := false;
     UseAuth.isFetchingInitialUser := false;
     UseAuth.sessionItem := Some "alice"; UseAuth.pushed := None |}.

(** The profile form filled in for a password change. *)
Definition passwordForm : ProfileView.Form :=
  {| ProfileView.currentPassword := "secret1";
     ProfileView.newPassword := "secret22";
     ProfileView.confirmPassword := "secret22";
     ProfileView.displayName := "Alice";
     ProfileView.statusMessage := None |}.

Definition homeRoute : Router.Route :=
  {| Router.path := "/"; Router.name := "home"; Router.requiresAuth := true |}.

(** A later payment of T1 that is marked overdue, and the action center
    showing it. *)
Definition paymentJune : RentPayment.t Z :=
  RentPayment.mk "pay-4" "T1" 0 "2025-06-05" "Overdue" "June" false.

Definition alertsRefsOverdue : AlertsTodo.Refs Z :=
  {| AlertsTodo.tenants := [tenantT1; tenantDangling];
     AlertsTodo.properties := [propertyP];
     AlertsTodo.payments := [paymentMay; paymentJune; paymentOther];
     AlertsTodo.todos := [todo1];
     AlertsTodo.isLoading := false;
     AlertsTodo.errorLoading := None |}.

(** The start of 1 November 2025 and of 1 February 2026 (UTC). *)
Definition startOfNovember : Z := 1761955200000.
Definition startOfFebruary : Z := 1769904000000.

(** A third tenant of property P, and a May in which T1 pays in two partial
    payments, the tenant of the deleted property overpays, and the third
    tenant pays less than the rent. *)
Definition tenantT3 : Tenant.t Z :=
  Tenant.mk "T3" "Clark Kent" 500 "2025-01-01" "2025-12-31"
            "contract active" "P" 1 "Room 3" false.

Definition paymentMayFirst : RentPayment.t Z :=
  RentPayment.mk "pay-5" "T1" 400 "2025-05-03" "partial" "May" false.

Definition paymentMaySecond : RentPayment.t Z :=
  RentPayment.mk "pay-6" "T1" 600 "2025-05-20" "partial" "May" false.

Definition paymentOver : RentPayment.t Z :=
  RentPayment.mk "pay-7" "T2" 900 "2025-05-02" "paid" "May" false.

Definition paymentShort : RentPayment.t Z :=
  RentPayment.mk "pay-9" "T3" 200 "2025-05-10" "partial" "May" false.

Definition alertsRefsPartials : AlertsTodo.Refs Z :=
  {| AlertsTodo.tenants := [tenantT1; tenantDangling; tenantT3];
     AlertsTodo.properties := [propertyP];
     AlertsTodo.payments :=
       [paymentApril; paymentMayFirst; paymentOver; paymentShort; paymentMaySecond];
     AlertsTodo.todos := [todo1];
     AlertsTodo.isLoading := false;
     AlertsTodo.errorLoading := None |}.

(** A payment of T1 recorded as paid with more than the rent, the store
    holding it, and the rent tracking view showing that store with the
    modal closed. *)
Definition paymentOverpaid : RentPayment.t Z :=
  RentPayment.mk "pay-8" "T1" 1200 "2025-03-05" "paid" "March" false.

Definition overpaidDb : Idb Z :=
  {| data := Collections.mk [alice] [propertyP] [tenantT1; tenantDangling]
                            [paymentOverpaid] [todo1];
     calls := [] |}.

Definition rentTrackingOverpaid : RentTracking.Refs Z :=
  {| RentTracking.payments := [paymentOverpaid];
     RentTracking.tenants := [tenantT1; tenantDangling];
     RentTracking.properties := [propertyP];
     RentTracking.showAddModal := false;
     RentTracking.isEditingPayment := false;
     RentTracking.editingPaymentId := None;
     RentTracking.newPayment :=
       PaymentDraft.mk None (Some "") (Some 0) (Some "2025-05-06")
                       (Some "paid") (Some "May") (Some false) |}.

(** The first and the last millisecond of May 2025 (UTC). *)
Definition startOfMay : Z := 1746057600000.
Definition endOfMay : Z := 1748735999999.
End Fixture.

(** * Properties *)

(** ** Arrays *)

Section ArrayLemmas.
Context {A : Type} (P : A → Prop) `{!∀ x, Decision (P x)}.
Implicit Types l : list A.

Lemma find_Some l x :
  find P l = Some x ↔
  ∃ i, l !! i = Some x ∧ P x ∧ ∀ j y, l !! j = Some y → (j < i)%nat → ¬ P y.
Proof.
  unfold find. rewrite fmap_Some. split.
  - intros [[i y] [Hf ->]]. exists i. simpl. by apply list_find_Some in Hf.
  - intros [i Hi]. exists (i, x). split; [|done]. by apply list_find_Some.
Qed.

Lemma find_None l : find P l = None ↔ Forall (λ x, ¬ P x) l.
Proof. unfold find. rewrite fmap_None. apply list_find_None. Qed.

Lemma find_Some_elem l x : find P l = Some x → x ∈ l ∧ P x.
Proof.
  rewrite find_Some. intros (i & Hi & HP & _).
  split; [|done]. by eapply list_elem_of_lookup_2.
Qed.

Lemma find_is_Some l x : x ∈ l → P x → is_Some (find P l).
Proof.
  intros Hx HP. unfold find. apply fmap_is_Some.
  by eapply list_find_elem_of.
Qed.

Lemma findIndex_Some l i :
  findIndex P l = Some i ↔
  ∃ x, l !! i = Some x ∧ P x ∧ ∀ j y, l !! j = Some y → (j < i)%nat → ¬ P y.
Proof.
  unfold findIndex. rewrite fmap_Some. split.
  - intros [[j y] [Hf ->]]. exists y. simpl. by apply list_find_Some in Hf.
  - intros [x Hx]. exists (i, x). split; [|done]. by apply list_find_Some.
Qed.

Lemma findIndex_None l : findIndex P l = None ↔ Forall (λ x, ¬ P x) l.
Proof. unfold findIndex. rewrite fmap_None. apply list_find_None. Qed.

(** Writing at the index [findIndex] returned a record that satisfies the
    predicate again does not move the first match. *)
Lemma findIndex_insert l i r :
  P r → findIndex P l = Some i → findIndex P (<[i := r]> l) = Some i.
Proof.
  intros Hr. rewrite !findIndex_Some. intros (x & Hi & _ & Hleast).
  exists r. split_and!; [|done|].
  - apply list_lookup_insert_eq. by eapply lookup_lt_Some.
  - intros j y Hj Hlt. rewrite list_lookup_insert_ne in Hj by lia. eauto.
Qed.

(** A filter that removes nothing returns the array it was given. *)
Lemma filter_same_length l :
  ¬ (length (filter P l) < length l)%nat → filter P l = l.
Proof.
  induction l as [|x l IH]; [done|]. rewrite filter_cons.
  destruct (decide (P x)) as [Hx|Hx]; simpl; intros Hlen.
  - f_equal. apply IH. lia.
  - pose proof (length_filter P l). lia.
Qed.

Lemma filter_all l : Forall P l → filter P l = l.
Proof.
  induction 1 as [|x l Hx _ IH]; [done|].
  by rewrite filter_cons_True, IH.
Qed.
End ArrayLemmas.

(** The counter of a [forEach] that increments on a condition is the number
    of elements that meet it. *)
Lemma count_fold_left {A} (b : A → bool) (l : list A) (n : nat) :
  fold_left (λ k x, if b x then S k else k) l n
  = (n + length (filter (λ x, b x = true) l))%nat.
Proof.
  revert n. induction l as [|x l IH]; intros n; simpl; [lia|].
  rewrite IH, filter_cons. destruct (b x) eqn:Hb.
  - rewrite decide_True by done. simpl. lia.
  - rewrite decide_False by congruence. lia.
Qed.

(** ** The collections *)

Section CollectionLaws.
Context {Num : Type}.

Lemma usersColl_lawful : Lawful (@usersColl Num).
Proof. split; [done|done|by intros []]. Qed.

Lemma propertiesColl_lawful : Lawful (@propertiesColl Num).
Proof. split; [done|done|by intros []]. Qed.

Lemma tenantsColl_lawful : Lawful (@tenantsColl Num).
Proof. split; [done|done|by intros []]. Qed.

Lemma paymentsColl_lawful : Lawful (@paymentsColl Num).
Proof. split; [done|done|by intros []]. Qed.

Lemma todosColl_lawful : Lawful (@todosColl Num).
Proof. split; [done|done|by intros []]. Qed.
End CollectionLaws.

#[local] Hint Resolve usersColl_lawful propertiesColl_lawful tenantsColl_lawful
  paymentsColl_lawful todosColl_lawful : core.

(** ** The repository *)

Section DbLemmas.
Context `{JsBuiltins Num}.
Implicit Types s : Idb Num.

(** The effect of [updateIn], as one equation. *)
Lemma updateIn_eq {A} (c : Collection Num A) (r : A) s :
  Db.updateIn c r s =
  match findIndex (λ x, coll_id c x = coll_id c r) (coll_get c (data s)) with
  | Some i =>
      (tt, {| data := coll_put c (<[i := r]> (coll_get c (data s))) (data s);
              calls := IdbSet (coll_key c) :: IdbGet (coll_key c) :: calls s |})
  | None => (tt, logCall (IdbGet (coll_key c)) s)
  end.
Proof.
  unfold Db.updateIn, Db.getAll, bind, idbGet. simpl.
  by destruct (findIndex _ _).
Qed.

Lemma updateIn_not_found {A} (c : Collection Num A) (r : A) s :
  Forall (λ x, coll_id c x ≠ coll_id c r) (coll_get c (data s)) →
  Db.updateIn c r s = (tt, logCall (IdbGet (coll_key c)) s).
Proof.
  intros Hnone. rewrite updateIn_eq.
  by rewrite (proj2 (findIndex_None _ _) Hnone).
Qed.

Lemma updateIn_idempotent {A} (c : Collection Num A) (r : A) s :
  Lawful c →
  data (Db.updateIn c r (Db.updateIn c r s).2).2 = data (Db.updateIn c r s).2.
Proof.
  intros Hc. rewrite (updateIn_eq c r s).
  destruct (findIndex _ _) as [i|] eqn:Hi; simpl.
  - rewrite updateIn_eq. simpl. rewrite (get_put c Hc).
    rewrite (findIndex_insert _ _ _ _ eq_refl Hi). simpl.
    by rewrite list_insert_insert_eq, (put_put c Hc).
  - rewrite updateIn_eq. simpl. by rewrite Hi.
Qed.

(** The effect of [deleteFrom] on the contents: the records with the
    given id are gone, whether or not a write was needed. *)
Lemma deleteFrom_data {A} (c : Collection Num A) (id : string) s :
  Lawful c →
  data (Db.deleteFrom c id s).2
  = coll_put c (filter (λ x, coll_id c x ≠ id) (coll_get c (data s))) (data s).
Proof.
  intros Hc. unfold Db.deleteFrom, Db.getAll, bind, idbGet. simpl.
  destruct (_ <? _)%nat eqn:Hlt; simpl; [done|].
  apply Nat.ltb_ge in Hlt.
  rewrite filter_same_length by lia. by rewrite (put_get c Hc).
Qed.

Lemma deleteFrom_not_found {A} (c : Collection Num A) (id : string) s :
  Forall (λ x, coll_id c x ≠ id) (coll_get c (data s)) →
  Db.deleteFrom c id s = (tt, logCall (IdbGet (coll_key c)) s).
Proof.
  intros Hnone. unfold Db.deleteFrom, Db.getAll, bind, idbGet. simpl.
  rewrite (filter_all _ _ Hnone).
  by rewrite Nat.ltb_irrefl.
Qed.

Lemma updateUser_eq (u : User.t) s :
  Db.updateUser u s =
  match findIndex (λ x, User.id x = User.id u) (Collections.users (data s)) with
  | Some i =>
      ({| Db.success := true; Db.message := None |},
       {| data := coll_put usersColl (<[i := u]> (Collections.users (data s))) (data s);
          calls := IdbSet "users" :: IdbGet "users" :: calls s |})
  | None =>
      ({| Db.success := false; Db.message := Some "User not found." |},
       logCall (IdbGet "users") s)
  end.
Proof.
  unfold Db.updateUser, Db.getUsers, Db.getAll, bind, idbGet. simpl.
  by destruct (findIndex _ _).
Qed.

Lemma updateUser_idempotent (u : User.t) s :
  data (Db.updateUser u (Db.updateUser u s).2).2 = data (Db.updateUser u s).2.
Proof.
  rewrite (updateUser_eq u s).
  destruct (findIndex _ _) as [i|] eqn:Hi; simpl.
  - rewrite updateUser_eq. simpl.
    rewrite (findIndex_insert _ _ _ _ eq_refl Hi). simpl.
    by rewrite list_insert_insert_eq.
  - rewrite updateUser_eq. simpl. by rewrite Hi.
Qed.

Lemma addUser_eq (u : User.t) s :
  Db.addUser u s =
  match find (λ x, toLowerCase (User.username x) = toLowerCase (User.username u))
             (Collections.users (data s)) with
  | Some _ =>
      ({| Db.success := false; Db.message := Some "Username is already taken." |},
       logCall (IdbGet "users") s)
  | None =>
      ({| Db.success := true; Db.message := None |},
       {| data := coll_put usersColl (push (Collections.users (data s)) u) (data s);
          calls := IdbSet "users" :: IdbGet "users" :: calls s |})
  end.
Proof.
  unfold Db.addUser, Db.getUsers, Db.getAll, bind, idbGet. simpl.
  by destruct (find _ _).
Qed.
End DbLemmas.

Section DbClaims.
Context `{JsBuiltins Num}.
Implicit Types s : Idb Num.

(** C9. [update(e)] twice in a row leaves the same contents as [update(e)]
    once, for each of the five entity types: the second call finds the
    record at the index the first call wrote and writes it there again. *)
Theorem update_idempotent :
  (∀ (e : User.t) s,
     data (Db.updateUser e (Db.updateUser e s).2).2
     = data (Db.updateUser e s).2)
  ∧ (∀ (e : Property.t Num) s,
     data (Db.updateProperty e (Db.updateProperty e s).2).2
     = data (Db.updateProperty e s).2)
  ∧ (∀ (e : Tenant.t Num) s,
     data (Db.updateTenant e (Db.updateTenant e s).2).2
     = data (Db.updateTenant e s).2)
  ∧ (∀ (e : RentPayment.t Num) s,
     data (Db.updatePayment e (Db.updatePayment e s).2).2
     = data (Db.updatePayment e s).2)
  ∧ (∀ (e : TodoItem.t) s,
     data (Db.updateTodo e (Db.updateTodo e s).2).2
     = data (Db.updateTodo e s).2).
Proof.
  split_and!; intros e s.
  - apply updateUser_idempotent.
  - apply updateIn_idempotent; auto.
  - apply updateIn_idempotent; auto.
  - apply updateIn_idempotent; auto.
  - apply updateIn_idempotent; auto.
Qed.

(** C8, as the code has it. For properties, tenants, payments and todos,
    [update(record)] with an id that is not in the collection returns
    normally after one read: no write, contents unchanged; [delete(id)]
    with such an id does the same. For users, [updateUser] with such an id
    leaves the contents unchanged too, after one read and no write, and
    returns the failure [{ success: false, message: 'User not found.' }]. *)
Theorem unknown_id_is_no_write s :
  (∀ e : Property.t Num,
     Forall (λ x, Property.id x ≠ Property.id e) (Collections.properties (data s)) →
     Db.updateProperty e s = (tt, logCall (IdbGet "properties") s))
  ∧ (∀ e : Tenant.t Num,
     Forall (λ x, Tenant.id x ≠ Tenant.id e) (Collections.tenants (data s)) →
     Db.updateTenant e s = (tt, logCall (IdbGet "tenants") s))
  ∧ (∀ e : RentPayment.t Num,
     Forall (λ x, RentPayment.id x ≠ RentPayment.id e) (Collections.payments (data s)) →
     Db.updatePayment e s = (tt, logCall (IdbGet "payments") s))
  ∧ (∀ e : TodoItem.t,
     Forall (λ x, TodoItem.id x ≠ TodoItem.id e) (Collections.todos (data s)) →
     Db.updateTodo e s = (tt, logCall (IdbGet "todos") s))
  ∧ (∀ id : string,
     Forall (λ x, Property.id x ≠ id) (Collections.properties (data s)) →
     Db.deleteProperty id s = (tt, logCall (IdbGet "properties") s))
  ∧ (∀ id : string,
     Forall (λ x, Tenant.id x ≠ id) (Collections.tenants (data s)) →
     Db.deleteTenant id s = (tt, logCall (IdbGet "tenants") s))
  ∧ (∀ id : string,
     Forall (λ x, RentPayment.id x ≠ id) (Collections.payments (data s)) →
     Db.deletePayment id s = (tt, logCall (IdbGet "payments") s))
  ∧ (∀ id : string,
     Forall (λ x, TodoItem.id x ≠ id) (Collections.todos (data s)) →
     Db.deleteTodo id s = (tt, logCall (IdbGet "todos") s))
  ∧ (∀ e : User.t,
     Forall (λ x, User.id x ≠ User.id e) (Collections.users (data s)) →
     Db.updateUser e s
     = ({| Db.success := false; Db.message := Some "User not found." |},
        logCall (IdbGet "users") s)).
Proof.
  split_and!.
  - intros e He. by apply (updateIn_not_found propertiesColl).
  - intros e He. by apply (updateIn_not_found tenantsColl).
  - intros e He. by apply (updateIn_not_found paymentsColl).
  - intros e He. by apply (updateIn_not_found todosColl).
  - intros id Hid. by apply (deleteFrom_not_found propertiesColl).
  - intros id Hid. by apply (deleteFrom_not_found tenantsColl).
  - intros id Hid. by apply (deleteFrom_not_found paymentsColl).
  - intros id Hid. by apply (deleteFrom_not_found todosColl).
  - intros e He. rewrite updateUser_eq.
    by rewrite (proj2 (findIndex_None _ _) He).
Qed.

(** C7. [addUser] of a record whose username, lower-cased, is that of a
    record of the collection returns the failure 'Username is already
    taken.' after one read and no write. And when the collection holds at
    most one record with that username, two registrations of it in a row
    leave exactly one: the second one fails and changes nothing. *)
Theorem addUser_duplicate_username (user : User.t) s :
  let sameName (u : User.t) :=
    toLowerCase (User.username u) = toLowerCase (User.username user) in
  (∀ existing,
     existing ∈ Collections.users (data s) → sameName existing →
     Db.addUser user s
     = ({| Db.success := false; Db.message := Some "Username is already taken." |},
        logCall (IdbGet "users") s))
  ∧ (∀ again : User.t,
     sameName again →
     (length (filter sameName (Collections.users (data s))) ≤ 1)%nat →
     let s1 := (Db.addUser user s).2 in
     Db.addUser again s1
     = ({| Db.success := false; Db.message := Some "Username is already taken." |},
        logCall (IdbGet "users") s1)
     ∧ length (filter sameName (Collections.users (data (Db.addUser again s1).2)))
       = 1%nat).
Proof.
  intros sameName. split.
  - intros existing Hin Hsame. rewrite addUser_eq.
    destruct (find_is_Some sameName _ _ Hin Hsame) as [x Hx].
    unfold sameName in Hx. by rewrite Hx.
  - intros again Hagain Hmost s1.
    assert (Hsecond : ∀ x, x ∈ Collections.users (data s1) → sameName x →
              Db.addUser again s1
              = ({| Db.success := false;
                    Db.message := Some "Username is already taken." |},
                 logCall (IdbGet "users") s1)).
    { intros x Hin Hx. rewrite addUser_eq.
      destruct (find_is_Some
                  (λ u, toLowerCase (User.username u)
                        = toLowerCase (User.username again)) _ x Hin) as [y Hy].
      - unfold sameName in Hx, Hagain. congruence.
      - by rewrite Hy. }
    subst s1. rewrite (addUser_eq user s) in *.
    destruct (find _ _) as [x|] eqn:Hfind; simpl in *.
    + apply find_Some_elem in Hfind as [Hin Hx].
      rewrite (Hsecond x Hin Hx). split; [done|]. simpl.
      assert (x ∈ filter sameName (Collections.users (data s))) as Hmem
        by (apply list_elem_of_filter; done).
      destruct (filter sameName (Collections.users (data s))) as [|? [|]];
        simpl in *; [by apply elem_of_nil in Hmem|done|lia].
    + assert (user ∈ push (Collections.users (data s)) user) as Hin
        by (apply elem_of_app; right; apply list_elem_of_singleton; done).
      rewrite (Hsecond user Hin eq_refl). split; [done|]. simpl.
      apply find_None in Hfind. unfold push. rewrite filter_app.
      assert (filter sameName (Collections.users (data s)) = []) as ->.
      { clear -Hfind. induction Hfind as [|x l Hx _ IH]; [done|].
        by rewrite filter_cons_False. }
      by rewrite filter_cons_True.
Qed.
End DbClaims.

(** ** Effective archival status *)

Section ArchivedLemmas.
Context `{JsBuiltins Num}.

Lemma find_resolvesTo (ps : list (Property.t Num)) propertyId (p : Property.t Num) :
  find (λ x, Property.id x = propertyId) ps = Some p ↔ resolvesTo ps propertyId p.
Proof. apply (find_Some (λ x, Property.id x = propertyId)). Qed.

Lemma find_dangling (ps : list (Property.t Num)) propertyId :
  find (λ x, Property.id x = propertyId) ps = None ↔ dangling ps propertyId.
Proof. apply (find_None (λ x, Property.id x = propertyId)). Qed.

Lemma TenantList_status_resolved (v : TenantList.Refs Num) propertyId (p : Property.t Num) :
  resolvesTo (TenantList.properties v) propertyId p →
  TenantList.getPropertyArchivedStatus v propertyId = Property.archive p.
Proof.
  intros Hp%find_resolvesTo. unfold TenantList.getPropertyArchivedStatus.
  by rewrite Hp.
Qed.

Lemma TenantList_status_dangling (v : TenantList.Refs Num) propertyId :
  dangling (TenantList.properties v) propertyId →
  TenantList.getPropertyArchivedStatus v propertyId = false.
Proof.
  intros Hp%find_dangling. unfold TenantList.getPropertyArchivedStatus.
  by rewrite Hp.
Qed.

Lemma RentTracking_status_dangling (v : RentTracking.Refs Num) propertyId :
  dangling (RentTracking.properties v) propertyId →
  RentTracking.getPropertyArchivedStatus v propertyId = false.
Proof.
  intros Hp%find_dangling. unfold RentTracking.getPropertyArchivedStatus.
  by rewrite Hp.
Qed.

Lemma AlertsTodo_status_dangling (v : AlertsTodo.Refs Num) propertyId :
  dangling (AlertsTodo.properties v) propertyId →
  AlertsTodo.getPropertyArchivedStatus v propertyId = false.
Proof.
  intros Hp%find_dangling. unfold AlertsTodo.getPropertyArchivedStatus.
  case_bool_decide; [done|]. by rewrite Hp.
Qed.

(** C1. In the tenant list, a tenant is effectively archived exactly when
    its own flag is set or the helper reports its property archived; so a
    tenant whose flag is set is effectively archived whatever the
    properties are, and for a tenant whose [propertyId] resolves to a
    property the result is the disjunction of the two flags: the tenant's
    own flag when that property is not archived. *)
Theorem tenant_effectively_archived (v : TenantList.Refs Num) (t : Tenant.t Num) :
  TenantList.isEffectivelyArchived v t
  = Tenant.archive t || TenantList.getPropertyArchivedStatus v (Tenant.propertyId t)
  ∧ (Tenant.archive t = true → TenantList.isEffectivelyArchived v t = true)
  ∧ (∀ p, resolvesTo (TenantList.properties v) (Tenant.propertyId t) p →
       TenantList.isEffectivelyArchived v t = Tenant.archive t || Property.archive p)
  ∧ (∀ p, resolvesTo (TenantList.properties v) (Tenant.propertyId t) p →
       Property.archive p = false →
       TenantList.isEffectivelyArchived v t = Tenant.archive t).
Proof.
  unfold TenantList.isEffectivelyArchived. split_and!.
  - done.
  - by intros ->.
  - intros p Hp. by rewrite (TenantList_status_resolved _ _ _ Hp).
  - intros p Hp Hactive.
    rewrite (TenantList_status_resolved _ _ _ Hp), Hactive.
    apply orb_false_r.
Qed.

(** C2, as the code has it. The property lookup fails open: for a tenant
    whose [propertyId] matches no property, each of the three views
    returns the tenant's own archived flag. What fails closed is the
    tenant reference: a tenant that could not be found ([undefined]) is
    reported archived by the two helpers that accept one. *)
Theorem dangling_property_fails_open (t : Tenant.t Num) :
  (∀ v : TenantList.Refs Num,
     dangling (TenantList.properties v) (Tenant.propertyId t) →
     TenantList.isEffectivelyArchived v t = Tenant.archive t)
  ∧ (∀ v : RentTracking.Refs Num,
     dangling (RentTracking.properties v) (Tenant.propertyId t) →
     RentTracking.isTenantEffectivelyArchived v (Some t) = Tenant.archive t)
  ∧ (∀ v : AlertsTodo.Refs Num,
     dangling (AlertsTodo.properties v) (Tenant.propertyId t) →
     AlertsTodo.isTenantEffectivelyArchived v (Some t) = Tenant.archive t)
  ∧ (∀ v : RentTracking.Refs Num, RentTracking.isTenantEffectivelyArchived v None = true)
  ∧ (∀ v : AlertsTodo.Refs Num, AlertsTodo.isTenantEffectivelyArchived v None = true).
Proof.
  split_and!; try done.
  - intros v Hd. unfold TenantList.isEffectivelyArchived.
    rewrite (TenantList_status_dangling _ _ Hd). apply orb_false_r.
  - intros v Hd. simpl.
    rewrite (RentTracking_status_dangling _ _ Hd). apply orb_false_r.
  - intros v Hd. simpl.
    rewrite (AlertsTodo_status_dangling _ _ Hd). apply orb_false_r.
Qed.
End ArchivedLemmas.

(** ** The monthly rent summary *)

Section MonthlyClaims.
Context `{JsBuiltins Num}.

(** C6. In the monthly summary the number of tenants paid this month never
    exceeds the number of active tenants. Once the view has loaded without
    error, the number of active tenants is the number of tenants of the
    component that are not effectively archived and have a rent above zero,
    and the number paid is the number of those for whom the amounts of
    their payments dated within the month add up to at least their rent:
    the sum runs over every such payment, whatever its status, so several
    partial payments count together and an overpayment counts. While the
    view is loading or has failed to load, both numbers are zero. *)
Theorem paid_this_month_bounded (v : AlertsTodo.Refs Num) (startOfMonth endOfMonth : Z) :
  let r := AlertsTodo.monthlyRentStatus v startOfMonth endOfMonth in
  let sumPaid (t : Tenant.t Num) : Num :=
    AlertsTodo.sumAmounts
      (filter (λ p, RentPayment.tenantId p = Tenant.id t)
         (filter (λ p, AlertsTodo.inMonth startOfMonth endOfMonth p = true)
                 (AlertsTodo.payments v))) in
  (AlertsTodo.paidTenantsCount r ≤ AlertsTodo.activeTenantsCount r)%nat
  ∧ (AlertsTodo.isLoading v = false →
     falsyStr (AlertsTodo.errorLoading v) = true →
     AlertsTodo.activeTenantsCount r
     = length (filter (λ t, AlertsTodo.isTenantEffectivelyArchived v (Some t) = false
                            ∧ num_gtb (Tenant.rent t) num_zero = true)
                      (AlertsTodo.tenants v))
     ∧ AlertsTodo.paidTenantsCount r
       = length (filter (λ t, num_geb (sumPaid t) (Tenant.rent t) = true
                              ∧ AlertsTodo.isTenantEffectivelyArchived v (Some t) = false
                              ∧ num_gtb (Tenant.rent t) num_zero = true)
                        (AlertsTodo.tenants v)))
  ∧ (AlertsTodo.isLoading v = true ∨ falsyStr (AlertsTodo.errorLoading v) = false →
     AlertsTodo.paidTenantsCount r = 0%nat
     ∧ AlertsTodo.activeTenantsCount r = 0%nat)
  ∧ (∀ p, AlertsTodo.inMonth startOfMonth endOfMonth p = true ↔
          ∃ time, date_getTime (RentPayment.date p) = Some time
                  ∧ startOfMonth ≤ time ≤ endOfMonth)
  ∧ AlertsTodo.sumAmounts [] = num_zero
  ∧ (∀ ps p, AlertsTodo.sumAmounts (ps ++ [p])
             = num_add (AlertsTodo.sumAmounts ps) (orZero (RentPayment.amount p))).
Proof.
  intros r sumPaid. subst r sumPaid. split_and!.
  - unfold AlertsTodo.monthlyRentStatus.
    destruct (_ || _ || _); simpl; [done|].
    rewrite count_fold_left. apply length_filter.
  - intros Hloaded Hok. unfold AlertsTodo.monthlyRentStatus.
    rewrite Hloaded, Hok. simpl.
    case_bool_decide as Hempty; simpl.
    + apply nil_length_inv in Hempty. by rewrite Hempty.
    + split; [done|]. rewrite count_fold_left. simpl.
      unfold AlertsTodo.activeTenants. by rewrite list_filter_filter.
  - intros Hnot. unfold AlertsTodo.monthlyRentStatus.
    destruct Hnot as [->| ->]; [done|]. simpl. by rewrite orb_true_r.
  - intros p. unfold AlertsTodo.inMonth.
    destruct (date_getTime _) as [time|]; split.
    + intros [?%Z.leb_le ?%Z.leb_le]%andb_true_iff. exists time. split; [done|lia].
    + intros (time' & [= <-] & Hlo & Hhi). apply andb_true_iff. split; by apply Z.leb_le.
    + done.
    + by intros (? & ? & _).
  - done.
  - intros ps p. unfold AlertsTodo.sumAmounts. by rewrite fold_left_app.
Qed.
End MonthlyClaims.

(** ** Sorting *)

Section SortLemmas.
Context {A : Type} (cmp : A → A → Z).
Implicit Types l : list A.

Lemma elem_of_insertBy x y l : y ∈ insertBy cmp x l ↔ y = x ∨ y ∈ l.
Proof.
  induction l as [|z l IH]; simpl.
  - rewrite list_elem_of_singleton, elem_of_nil. tauto.
  - destruct (cmp x z <=? 0).
    + apply elem_of_cons.
    + rewrite !elem_of_cons, IH. tauto.
Qed.

Lemma elem_of_sortBy y l : y ∈ sortBy cmp l ↔ y ∈ l.
Proof.
  induction l as [|x l IH]; [done|].
  unfold sortBy in *. simpl.
  rewrite elem_of_insertBy, elem_of_cons, IH. tauto.
Qed.

Lemma sortBy_nil_inv l : sortBy cmp l = [] → l = [].
Proof.
  intros Hnil. apply elem_of_nil_inv. intros x Hx.
  apply elem_of_sortBy in Hx. rewrite Hnil in Hx.
  by apply elem_of_nil in Hx.
Qed.

(** When the comparator is [key b - key a] on the array, the first element
    of the sorted array is one of the array with the greatest key. *)
Lemma sortBy_head_max (key : A → Z) l m rest :
  (∀ a b, a ∈ l → b ∈ l → cmp a b = key b - key a) →
  sortBy cmp l = m :: rest →
  m ∈ l ∧ ∀ y, y ∈ l → key y ≤ key m.
Proof.
  revert m rest. induction l as [|x l IH]; intros m rest Hcmp Hsort; [done|].
  change (sortBy cmp (x :: l)) with (insertBy cmp x (sortBy cmp l)) in Hsort.
  destruct (sortBy cmp l) as [|h t] eqn:Hl.
  - apply sortBy_nil_inv in Hl as ->. simpl in Hsort.
    injection Hsort as <- <-. split; [apply elem_of_cons; by left|].
    intros y ->%list_elem_of_singleton. lia.
  - destruct (IH h t) as [Hh Hmax]; [|done|].
    { intros a b Ha Hb. apply Hcmp; apply elem_of_cons; by right. }
    simpl in Hsort.
    rewrite (Hcmp x h) in Hsort; [|by left|by right].
    destruct (key h - key x <=? 0) eqn:Hle.
    + apply Z.leb_le in Hle. injection Hsort as <- _.
      split; [apply elem_of_cons; by left|].
      intros y [->|Hy]%elem_of_cons; [lia|].
      specialize (Hmax y Hy). lia.
    + apply Z.leb_gt in Hle. injection Hsort as <- _.
      split; [apply elem_of_cons; by right|].
      intros y [->|Hy]%elem_of_cons; [lia|by apply Hmax].
Qed.
End SortLemmas.

(** ** The latest payment status *)

Section LatestStatus.
Context `{JsBuiltins Num}.

(** What [getLatestRentStatus] returns for a tenant of the list: the
    literal ['archive'] when the tenant is effectively archived, whatever
    the payments; otherwise ['no payments'] when no payment names the
    tenant, and, when the dates of the tenant's payments are valid, the
    status of one of them whose date is the latest. *)
Lemma getLatestRentStatus_cases (v : TenantList.Refs Num) (tenantId : string)
    (tenant : Tenant.t Num) :
  find (λ t, Tenant.id t = tenantId) (TenantList.tenants v) = Some tenant →
  (TenantList.isEffectivelyArchived v tenant = true →
     TenantList.getLatestRentStatus v tenantId = "archive")
  ∧ (TenantList.isEffectivelyArchived v tenant = false →
     Forall (λ p, RentPayment.tenantId p ≠ tenantId) (TenantList.payments v) →
     TenantList.getLatestRentStatus v tenantId = "no payments")
  ∧ (TenantList.isEffectivelyArchived v tenant = false →
     (∃ p, p ∈ TenantList.payments v ∧ RentPayment.tenantId p = tenantId) →
     (∀ p, p ∈ TenantList.payments v → RentPayment.tenantId p = tenantId →
           is_Some (date_getTime (RentPayment.date p))) →
     ∃ latest,
       latest ∈ TenantList.payments v
       ∧ RentPayment.tenantId latest = tenantId
       ∧ (∀ p, p ∈ TenantList.payments v → RentPayment.tenantId p = tenantId →
               timeOf p ≤ timeOf latest)
       ∧ TenantList.getLatestRentStatus v tenantId = RentPayment.status latest).
Proof.
  intros Hfind. unfold TenantList.getLatestRentStatus. rewrite Hfind.
  split_and!.
  - by intros ->.
  - intros -> Hnone.
    assert (filter (λ p, RentPayment.tenantId p = tenantId) (TenantList.payments v)
            = []) as ->; [|done].
    induction Hnone as [|p ps Hp _ IH]; [done|].
    by rewrite filter_cons_False.
  - intros -> (p0 & Hin0 & Hp0) Hvalid.
    set (mine := filter (λ p, RentPayment.tenantId p = tenantId) (TenantList.payments v)).
    assert (Hcmp : ∀ a b, a ∈ mine → b ∈ mine →
              TenantList.byDateDesc a b = timeOf b - timeOf a).
    { intros a b [Ha Hina]%list_elem_of_filter [Hb Hinb]%list_elem_of_filter.
      unfold TenantList.byDateDesc, timeOf.
      destruct (Hvalid a Hina Ha) as [ta ->], (Hvalid b Hinb Hb) as [tb ->].
      done. }
    destruct (sortBy TenantList.byDateDesc mine) as [|latest rest] eqn:Hsort.
    { apply sortBy_nil_inv in Hsort.
      assert (p0 ∈ mine) as Hmem by (by apply list_elem_of_filter).
      rewrite Hsort in Hmem. by apply elem_of_nil in Hmem. }
    destruct (sortBy_head_max _ timeOf _ _ _ Hcmp Hsort) as [Hlatest Hmax].
    apply list_elem_of_filter in Hlatest as [Hmine Hin].
    exists latest. split_and!; [done|done| |done].
    intros p Hp Hpt. apply Hmax. by apply list_elem_of_filter.
Qed.
End LatestStatus.

(** For the tenants of section 8: T1 has paid in May, after a partial payment
    in April. *)
Example latest_status_paid :
  TenantList.getLatestRentStatus Fixture.tenantListRefs "T1" = "paid".
Proof. reflexivity. Qed.

(** C3, where the code departs from it. Property P is archived, so tenant T1
    is effectively archived; [getLatestRentStatus] then returns the literal
    ['archive'], not ['archived'], and the badge helper of the same
    component, which has a class for ['archived'], has none for what it is
    given. *)
Theorem latest_status_archived_literal :
  TenantList.isEffectivelyArchived Fixture.tenantListRefs_archived Fixture.tenantT1 = true
  ∧ TenantList.getLatestRentStatus Fixture.tenantListRefs_archived "T1" = "archive"
  ∧ TenantList.getLatestRentStatus Fixture.tenantListRefs_archived "T1" ≠ "archived"
  ∧ TenantList.getRentStatusClass (Some "archived") = Some "bg-gray-400 text-white"
  ∧ TenantList.getRentStatusClass
      (Some (TenantList.getLatestRentStatus Fixture.tenantListRefs_archived "T1")) = None.
Proof. split_and!; done. Qed.

(** ** Deleting a tenant *)

Section Cascade.
Context `{JsBuiltins Num}.
Implicit Types s : Idb Num.
Implicit Types ps doomed : list (RentPayment.t Num).

Lemma bind_eq {A B} (m : Async Num A) (k : A → Async Num B) s :
  bind m k s = k (m s).1 (m s).2.
Proof. unfold bind. by destruct (m s). Qed.

Lemma deleteFrom_calls {A} (c : Collection Num A) (id : string) s :
  ∃ cs, calls (Db.deleteFrom c id s).2 = cs ++ calls s
        ∧ Forall (onKey (coll_key c)) cs.
Proof.
  unfold Db.deleteFrom, Db.getAll, bind, idbGet. simpl.
  destruct (_ <? _)%nat; simpl.
  - exists [IdbSet (coll_key c); IdbGet (coll_key c)].
    split; [done|]. apply Forall_cons. split; [by right|].
    apply Forall_cons. split; [by left|constructor].
  - exists [IdbGet (coll_key c)]. split; [done|].
    apply Forall_cons. split; [by left|constructor].
Qed.

Lemma purge_nil ps : purge [] ps = ps.
Proof. unfold purge. apply filter_all, Forall_forall. intros x _. constructor. Qed.

Lemma purge_cons (x : RentPayment.t Num) doomed ps :
  purge doomed (filter (λ y, RentPayment.id y ≠ RentPayment.id x) ps)
  = purge (x :: doomed) ps.
Proof.
  unfold purge. rewrite list_filter_filter. apply list_filter_iff.
  intros y. rewrite Forall_cons. tauto.
Qed.

(** The loop of [deleteTenant]: the payments that share an id with one
    of the payments of the loop are gone, nothing else has changed, and
    every call was on the payments. *)
Lemma forOf_deletePayment doomed s :
  let s' := (forOf doomed (λ payment, Db.deletePayment (RentPayment.id payment)) s).2 in
  data s' = coll_put paymentsColl (purge doomed (Collections.payments (data s))) (data s)
  ∧ ∃ cs, calls s' = cs ++ calls s ∧ Forall (onKey "payments") cs.
Proof.
  revert s. induction doomed as [|x doomed IH]; intros s; simpl.
  - rewrite purge_nil. split; [by destruct (data s)|].
    exists []. by split.
  - rewrite bind_eq.
    set (s1 := (Db.deletePayment (RentPayment.id x) s).2).
    destruct (IH s1) as [Hdata (cs & Hcalls & Hcs)].
    assert (Hdata1 : data s1
              = coll_put paymentsColl
                  (filter (λ y, RentPayment.id y ≠ RentPayment.id x)
                          (Collections.payments (data s))) (data s))
      by (apply (deleteFrom_data paymentsColl); auto).
    assert (∃ cs1, calls s1 = cs1 ++ calls s ∧ Forall (onKey "payments") cs1)
      as (cs1 & Hcalls1 & Hcs1)
      by exact (deleteFrom_calls paymentsColl (RentPayment.id x) s).
    split.
    + rewrite Hdata, Hdata1. simpl. by rewrite purge_cons.
    + exists (cs ++ cs1). split.
      * by rewrite Hcalls, Hcalls1, app_assoc.
      * by apply Forall_app.
Qed.

Lemma elem_of_purge (x : RentPayment.t Num) doomed ps :
  x ∈ purge doomed ps ↔
  x ∈ ps ∧ ∀ q, q ∈ doomed → RentPayment.id x ≠ RentPayment.id q.
Proof. unfold purge. rewrite list_elem_of_filter, Forall_forall. tauto. Qed.

Lemma filter_ext_elem {A} (P Q : A → Prop) `{!∀ x, Decision (P x)}
    `{!∀ x, Decision (Q x)} (l : list A) :
  (∀ x, x ∈ l → P x ↔ Q x) → filter P l = filter Q l.
Proof.
  induction l as [|x l IH]; intros Hext; [done|].
  rewrite !filter_cons, IH.
  - destruct (decide (P x)) as [HP|HP], (decide (Q x)) as [HQ|HQ]; try done.
    + destruct HQ. apply Hext; [by left|done].
    + destruct HP. apply Hext; [by left|done].
  - intros y Hy. apply Hext. by right.
Qed.

Lemma unique_id {A} (f : A → string) (l : list A) x y :
  NoDup (f <$> l) → x ∈ l → y ∈ l → f x = f y → x = y.
Proof.
  induction l as [|z l IH]; intros Hnd Hx Hy Hf; [by apply elem_of_nil in Hx|].
  rewrite fmap_cons in Hnd. apply NoDup_cons in Hnd as [Hz Hnd].
  apply elem_of_cons in Hx as [->|Hx], Hy as [->|Hy]; try done.
  - destruct Hz. rewrite Hf. by apply list_elem_of_fmap_2.
  - destruct Hz. rewrite <- Hf. by apply list_elem_of_fmap_2.
  - by apply IH.
Qed.

(** With payment ids that are unique, the loop removes the payments of
    the tenant and no other. *)
Lemma purge_unique ps (tenantId : string) :
  NoDup (RentPayment.id <$> ps) →
  purge (filter (λ p, RentPayment.tenantId p = tenantId) ps) ps
  = filter (λ p, RentPayment.tenantId p ≠ tenantId) ps.
Proof.
  intros Hnd. unfold purge. apply filter_ext_elem. intros x Hx.
  rewrite Forall_forall. split.
  - intros Hall Hmine. by apply (Hall x); [apply list_elem_of_filter|].
  - intros Hother q [Hq Hin]%list_elem_of_filter Hid.
    apply Hother. by rewrite (unique_id RentPayment.id ps x q Hnd Hx Hin Hid).
Qed.

Lemma length_filter_split {A} (P : A → Prop) `{!∀ x, Decision (P x)} (l : list A) :
  length l = (length (filter (λ x, ¬ P x) l) + length (filter P l))%nat.
Proof.
  induction l as [|x l IH]; [done|]. rewrite !filter_cons.
  destruct (decide (P x)), (decide (¬ P x)); simpl; try done; lia.
Qed.

Lemma removeAndRefetch_eq (v : TenantList.Refs Num) (id : string) s :
  let s1 := (Db.deleteTenant id s).2 in
  TenantList.removeAndRefetch v id s
  = ({| TenantList.tenants := Collections.tenants (data s1);
        TenantList.properties := TenantList.properties v;
        TenantList.payments := Collections.payments (data s1) |},
     logCall (IdbGet "payments") (logCall (IdbGet "tenants") s1)).
Proof.
  unfold TenantList.removeAndRefetch. rewrite bind_eq. done.
Qed.

Lemma deleteTenant_confirmed (v : TenantList.Refs Num) (id : string) s tenant :
  find (λ t, Tenant.id t = id) (TenantList.tenants v) = Some tenant →
  TenantList.deleteTenant v true id s
  = TenantList.removeAndRefetch v id
      (forOf (filter (λ p, RentPayment.tenantId p = id) (TenantList.payments v))
             (λ payment, Db.deletePayment (RentPayment.id payment)) s).2.
Proof.
  intros Hfind. unfold TenantList.deleteTenant. rewrite Hfind. simpl.
  destruct (filter _ _) as [|p ps]; simpl; [done|].
  by rewrite !bind_eq.
Qed.

(** C5. The user confirms the deletion of a tenant of the list, the list
    showing the payments the store holds. Then every payment of the
    tenant is deleted, by calls that all precede the calls on the
    tenants; afterwards no payment of the store names the tenant and no
    tenant of the store has its id; users, properties and todos are as
    before, and the component shows the new arrays. With payment ids that
    are unique the payments removed are the [N] of the tenant and no
    other. *)
Theorem deleteTenant_cascades (v : TenantList.Refs Num) (id : string) s
    (tenant : Tenant.t Num) :
  tenant ∈ TenantList.tenants v →
  Tenant.id tenant = id →
  TenantList.payments v = Collections.payments (data s) →
  let N := length (filter (λ p, RentPayment.tenantId p = id)
                          (Collections.payments (data s))) in
  let v' := (TenantList.deleteTenant v true id s).1 in
  let s' := (TenantList.deleteTenant v true id s).2 in
  Forall (λ p, RentPayment.tenantId p ≠ id) (Collections.payments (data s'))
  ∧ Forall (λ t, Tenant.id t ≠ id) (Collections.tenants (data s'))
  ∧ Collections.tenants (data s')
    = filter (λ t, Tenant.id t ≠ id) (Collections.tenants (data s))
  ∧ (NoDup (RentPayment.id <$> Collections.payments (data s)) →
     Collections.payments (data s')
     = filter (λ p, RentPayment.tenantId p ≠ id) (Collections.payments (data s))
     ∧ length (Collections.payments (data s))
       = (length (Collections.payments (data s')) + N)%nat)
  ∧ (∀ p, p ∈ Collections.payments (data s') → p ∈ Collections.payments (data s))
  ∧ Collections.users (data s') = Collections.users (data s)
  ∧ Collections.properties (data s') = Collections.properties (data s)
  ∧ Collections.todos (data s') = Collections.todos (data s)
  ∧ TenantList.tenants v' = Collections.tenants (data s')
  ∧ TenantList.payments v' = Collections.payments (data s')
  ∧ ∃ paymentCalls tenantCalls,
      calls s' = [IdbGet "payments"; IdbGet "tenants"] ++ tenantCalls
                 ++ paymentCalls ++ calls s
      ∧ Forall (onKey "payments") paymentCalls
      ∧ Forall (onKey "tenants") tenantCalls.
Proof.
  intros Hin Hid Hsync N v' s'.
  destruct (find_is_Some (λ t, Tenant.id t = id) _ _ Hin Hid) as [t0 Hfind].
  subst v' s'. rewrite (deleteTenant_confirmed v id s t0 Hfind), Hsync.
  set (doomed := filter (λ p, RentPayment.tenantId p = id)
                        (Collections.payments (data s))).
  set (s1 := (forOf doomed _ s).2).
  destruct (forOf_deletePayment doomed s) as [Hdata1 (pcs & Hcalls1 & Hpcs)].
  fold s1 in Hdata1, Hcalls1.
  rewrite removeAndRefetch_eq. simpl.
  set (s2 := (Db.deleteTenant id s1).2).
  assert (Hdata2 : data s2
            = coll_put tenantsColl
                (filter (λ t, Tenant.id t ≠ id) (Collections.tenants (data s1)))
                (data s1))
    by (apply (deleteFrom_data tenantsColl); auto).
  assert (∃ tcs, calls s2 = tcs ++ calls s1 ∧ Forall (onKey "tenants") tcs)
    as (tcs & Hcalls2 & Htcs)
    by exact (deleteFrom_calls tenantsColl id s1).
  rewrite Hdata2, Hdata1. simpl.
  split_and!; try done.
  - apply Forall_forall. intros p [Hp Hkept]%elem_of_purge Hmine.
    apply (Hkept p); [|done]. by apply list_elem_of_filter.
  - apply Forall_forall. by intros t [Ht _]%list_elem_of_filter.
  - intros Hnd. subst doomed. rewrite purge_unique by done.
    split; [done|]. apply length_filter_split.
  - by intros p [Hp _]%elem_of_purge.
  - exists pcs, tcs. split_and!; [|done|done].
    rewrite Hcalls2, Hcalls1. done.
Qed.
End Cascade.

(** ** Recording a payment *)

Section PaymentGuards.
Context `{JsBuiltins Num}.
Implicit Types s : Idb Num.

Lemma missingDetails_amount (np : PaymentDraft.t Num) :
  RentTracking.missingDetails np = false → is_Some (PaymentDraft.amount np).
Proof.
  unfold RentTracking.missingDetails. destruct (PaymentDraft.amount np); [eauto|].
  simpl. rewrite orb_true_r. done.
Qed.

Lemma addOrUpdatePayment_missing (v : RentTracking.Refs Num) env s :
  RentTracking.missingDetails (RentTracking.newPayment v) = true →
  RentTracking.addOrUpdatePayment v env s
  = ((RentTracking.Rejected RentTracking.AlertFillDetails, v), s).
Proof. intros Hm. unfold RentTracking.addOrUpdatePayment. by rewrite Hm. Qed.

Lemma addOrUpdatePayment_archived (v : RentTracking.Refs Num) env s :
  RentTracking.missingDetails (RentTracking.newPayment v) = false →
  RentTracking.isTenantEffectivelyArchived v (RentTracking.selectedTenant v) = true →
  RentTracking.addOrUpdatePayment v env s
  = ((RentTracking.Rejected RentTracking.AlertTenantArchived, v), s).
Proof.
  intros Hm Harch. unfold RentTracking.addOrUpdatePayment. rewrite Hm.
  destruct (missingDetails_amount _ Hm) as [amount ->].
  destruct (RentTracking.selectedTenant v) as [tenant|]; [|done].
  by rewrite Harch.
Qed.

(** C4, as the code has it. A submission whose tenant is effectively
    archived, or is not in the list, is turned down without any storage
    call and without any change to the component. The alert is the
    archived-tenant one when the form is complete; when a required field
    is missing the missing-details alert comes first. *)
Theorem payment_for_archived_tenant_rejected (v : RentTracking.Refs Num) env s :
  RentTracking.isTenantEffectivelyArchived v (RentTracking.selectedTenant v) = true →
  (RentTracking.missingDetails (RentTracking.newPayment v) = false →
     RentTracking.addOrUpdatePayment v env s
     = ((RentTracking.Rejected RentTracking.AlertTenantArchived, v), s))
  ∧ (RentTracking.missingDetails (RentTracking.newPayment v) = true →
     RentTracking.addOrUpdatePayment v env s
     = ((RentTracking.Rejected RentTracking.AlertFillDetails, v), s)).
Proof.
  intros Harch. split; intros Hm.
  - by apply addOrUpdatePayment_archived.
  - by apply addOrUpdatePayment_missing.
Qed.

(** C10. A submission with status ['partial'] whose amount is at least the
    rent of the selected tenant ends in an alert, without any storage call
    and without any change to the component; for a complete form and a
    tenant that is not effectively archived the alert is the one on
    partial amounts. *)
Theorem partial_payment_must_be_below_rent (v : RentTracking.Refs Num) env s
    (tenant : Tenant.t Num) (amount : Num) :
  PaymentDraft.status (RentTracking.newPayment v) = Some "partial" →
  RentTracking.selectedTenant v = Some tenant →
  PaymentDraft.amount (RentTracking.newPayment v) = Some amount →
  num_geb amount (Tenant.rent tenant) = true →
  (∃ a, RentTracking.addOrUpdatePayment v env s = ((RentTracking.Rejected a, v), s))
  ∧ (RentTracking.missingDetails (RentTracking.newPayment v) = false →
     RentTracking.isTenantEffectivelyArchived v (Some tenant) = false →
     RentTracking.addOrUpdatePayment v env s
     = ((RentTracking.Rejected
           (RentTracking.AlertPartialTooLarge amount (Tenant.rent tenant)), v), s)).
Proof.
  intros Hstatus Hsel Hamount Hge.
  assert (Hmain :
    RentTracking.missingDetails (RentTracking.newPayment v) = false →
    RentTracking.isTenantEffectivelyArchived v (Some tenant) = false →
    RentTracking.addOrUpdatePayment v env s
    = ((RentTracking.Rejected
          (RentTracking.AlertPartialTooLarge amount (Tenant.rent tenant)), v), s)).
  { intros Hm Harch. unfold RentTracking.addOrUpdatePayment. rewrite Hm.
    rewrite Hsel, Hamount, Harch, Hstatus, Hge.
    by rewrite bool_decide_true. }
  split; [|done].
  destruct (RentTracking.missingDetails (RentTracking.newPayment v)) eqn:Hm.
  { eexists. by apply addOrUpdatePayment_missing. }
  destruct (RentTracking.isTenantEffectivelyArchived v (Some tenant)) eqn:Harch.
  { eexists. apply addOrUpdatePayment_archived; [done|]. by rewrite Hsel. }
  eexists. by apply Hmain.
Qed.
End PaymentGuards.

(** * The scenario of section 8, evaluated *)

Example getTime_epoch : Runtime.getTime "1970-01-01" = Some 0.
Proof. reflexivity. Qed.

Example getTime_2025_05_05 : Runtime.getTime "2025-05-05" = Some 1746403200000.
Proof. vm_compute. reflexivity. Qed.

Example getTime_not_iso : Runtime.getTime "05/05/2025" = None.
Proof. reflexivity. Qed.

Example lower_mixed : Runtime.lower "Alice_01" = "alice_01".
Proof. reflexivity. Qed.

(** The summary of May 2025: both tenants are active (the second one's
    property is gone, which does not archive it) and both have paid. *)
Example monthlyRentStatus_scenario :
  AlertsTodo.monthlyRentStatus Fixture.alertsRefs Fixture.startOfMay Fixture.endOfMay
  = {| AlertsTodo.activeTenantsCount := 2; AlertsTodo.paidTenantsCount := 2;
       AlertsTodo.totalExpectedRent := 1800;
       AlertsTodo.totalCollectedThisMonth := 1800 |}.
Proof. vm_compute. reflexivity. Qed.

(** A payment stored as paid with 1200, for a rent of 1000, is opened for
    editing from the closed modal and submitted as it is: the watcher has
    put the rent into the form, and the stored amount becomes 1000. *)
Example resubmit_overwrites_amount :
  let v := Fixture.rentTrackingOverpaid in
  let row := RentTrackingList.paymentDetails v Fixture.paymentOverpaid in
  let r := RentTracking.addOrUpdatePayment
             (RentTrackingList.editPaymentClick v row).2 Fixture.env0
             Fixture.overpaidDb in
  (RentTrackingList.editPaymentClick v row).1 = None
  ∧ r.1.1 = RentTracking.Saved
  ∧ Collections.payments (data r.2)
    = [RentPayment.mk "pay-8" "T1" 1000 "2025-03-05" "paid" "March" false].
Proof. vm_compute. done. Qed.

(** A payment of T1's rent is recorded: one read, one write, one re-fetch. *)
Example addOrUpdatePayment_saved :
  let v := Fixture.rentTrackingRefs [Fixture.propertyP] Fixture.draftPaid in
  let r := RentTracking.addOrUpdatePayment v Fixture.env0 Fixture.scenarioDb in
  r.1.1 = RentTracking.Saved
  ∧ Collections.payments (data r.2)
    = [Fixture.paymentApril; Fixture.paymentMay; Fixture.paymentOther;
       RentPayment.mk "pay-3" "T1" 1000 "2025-05-06" "paid" "May" false]
  ∧ calls r.2 = [IdbGet "payments"; IdbSet "payments"; IdbGet "payments"].
Proof. vm_compute. split_and!; reflexivity. Qed.

(** The guard on archived tenants is the view's: the repository function
    stores whatever payment it is given. *)
Example addPayment_unguarded :
  let v := Fixture.rentTrackingRefs [Fixture.propertyP_archived] Fixture.draftPaid in
  let p := RentPayment.mk "pay-3" "T1" 1000 "2025-05-06" "paid" "May" false in
  RentTracking.isTenantEffectivelyArchived v (RentTracking.selectedTenant v) = true
  ∧ Collections.payments (data (Db.addPayment p Fixture.scenarioDb).2)
    = [Fixture.paymentApril; Fixture.paymentMay; Fixture.paymentOther; p].
Proof. split; reflexivity. Qed.

(** Deleting T1 after confirmation: its two payments go first, one
    [deletePayment] each, then the tenant. *)
Example deleteTenant_scenario :
  let r := TenantList.deleteTenant Fixture.tenantListRefs true "T1" Fixture.scenarioDb in
  Collections.payments (data r.2) = [Fixture.paymentOther]
  ∧ Collections.tenants (data r.2) = [Fixture.tenantDangling]
  ∧ calls r.2 = [IdbGet "payments"; IdbGet "tenants";
                 IdbSet "tenants"; IdbGet "tenants";
                 IdbSet "payments"; IdbGet "payments";
                 IdbSet "payments"; IdbGet "payments"].
Proof. vm_compute. split_and!; reflexivity. Qed.

(** Declining the confirmation leaves everything as it was. *)
Example deleteTenant_declined :
  TenantList.deleteTenant Fixture.tenantListRefs false "T1" Fixture.scenarioDb
  = (Fixture.tenantListRefs, Fixture.scenarioDb).
Proof. reflexivity. Qed.

(** * Instances of the theorems, and where the claims fail *)

Lemma tenant_effectively_archived_witness :
  TenantList.isEffectivelyArchived Fixture.tenantListRefs Fixture.tenantT1
  = Tenant.archive Fixture.tenantT1
  ∧ TenantList.isEffectivelyArchived Fixture.tenantListRefs_archived
      Fixture.tenantT1_archived = true.
Proof.
  split.
  - destruct (tenant_effectively_archived Fixture.tenantListRefs Fixture.tenantT1)
      as (_ & _ & _ & Hresolved).
    apply (Hresolved Fixture.propertyP); [|reflexivity].
    exists 0%nat. split; [reflexivity|]. split; [reflexivity|].
    intros j q _ Hlt. inversion Hlt.
  - apply (tenant_effectively_archived Fixture.tenantListRefs_archived
             Fixture.tenantT1_archived).
    reflexivity.
Defined.

(** C2 fails on the code: tenant T2 references a property that is not in the
    collection, its own flag is not set, and both views report it active. *)
Lemma dangling_tenant_reported_active :
  dangling (TenantList.properties Fixture.tenantListRefs)
           (Tenant.propertyId Fixture.tenantDangling)
  ∧ Tenant.archive Fixture.tenantDangling = false
  ∧ TenantList.isEffectivelyArchived Fixture.tenantListRefs Fixture.tenantDangling = false
  ∧ AlertsTodo.isTenantEffectivelyArchived Fixture.alertsRefs
      (Some Fixture.tenantDangling) = false.
Proof.
  split_and!; try reflexivity.
  apply Forall_cons. split; [discriminate|apply Forall_nil_2].
Qed.

Lemma dangling_property_fails_open_witness :
  TenantList.isEffectivelyArchived Fixture.tenantListRefs Fixture.tenantDangling
  = Tenant.archive Fixture.tenantDangling.
Proof.
  apply (dangling_property_fails_open Fixture.tenantDangling).
  apply Forall_cons. split; [discriminate|apply Forall_nil_2].
Defined.

(** C4 fails on the code: property P is archived, so the tenant of the form
    is effectively archived, but the date is empty and the alert raised is
    the one on missing details. *)
Lemma archived_tenant_missing_date :
  let v := Fixture.rentTrackingRefs [Fixture.propertyP_archived] Fixture.draftNoDate in
  RentTracking.isTenantEffectivelyArchived v (RentTracking.selectedTenant v) = true
  ∧ RentTracking.addOrUpdatePayment v Fixture.env0 Fixture.scenarioDb
    = ((RentTracking.Rejected RentTracking.AlertFillDetails, v), Fixture.scenarioDb)
  ∧ (RentTracking.addOrUpdatePayment v Fixture.env0 Fixture.scenarioDb).1.1
    ≠ RentTracking.Rejected RentTracking.AlertTenantArchived.
Proof. split_and!; [reflexivity|reflexivity|discriminate]. Qed.

Lemma payment_for_archived_tenant_rejected_witness :
  let v := Fixture.rentTrackingRefs [Fixture.propertyP_archived] Fixture.draftPaid in
  let w := Fixture.rentTrackingRefs [Fixture.propertyP] Fixture.draftUnknownTenant in
  RentTracking.addOrUpdatePayment v Fixture.env0 Fixture.scenarioDb
  = ((RentTracking.Rejected RentTracking.AlertTenantArchived, v), Fixture.scenarioDb)
  ∧ RentTracking.addOrUpdatePayment w Fixture.env0 Fixture.scenarioDb
    = ((RentTracking.Rejected RentTracking.AlertTenantArchived, w), Fixture.scenarioDb).
Proof.
  intros v w. split.
  - apply (payment_for_archived_tenant_rejected v Fixture.env0 Fixture.scenarioDb);
      reflexivity.
  - apply (payment_for_archived_tenant_rejected w Fixture.env0 Fixture.scenarioDb);
      reflexivity.
Defined.

Lemma deleteTenant_cascades_witness :
  let s' := (TenantList.deleteTenant Fixture.tenantListRefs true "T1"
               Fixture.scenarioDb).2 in
  Forall (λ p, RentPayment.tenantId p ≠ "T1") (Collections.payments (data s'))
  ∧ Forall (λ t, Tenant.id t ≠ "T1") (Collections.tenants (data s')).
Proof.
  intros s'.
  destruct (deleteTenant_cascades Fixture.tenantListRefs "T1" Fixture.scenarioDb
              Fixture.tenantT1) as (Hpayments & Htenants & _).
  - apply elem_of_cons. left. reflexivity.
  - reflexivity.
  - reflexivity.
  - split; [exact Hpayments|exact Htenants].
Defined.

Lemma paid_this_month_bounded_witness :
  let r := AlertsTodo.monthlyRentStatus Fixture.alertsRefsPartials
             Fixture.startOfMay Fixture.endOfMay in
  AlertsTodo.activeTenantsCount r = 3%nat ∧ AlertsTodo.paidTenantsCount r = 2%nat.
Proof.
  intros r.
  pose proof (paid_this_month_bounded Fixture.alertsRefsPartials Fixture.startOfMay
                Fixture.endOfMay) as Hsummary.
  cbv zeta in Hsummary. destruct Hsummary as (_ & Hcounts & _).
  destruct Hcounts as [Hactive Hpaid]; [reflexivity|reflexivity|].
  split.
  - subst r. rewrite Hactive. reflexivity.
  - subst r. rewrite Hpaid. reflexivity.
Defined.

Lemma addUser_duplicate_username_witness :
  Db.addUser Fixture.aliceAgain Fixture.scenarioDb
  = ({| Db.success := false; Db.message := Some "Username is already taken." |},
     logCall (IdbGet "users") Fixture.scenarioDb)
  ∧ length (filter (λ u, Runtime.lower (User.username u) = "alice")
              (Collections.users
                 (data (Db.addUser Fixture.aliceAgain
                          (Db.addUser Fixture.alice Fixture.emptyDb).2).2)))
    = 1%nat.
Proof.
  split.
  - pose proof (addUser_duplicate_username Fixture.aliceAgain Fixture.scenarioDb)
      as Hdup.
    cbv zeta in Hdup. destruct Hdup as [Hdup _].
    apply (Hdup Fixture.alice); [|reflexivity].
    apply elem_of_cons. left. reflexivity.
  - pose proof (addUser_duplicate_username Fixture.alice Fixture.emptyDb)
      as Htwice.
    cbv zeta in Htwice. destruct Htwice as [_ Htwice].
    apply (Htwice Fixture.aliceAgain); [reflexivity|].
    simpl. lia.
Defined.

(** C8 fails on the code for users: no user has the id of the record, and
    [updateUser] reports a failure to its caller. *)
Lemma updateUser_unknown_id_reports_failure :
  Forall (λ x, User.id x ≠ User.id Fixture.aliceAgain)
         (Collections.users (data Fixture.scenarioDb))
  ∧ Db.updateUser Fixture.aliceAgain Fixture.scenarioDb
    = ({| Db.success := false; Db.message := Some "User not found." |},
       logCall (IdbGet "users") Fixture.scenarioDb)
  ∧ Db.success (Db.updateUser Fixture.aliceAgain Fixture.scenarioDb).1 = false.
Proof.
  split_and!; try reflexivity.
  apply Forall_cons. split; [discriminate|apply Forall_nil_2].
Qed.

Lemma unknown_id_is_no_write_witness :
  Db.updateTenant Fixture.tenantT1 Fixture.emptyDb
  = (tt, logCall (IdbGet "tenants") Fixture.emptyDb)
  ∧ Db.deleteProperty "gone" Fixture.scenarioDb
    = (tt, logCall (IdbGet "properties") Fixture.scenarioDb)
  ∧ Db.updateUser Fixture.aliceAgain Fixture.scenarioDb
    = ({| Db.success := false; Db.message := Some "User not found." |},
       logCall (IdbGet "users") Fixture.scenarioDb).
Proof.
  split_and!.
  - apply (unknown_id_is_no_write Fixture.emptyDb). apply Forall_nil_2.
  - apply (unknown_id_is_no_write Fixture.scenarioDb).
    apply Forall_cons. split; [discriminate|apply Forall_nil_2].
  - apply (unknown_id_is_no_write Fixture.scenarioDb).
    apply Forall_cons. split; [discriminate|apply Forall_nil_2].
Defined.

Lemma partial_payment_must_be_below_rent_witness :
  let v := Fixture.rentTrackingRefs [Fixture.propertyP] Fixture.draftPartialFull in
  RentTracking.addOrUpdatePayment v Fixture.env0 Fixture.scenarioDb
  = ((RentTracking.Rejected (RentTracking.AlertPartialTooLarge 1000 1000), v),
     Fixture.scenarioDb).
Proof.
  intros v.
  apply (partial_payment_must_be_below_rent v Fixture.env0 Fixture.scenarioDb
           Fixture.tenantT1 1000); reflexivity.
Defined.

(** * Further properties of the repository *)

Section DbExtras.
Context `{JsBuiltins Num}.
Implicit Types s : Idb Num.

Lemma addTo_data {A} (c : Collection Num A) (r : A) s :
  data (Db.addTo c r s).2 = coll_put c (push (coll_get c (data s)) r) (data s).
Proof. done. Qed.

Lemma filter_none {A} (P : A → Prop) `{!∀ x, Decision (P x)} (l : list A) :
  Forall (λ x, ¬ P x) l → filter P l = [].
Proof.
  induction 1 as [|x l Hx _ IH]; [done|]. by rewrite filter_cons_False.
Qed.

Lemma addTo_deleteFrom {A} (c : Collection Num A) (r : A) s :
  Lawful c →
  Forall (λ x, coll_id c x ≠ coll_id c r) (coll_get c (data s)) →
  data (Db.deleteFrom c (coll_id c r) (Db.addTo c r s).2).2 = data s.
Proof.
  intros Hc Hfresh. rewrite deleteFrom_data, addTo_data by done.
  rewrite (get_put c Hc), (put_put c Hc). unfold push.
  rewrite filter_app, (filter_all _ _ Hfresh).
  rewrite filter_cons_False, filter_nil by (intros Hne; by apply Hne).
  by rewrite app_nil_r, (put_get c Hc).
Qed.

(** X1. Adding a record whose id is not in the collection and then deleting
    that id gives back the contents as they were, for properties, tenants,
    payments and todos. *)
Theorem add_then_delete_restores s :
  (∀ e : Property.t Num,
     Forall (λ x, Property.id x ≠ Property.id e) (Collections.properties (data s)) →
     data (Db.deleteProperty (Property.id e) (Db.addProperty e s).2).2 = data s)
  ∧ (∀ e : Tenant.t Num,
     Forall (λ x, Tenant.id x ≠ Tenant.id e) (Collections.tenants (data s)) →
     data (Db.deleteTenant (Tenant.id e) (Db.addTenant e s).2).2 = data s)
  ∧ (∀ e : RentPayment.t Num,
     Forall (λ x, RentPayment.id x ≠ RentPayment.id e) (Collections.payments (data s)) →
     data (Db.deletePayment (RentPayment.id e) (Db.addPayment e s).2).2 = data s)
  ∧ (∀ e : TodoItem.t,
     Forall (λ x, TodoItem.id x ≠ TodoItem.id e) (Collections.todos (data s)) →
     data (Db.deleteTodo (TodoItem.id e) (Db.addTodo e s).2).2 = data s).
Proof.
  split_and!; intros e He.
  - by apply (addTo_deleteFrom propertiesColl).
  - by apply (addTo_deleteFrom tenantsColl).
  - by apply (addTo_deleteFrom paymentsColl).
  - by apply (addTo_deleteFrom todosColl).
Qed.

Lemma insert_at_match_ids {A} (f : A → string) (l : list A) (r : A) i :
  findIndex (λ x, f x = f r) l = Some i →
  f <$> <[i := r]> l = f <$> l.
Proof.
  intros (x & Hi & Hx & _)%findIndex_Some.
  rewrite list_fmap_insert. apply list_insert_id.
  by rewrite list_lookup_fmap, Hi, <- Hx.
Qed.

Lemma insert_at_match_others {A} (f : A → string) (l : list A) (r : A) i j y :
  findIndex (λ x, f x = f r) l = Some i →
  l !! j = Some y → f y ≠ f r → <[i := r]> l !! j = Some y.
Proof.
  intros (x & Hi & Hx & _)%findIndex_Some Hj Hy.
  rewrite list_lookup_insert_ne; [done|]. intros ->. congruence.
Qed.

Lemma updateIn_ids {A} (c : Collection Num A) (r : A) s :
  Lawful c →
  let xs := coll_get c (data s) in
  let xs' := coll_get c (data (Db.updateIn c r s).2) in
  coll_id c <$> xs' = coll_id c <$> xs
  ∧ ∀ j y, xs !! j = Some y → coll_id c y ≠ coll_id c r → xs' !! j = Some y.
Proof.
  intros Hc xs xs'. subst xs xs'. rewrite updateIn_eq.
  destruct (findIndex _ _) as [i|] eqn:Hi; simpl; [|done].
  rewrite (get_put c Hc). split.
  - by apply insert_at_match_ids.
  - intros j y. by apply (insert_at_match_others (coll_id c)).
Qed.

Lemma updateUser_ids (u : User.t) s :
  let xs := Collections.users (data s) in
  let xs' := Collections.users (data (Db.updateUser u s).2) in
  User.id <$> xs' = User.id <$> xs
  ∧ ∀ j y, xs !! j = Some y → User.id y ≠ User.id u → xs' !! j = Some y.
Proof.
  intros xs xs'. subst xs xs'. rewrite updateUser_eq.
  destruct (findIndex _ _) as [i|] eqn:Hi; simpl; [|done]. split.
  - by apply insert_at_match_ids.
  - intros j y. by apply (insert_at_match_others User.id).
Qed.

(** X2. An update never changes which ids a collection holds, nor their
    order, nor any record whose id is not the one of the record given: the
    array of ids is the same before and after, for each of the five update
    functions. *)
Theorem update_keeps_ids s :
  (∀ e : User.t,
     User.id <$> Collections.users (data (Db.updateUser e s).2)
     = User.id <$> Collections.users (data s)
     ∧ ∀ j y, Collections.users (data s) !! j = Some y → User.id y ≠ User.id e →
              Collections.users (data (Db.updateUser e s).2) !! j = Some y)
  ∧ (∀ e : Property.t Num,
     Property.id <$> Collections.properties (data (Db.updateProperty e s).2)
     = Property.id <$> Collections.properties (data s)
     ∧ ∀ j y, Collections.properties (data s) !! j = Some y →
              Property.id y ≠ Property.id e →
              Collections.properties (data (Db.updateProperty e s).2) !! j = Some y)
  ∧ (∀ e : Tenant.t Num,
     Tenant.id <$> Collections.tenants (data (Db.updateTenant e s).2)
     = Tenant.id <$> Collections.tenants (data s)
     ∧ ∀ j y, Collections.tenants (data s) !! j = Some y →
              Tenant.id y ≠ Tenant.id e →
              Collections.tenants (data (Db.updateTenant e s).2) !! j = Some y)
  ∧ (∀ e : RentPayment.t Num,
     RentPayment.id <$> Collections.payments (data (Db.updatePayment e s).2)
     = RentPayment.id <$> Collections.payments (data s)
     ∧ ∀ j y, Collections.payments (data s) !! j = Some y →
              RentPayment.id y ≠ RentPayment.id e →
              Collections.payments (data (Db.updatePayment e s).2) !! j = Some y)
  ∧ (∀ e : TodoItem.t,
     TodoItem.id <$> Collections.todos (data (Db.updateTodo e s).2)
     = TodoItem.id <$> Collections.todos (data s)
     ∧ ∀ j y, Collections.todos (data s) !! j = Some y →
              TodoItem.id y ≠ TodoItem.id e →
              Collections.todos (data (Db.updateTodo e s).2) !! j = Some y).
Proof.
  split_and!; intros e.
  - apply updateUser_ids.
  - apply (updateIn_ids propertiesColl); auto.
  - apply (updateIn_ids tenantsColl); auto.
  - apply (updateIn_ids paymentsColl); auto.
  - apply (updateIn_ids todosColl); auto.
Qed.

Lemma deleteFrom_twice {A} (c : Collection Num A) (id : string) s :
  Lawful c →
  let s1 := (Db.deleteFrom c id s).2 in
  coll_get c (data s1) = filter (λ x, coll_id c x ≠ id) (coll_get c (data s))
  ∧ Forall (λ x, coll_id c x ≠ id) (coll_get c (data s1))
  ∧ Db.deleteFrom c id s1 = (tt, logCall (IdbGet (coll_key c)) s1).
Proof.
  intros Hc s1.
  assert (Hget : coll_get c (data s1)
                 = filter (λ x, coll_id c x ≠ id) (coll_get c (data s))).
  { subst s1. by rewrite deleteFrom_data, (get_put c Hc). }
  assert (Hgone : Forall (λ x, coll_id c x ≠ id) (coll_get c (data s1))).
  { rewrite Hget. apply Forall_forall. by intros x [Hx _]%list_elem_of_filter. }
  split_and!; [done|done|]. by apply deleteFrom_not_found.
Qed.

(** X3. After [delete(id)] the collection is the old one without the records
    of that id, the others in their order; no record of that id is left, and
    a second [delete(id)] reads the collection and writes nothing. *)
Theorem delete_removes_the_id (id : string) s :
  (let s1 := (Db.deleteProperty id s).2 in
   Collections.properties (data s1)
   = filter (λ x, Property.id x ≠ id) (Collections.properties (data s))
   ∧ Forall (λ x, Property.id x ≠ id) (Collections.properties (data s1))
   ∧ Db.deleteProperty id s1 = (tt, logCall (IdbGet "properties") s1))
  ∧ (let s1 := (Db.deleteTenant id s).2 in
   Collections.tenants (data s1)
   = filter (λ x, Tenant.id x ≠ id) (Collections.tenants (data s))
   ∧ Forall (λ x, Tenant.id x ≠ id) (Collections.tenants (data s1))
   ∧ Db.deleteTenant id s1 = (tt, logCall (IdbGet "tenants") s1))
  ∧ (let s1 := (Db.deletePayment id s).2 in
   Collections.payments (data s1)
   = filter (λ x, RentPayment.id x ≠ id) (Collections.payments (data s))
   ∧ Forall (λ x, RentPayment.id x ≠ id) (Collections.payments (data s1))
   ∧ Db.deletePayment id s1 = (tt, logCall (IdbGet "payments") s1))
  ∧ (let s1 := (Db.deleteTodo id s).2 in
   Collections.todos (data s1)
   = filter (λ x, TodoItem.id x ≠ id) (Collections.todos (data s))
   ∧ Forall (λ x, TodoItem.id x ≠ id) (Collections.todos (data s1))
   ∧ Db.deleteTodo id s1 = (tt, logCall (IdbGet "todos") s1)).
Proof.
  split_and!.
  - apply (deleteFrom_twice propertiesColl); auto.
  - apply (deleteFrom_twice tenantsColl); auto.
  - apply (deleteFrom_twice paymentsColl); auto.
  - apply (deleteFrom_twice todosColl); auto.
Qed.

(** X4. [addUser] keeps the usernames of the collection distinct, letter
    case aside: if they are before the call, they are after it, whether the
    call registers the user or turns it down. *)
Theorem addUser_keeps_usernames_unique (user : User.t) s :
  uniqueUsernames (Collections.users (data s)) →
  uniqueUsernames (Collections.users (data (Db.addUser user s).2)).
Proof.
  unfold uniqueUsernames. intros Huniq. rewrite addUser_eq.
  destruct (find _ _) eqn:Hfind; simpl; [done|].
  apply find_None in Hfind. unfold push. rewrite fmap_app. simpl.
  apply NoDup_app. split_and!; [done| |apply NoDup_singleton].
  intros name (u & Hname & Hu)%list_elem_of_fmap Hlast%list_elem_of_singleton.
  rewrite Forall_forall in Hfind. apply (Hfind u Hu). congruence.
Qed.

(** X5. A user that [addUser] has registered is the one [getUserByUsername]
    returns for its username, in whatever letter case the name is typed. *)
Theorem registered_user_is_found (user : User.t) (typed : string) s :
  Db.success (Db.addUser user s).1 = true →
  toLowerCase typed = toLowerCase (User.username user) →
  (Db.getUserByUsername typed (Db.addUser user s).2).1 = Some user.
Proof.
  rewrite addUser_eq. intros Hok Htyped.
  destruct (find _ _) eqn:Hfind; simpl in *; [done|].
  unfold Db.getUserByUsername, Db.getUsers, Db.getAll, bind, idbGet, ret. simpl.
  apply find_None in Hfind.
  apply (find_Some (λ u, toLowerCase (User.username u) = toLowerCase typed)).
  exists (length (Collections.users (data s))). split_and!.
  - unfold push. by rewrite lookup_app_r, Nat.sub_diag.
  - done.
  - intros j y Hj Hlt. unfold push in Hj. rewrite lookup_app_l in Hj by done.
    rewrite Htyped. rewrite Forall_forall in Hfind.
    apply Hfind. by eapply list_elem_of_lookup_2.
Qed.
End DbExtras.

(** * Properties and their tenants *)

Section PropertyExtras.
Context `{JsBuiltins Num}.
Implicit Types s : Idb Num.

Lemma find_findIndex {A} (P : A → Prop) `{!∀ x, Decision (P x)} (l : list A) x :
  find P l = Some x → ∃ i, findIndex P l = Some i ∧ l !! i = Some x.
Proof.
  unfold find, findIndex.
  destruct (list_find P l) as [[i y]|] eqn:Hfind; simpl; [|done].
  intros [= <-]. exists i. split; [done|].
  by apply list_find_Some in Hfind as [? _].
Qed.

Lemma find_insert {A} (P : A → Prop) `{!∀ x, Decision (P x)} (l : list A) i r :
  P r → findIndex P l = Some i → find P (<[i := r]> l) = Some r.
Proof.
  intros Hr Hi. apply find_Some.
  pose proof (findIndex_insert P l i r Hr Hi) as Hi'.
  apply findIndex_Some in Hi' as (x & Hx & _ & Hleast).
  apply findIndex_Some in Hi as (y & Hy & _).
  rewrite list_lookup_insert_eq in Hx by (by eapply lookup_lt_Some).
  injection Hx as <-. exists i. split_and!; [|done|done].
  apply list_lookup_insert_eq. by eapply lookup_lt_Some.
Qed.

Lemma findIndex_is_Some {A} (f : A → string) (l : list A) (id : string) :
  id ∈ f <$> l → is_Some (findIndex (λ x, f x = id) l).
Proof.
  intros (x & -> & Hx)%list_elem_of_fmap.
  unfold findIndex. apply fmap_is_Some.
  by apply (list_find_elem_of (λ y, f y = f x) l x).
Qed.

(** Writing a record over the one with its id, and then the original back,
    gives the contents as they were. *)
Lemma updateIn_back {A} (c : Collection Num A) (r r' : A) s :
  Lawful c →
  find (λ x, coll_id c x = coll_id c r) (coll_get c (data s)) = Some r →
  coll_id c r' = coll_id c r →
  data (Db.updateIn c r (Db.updateIn c r' s).2).2 = data s.
Proof.
  intros Hc Hfind Hid.
  destruct (find_findIndex _ _ _ Hfind) as (i & Hi & Hr).
  rewrite (updateIn_eq c r' s), Hid, Hi. simpl.
  rewrite updateIn_eq. simpl. rewrite (get_put c Hc).
  assert (findIndex (λ x, coll_id c x = coll_id c r)
            (<[i := r']> (coll_get c (data s))) = Some i) as ->
    by (by apply findIndex_insert).
  simpl. rewrite (put_put c Hc), list_insert_insert_eq.
  by rewrite (list_insert_id _ _ _ Hr), (put_get c Hc).
Qed.

(** The contents an update leaves depend on the contents it finds, not on
    the calls made before. *)
Lemma updateIn_data_congr {A} (c : Collection Num A) (r : A) s1 s2 :
  data s1 = data s2 → data (Db.updateIn c r s1).2 = data (Db.updateIn c r s2).2.
Proof.
  intros Heq. rewrite !updateIn_eq, Heq.
  by destruct (findIndex _ _).
Qed.

Lemma toggleArchiveProperty_data (v : PropertyList.Refs Num) (p : Property.t Num) s :
  data (PropertyList.toggleArchiveProperty v p s).2
  = data (Db.updateProperty (PropertyList.withArchiveToggled p) s).2
  ∧ PropertyList.properties (PropertyList.toggleArchiveProperty v p s).1
    = Collections.properties
        (data (Db.updateProperty (PropertyList.withArchiveToggled p) s).2).
Proof.
  unfold PropertyList.toggleArchiveProperty. rewrite bind_eq. done.
Qed.

(** X6. Archiving or unarchiving a stored property through the property
    list reaches every tenant that references it: once the tenant list has
    loaded the store, such a tenant is effectively archived exactly when its
    own flag is set or the property has just been archived. The tenants
    themselves are not written. *)
Theorem toggleArchiveProperty_reaches_tenants (v : PropertyList.Refs Num)
    (p : Property.t Num) s :
  Property.id p ∈ Property.id <$> Collections.properties (data s) →
  let s1 := (PropertyList.toggleArchiveProperty v p s).2 in
  let w := (TenantList.onMounted s1).1 in
  TenantList.tenants w = Collections.tenants (data s)
  ∧ ∀ t : Tenant.t Num,
      Tenant.propertyId t = Property.id p →
      TenantList.isEffectivelyArchived w t
      = Tenant.archive t || negb (Property.archive p).
Proof.
  intros Hstored s1 w.
  destruct (findIndex_is_Some Property.id _ _ Hstored) as [i Hi].
  assert (Hdata : data s1
            = coll_put propertiesColl
                (<[i := PropertyList.withArchiveToggled p]>
                   (Collections.properties (data s))) (data s)).
  { subst s1. rewrite (proj1 (toggleArchiveProperty_data v p s)).
    unfold Db.updateProperty. rewrite updateIn_eq. simpl. by rewrite Hi. }
  assert (Hwt : TenantList.tenants w = Collections.tenants (data s)).
  { transitivity (Collections.tenants (data s1)); [done|]. by rewrite Hdata. }
  assert (Hwp : TenantList.properties w
                = <[i := PropertyList.withArchiveToggled p]>
                    (Collections.properties (data s))).
  { transitivity (Collections.properties (data s1)); [done|]. by rewrite Hdata. }
  split; [done|]. intros t Ht.
  unfold TenantList.isEffectivelyArchived, TenantList.getPropertyArchivedStatus.
  rewrite Hwp, Ht.
  by rewrite (find_insert (λ x, Property.id x = Property.id p) _ i
                (PropertyList.withArchiveToggled p) eq_refl Hi).
Qed.

(** X7. Toggling the archive flag of a stored property twice, the second time
    on the record the first toggle stored, gives back the contents as they
    were. *)
Theorem toggleArchiveProperty_twice (v : PropertyList.Refs Num)
    (p : Property.t Num) s :
  find (λ x, Property.id x = Property.id p) (Collections.properties (data s)) = Some p →
  let r1 := PropertyList.toggleArchiveProperty v p s in
  let r2 := PropertyList.toggleArchiveProperty r1.1
              (PropertyList.withArchiveToggled p) r1.2 in
  find (λ x, Property.id x = Property.id p) (PropertyList.properties r1.1)
  = Some (PropertyList.withArchiveToggled p)
  ∧ data r2.2 = data s
  ∧ PropertyList.properties r2.1 = Collections.properties (data s).
Proof.
  intros Hfind r1 r2.
  assert (Hback : PropertyList.withArchiveToggled (PropertyList.withArchiveToggled p) = p).
  { destruct p. unfold PropertyList.withArchiveToggled. simpl.
    by rewrite negb_involutive. }
  assert (Hdata2 : data r2.2 = data s).
  { subst r2. rewrite (proj1 (toggleArchiveProperty_data _ _ _)), Hback.
    unfold Db.updateProperty.
    rewrite (updateIn_data_congr propertiesColl p r1.2
               (Db.updateIn propertiesColl (PropertyList.withArchiveToggled p) s).2)
      by apply (proj1 (toggleArchiveProperty_data v p s)).
    by apply (updateIn_back propertiesColl p (PropertyList.withArchiveToggled p)). }
  split_and!; [|done|].
  - subst r1. rewrite (proj2 (toggleArchiveProperty_data v p s)).
    destruct (find_findIndex _ _ _ Hfind) as (i & Hi & _).
    unfold Db.updateProperty. rewrite updateIn_eq. simpl. rewrite Hi. simpl.
    by apply (find_insert (λ x, Property.id x = Property.id p)).
  - destruct (toggleArchiveProperty_data r1.1 (PropertyList.withArchiveToggled p) r1.2)
      as [Hd Hp].
    transitivity (Collections.properties (data r2.2)); [|by rewrite Hdata2].
    subst r2. by rewrite Hp, <- Hd.
Qed.

(** X8. Deleting a property through the property list does not cascade: the
    tenants and the payments of the store are as before. A tenant that
    referenced the property is then reported by the tenant list with its own
    flag alone, also when the property was archived before. *)
Theorem deleteProperty_leaves_tenants (v : PropertyList.Refs Num) (id : string) s :
  let s1 := (PropertyList.deleteProperty v id s).2 in
  let w := (TenantList.onMounted s1).1 in
  Collections.tenants (data s1) = Collections.tenants (data s)
  ∧ Collections.payments (data s1) = Collections.payments (data s)
  ∧ Forall (λ p, Property.id p ≠ id) (Collections.properties (data s1))
  ∧ TenantList.tenants w = Collections.tenants (data s)
  ∧ ∀ t : Tenant.t Num,
      Tenant.propertyId t = id →
      TenantList.isEffectivelyArchived w t = Tenant.archive t.
Proof.
  intros s1 w.
  assert (Hdata : data s1
            = coll_put propertiesColl
                (filter (λ x, Property.id x ≠ id) (Collections.properties (data s)))
                (data s)).
  { subst s1. unfold PropertyList.deleteProperty. rewrite bind_eq. simpl.
    apply (deleteFrom_data propertiesColl); auto. }
  assert (Hgone : Forall (λ p, Property.id p ≠ id) (Collections.properties (data s1))).
  { rewrite Hdata. simpl. apply Forall_forall.
    by intros x [Hx _]%list_elem_of_filter. }
  assert (Htenants : Collections.tenants (data s1) = Collections.tenants (data s))
    by (by rewrite Hdata).
  assert (Hpayments : Collections.payments (data s1) = Collections.payments (data s))
    by (by rewrite Hdata).
  assert (Hwt : TenantList.tenants w = Collections.tenants (data s)).
  { transitivity (Collections.tenants (data s1)); done. }
  assert (Hwp : TenantList.properties w = Collections.properties (data s1))
    by done.
  split_and!; [done|done|done|done|].
  + intros t Ht. unfold TenantList.isEffectivelyArchived.
    rewrite (TenantList_status_dangling w (Tenant.propertyId t)).
    * apply orb_false_r.
    * unfold dangling. by rewrite Hwp, Ht.
Qed.
End PropertyExtras.

Example toISOString_2025_05_06 :
  toISOString "2025-05-06" = Some "2025-05-06T00:00:00.000Z".
Proof. vm_compute. reflexivity. Qed.

Example toISOString_time_of_day :
  RuntimeExtras.formatISO 1746403200123 = "2025-05-05T00:00:00.123Z"
  ∧ RuntimeExtras.formatISO 951868799999 = "2000-02-29T23:59:59.999Z".
Proof. vm_compute. split; reflexivity. Qed.

Example trim_spaces :
  RuntimeExtras.trimSpaces "  call the  plumber " = "call the  plumber".
Proof. reflexivity. Qed.

(** * The tenant modal *)

Section TenantFormExtras.
Context `{JsBuiltins Num} `{!JsExtras Num}.
Implicit Types s : Idb Num.

Lemma find_ext {A} (P Q : A → Prop) `{!∀ x, Decision (P x)} `{!∀ x, Decision (Q x)}
    (l : list A) :
  (∀ x, P x ↔ Q x) → find P l = find Q l.
Proof. intros HPQ. unfold find. by rewrite (list_find_ext P Q l HPQ). Qed.

Lemma find_by_optional_id {A} (f : A → string) (l : list A) (id : option string) :
  falsyStr id = false →
  find (λ x, Some (f x) = id) l = find (λ x, f x = default "" id) l.
Proof.
  destruct id as [id|]; [|done]. intros _. apply find_ext.
  intros x. simpl. split; [by intros [= ->]|by intros ->].
Qed.

(** X9. A tenant form that names an archived property is turned down with
    an alert, before any storage call and without any change to the
    component, whether a tenant is being added or edited; for a form with
    its required fields the alert is the one on archived properties. *)
Theorem tenant_not_saved_on_archived_property (v : TenantList.Refs Num)
    (f : TenantListForm.Form Num) env s (p : Property.t Num) :
  find (λ q, Some (Property.id q)
             = TenantDraft.propertyId (TenantListForm.newTenant f))
       (TenantList.properties v) = Some p →
  Property.archive p = true →
  (∃ msg,
     TenantListForm.addOrUpdateTenant v f env s
     = ((TenantListForm.Alerted msg, (v, f)), s))
  ∧ (falsyStr (TenantDraft.name (TenantListForm.newTenant f)) = false →
     falsyStr (TenantDraft.propertyId (TenantListForm.newTenant f)) = false →
     falsyNum (TenantDraft.floor (TenantListForm.newTenant f)) = false →
     falsyStr (TenantDraft.room (TenantListForm.newTenant f)) = false →
     TenantListForm.addOrUpdateTenant v f env s
     = ((TenantListForm.Alerted
           "Cannot add or assign tenants to an archived property.", (v, f)), s)).
Proof.
  intros Hfind Harchived.
  unfold TenantListForm.addOrUpdateTenant. rewrite Hfind, Harchived. split.
  - destruct (_ || _ || _ || _); eauto.
  - by intros -> -> -> ->.
Qed.

(** X10. A tenant that the modal adds is stored last, under the fresh id,
    with the property of the form and with its archive flag off, whatever
    the form held for it; the component shows the new arrays and the form is
    reset. When the list showed the stored properties, the new tenant is
    not effectively archived. *)
Theorem new_tenant_is_stored_active (v : TenantList.Refs Num)
    (f : TenantListForm.Form Num) env s :
  TenantListForm.isEditing f = false →
  (TenantListForm.addOrUpdateTenant v f env s).1.1 = TenantListForm.Saved →
  let v' := (TenantListForm.addOrUpdateTenant v f env s).1.2.1 in
  let f' := (TenantListForm.addOrUpdateTenant v f env s).1.2.2 in
  let s' := (TenantListForm.addOrUpdateTenant v f env s).2 in
  ∃ t : Tenant.t Num,
    Collections.tenants (data s') = Collections.tenants (data s) ++ [t]
    ∧ Tenant.id t = TenantListForm.randomUUID env
    ∧ Tenant.archive t = false
    ∧ Some (Tenant.propertyId t) = TenantDraft.propertyId (TenantListForm.newTenant f)
    ∧ TenantList.tenants v' = Collections.tenants (data s')
    ∧ TenantList.properties v' = Collections.properties (data s)
    ∧ f' = TenantListForm.resetModal
    ∧ (TenantList.properties v = Collections.properties (data s) →
       TenantList.isEffectivelyArchived v' t = false).
Proof.
  intros Hadd. unfold TenantListForm.addOrUpdateTenant. rewrite Hadd.
  destruct (_ || _ || _ || _) eqn:Hmissing; [done|].
  apply orb_false_iff in Hmissing as [Hmissing _].
  apply orb_false_iff in Hmissing as [Hmissing _].
  apply orb_false_iff in Hmissing as [_ Hid].
  destruct (match find _ _ with Some _ => _ | None => _ end) eqn:Hguard; [done|].
  destruct (TenantListForm.leaseDate _ _) as [leaseStartDate|]; [|done].
  destruct (TenantListForm.leaseDate _ _) as [leaseEndDate|]; [|done].
  destruct (TenantDraft.floor _) as [floor|]; [|done].
  simpl. intros _. eexists. split_and!; try reflexivity.
  - simpl. by destruct (TenantDraft.propertyId _).
  - intros Hsync. unfold TenantList.isEffectivelyArchived. simpl.
    unfold TenantList.getPropertyArchivedStatus. simpl.
    rewrite <- Hsync, <- (find_by_optional_id Property.id _ _ Hid).
    done.
Qed.

Lemma toggleArchiveTenant_data (v : TenantList.Refs Num) (t : Tenant.t Num) s :
  TenantList.getPropertyArchivedStatus v (Tenant.propertyId t) = false →
  let r := TenantListForm.toggleArchiveTenant v t s in
  data r.2 = data (Db.updateTenant (TenantListForm.withArchiveToggled t) s).2
  ∧ r.1.1 = None
  ∧ TenantList.tenants r.1.2 = Collections.tenants (data r.2)
  ∧ TenantList.properties r.1.2 = TenantList.properties v.
Proof.
  intros Hguard. unfold TenantListForm.toggleArchiveTenant. rewrite Hguard.
  rewrite bind_eq. done.
Qed.

(** X11. The archive flag of a tenant cannot be toggled while its property
    is archived: the call ends in an alert, with no storage call. Otherwise
    the toggle writes the tenant back with the flag flipped, and a second
    toggle, on the record the first one stored, gives back the contents as
    they were. *)
Theorem toggleArchiveTenant_guarded_and_reversible (v : TenantList.Refs Num)
    (t : Tenant.t Num) s :
  (TenantList.getPropertyArchivedStatus v (Tenant.propertyId t) = true →
   ∃ msg, TenantListForm.toggleArchiveTenant v t s = ((Some msg, v), s))
  ∧ (TenantList.getPropertyArchivedStatus v (Tenant.propertyId t) = false →
     find (λ x, Tenant.id x = Tenant.id t) (Collections.tenants (data s)) = Some t →
     let r1 := TenantListForm.toggleArchiveTenant v t s in
     let r2 := TenantListForm.toggleArchiveTenant r1.1.2
                 (TenantListForm.withArchiveToggled t) r1.2 in
     find (λ x, Tenant.id x = Tenant.id t) (TenantList.tenants r1.1.2)
     = Some (TenantListForm.withArchiveToggled t)
     ∧ data r2.2 = data s
     ∧ TenantList.tenants r2.1.2 = Collections.tenants (data s)).
Proof.
  split.
  - intros Hguard. unfold TenantListForm.toggleArchiveTenant. rewrite Hguard.
    eauto.
  - intros Hguard Hfind r1 r2.
    assert (Hback : TenantListForm.withArchiveToggled
                      (TenantListForm.withArchiveToggled t) = t).
    { destruct t. unfold TenantListForm.withArchiveToggled. simpl.
      by rewrite negb_involutive. }
    destruct (toggleArchiveTenant_data v t s Hguard) as (Hd1 & _ & Ht1 & Hp1).
    fold r1 in Hd1, Ht1, Hp1.
    assert (Hguard1 : TenantList.getPropertyArchivedStatus r1.1.2
                        (Tenant.propertyId (TenantListForm.withArchiveToggled t)) = false).
    { unfold TenantList.getPropertyArchivedStatus in *. by rewrite Hp1. }
    destruct (toggleArchiveTenant_data r1.1.2 _ r1.2 Hguard1) as (Hd2 & _ & Ht2 & _).
    fold r2 in Hd2, Ht2. rewrite Hback in Hd2.
    assert (Hdata2 : data r2.2 = data s).
    { rewrite Hd2. unfold Db.updateTenant.
      rewrite (updateIn_data_congr tenantsColl t r1.2
                 (Db.updateIn tenantsColl (TenantListForm.withArchiveToggled t) s).2)
        by exact Hd1.
      by apply (updateIn_back tenantsColl t (TenantListForm.withArchiveToggled t)). }
    split_and!; [|done|by rewrite Ht2, Hdata2].
    rewrite Ht1, Hd1.
    destruct (find_findIndex _ _ _ Hfind) as (i & Hi & _).
    unfold Db.updateTenant. rewrite updateIn_eq. simpl. rewrite Hi. simpl.
    by apply (find_insert (λ x, Tenant.id x = Tenant.id t)).
Qed.

(** X12. When the watcher on the property of the form has run, the form does
    not hold an archived property: an archived choice is undone with an
    alert. Otherwise the floor is 1 and the room the watcher sets is one of
    the rooms the form offers. *)
Theorem watcher_keeps_form_consistent (v : TenantList.Refs Num)
    (f : TenantListForm.Form Num) :
  num_truthy (num_ofNat 1) = true →
  let msg := (TenantListForm.onPropertyIdChange v f).1 in
  let f' := (TenantListForm.onPropertyIdChange v f).2 in
  (∀ p, TenantListForm.selectedProperty f' = Some p → Property.archive p = false)
  ∧ (∀ p, find (λ q, Some (Property.id q)
                     = TenantDraft.propertyId (TenantListForm.newTenant f))
               (TenantList.properties v) = Some p →
          Property.archive p = true →
          is_Some msg
          ∧ TenantDraft.propertyId (TenantListForm.newTenant f') = Some "")
  ∧ (msg = None →
     ∃ room, TenantDraft.room (TenantListForm.newTenant f') = Some room
             ∧ room ∈ TenantListForm.availableRooms f').
Proof.
  intros Hone msg f'. subst msg f'. unfold TenantListForm.onPropertyIdChange.
  destruct (find _ _) as [p|] eqn:Hfind.
  - destruct (Property.archive p) eqn:Harchive; simpl.
    + split_and!; [done| |done]. intros q [= <-] _. eauto.
    + split_and!.
      * by intros q [= <-].
      * intros q [= <-]. congruence.
      * intros _. eexists. split; [done|].
        unfold TenantListForm.availableRooms. simpl. rewrite Hone. simpl.
        destruct (num_leb (Property.floors p) num_zero) eqn:Hfloors; simpl.
        { rewrite orb_true_r. simpl. by apply list_elem_of_singleton. }
        destruct (num_leb (Property.rooms p) num_zero) eqn:Hrooms; simpl.
        { rewrite orb_true_r. by apply list_elem_of_singleton. }
        apply elem_of_cons. by left.
  - simpl. split_and!; [done|done|]. intros _. eexists. split; [done|].
    apply list_elem_of_singleton. done.
Qed.
End TenantFormExtras.

(** * More on sorting *)

Section SortExtras.
Context {A : Type} (cmp : A → A → Z).
Implicit Types l : list A.

Lemma insertBy_perm x l : insertBy cmp x l ≡ₚ x :: l.
Proof.
  induction l as [|y l IH]; simpl; [done|].
  destruct (cmp x y <=? 0); [done|].
  rewrite IH. apply Permutation_swap.
Qed.

Lemma sortBy_perm l : sortBy cmp l ≡ₚ l.
Proof.
  induction l as [|x l IH]; [done|].
  change (sortBy cmp (x :: l)) with (insertBy cmp x (sortBy cmp l)).
  by rewrite insertBy_perm, IH.
Qed.

Lemma StronglySorted_inOrder (R : A → A → Prop) l :
  StronglySorted R l → inOrder R l.
Proof.
  induction 1 as [|x l _ IH Hx]; intros i j a b Hlt Hi Hj.
  - by rewrite lookup_nil in Hi.
  - destruct j as [|j]; [lia|]. simpl in Hj. destruct i as [|i]; simpl in Hi.
    + injection Hi as <-. rewrite Forall_forall in Hx.
      apply Hx. by eapply list_elem_of_lookup_2.
    + apply (IH i j); [lia|done|done].
Qed.

(** When, on the elements of the array, the comparator says "not after"
    exactly for the pairs of a relation that is transitive and relates any
    two elements one way or the other, the sorted array is in the order of
    that relation. *)
Lemma sortBy_sorted (R : A → A → Prop) l :
  (∀ a b, a ∈ l → b ∈ l → cmp a b ≤ 0 ↔ R a b) →
  (∀ a b c, a ∈ l → b ∈ l → c ∈ l → R a b → R b c → R a c) →
  (∀ a b, a ∈ l → b ∈ l → ¬ R a b → R b a) →
  StronglySorted R (sortBy cmp l).
Proof.
  intros Hcmp Htrans Htotal.
  assert (Hins : ∀ x k, x ∈ l → (∀ y, y ∈ k → y ∈ l) →
            StronglySorted R k → StronglySorted R (insertBy cmp x k)).
  { intros x k Hx Hk Hsorted.
    induction Hsorted as [|y k Hsorted IH Hy]; simpl.
    - repeat constructor.
    - assert (y ∈ l) as Hyl by (apply Hk; by left).
      assert (∀ z, z ∈ k → z ∈ l) as Hkl by (intros z Hz; apply Hk; by right).
      destruct (cmp x y <=? 0) eqn:Hle.
      + apply Z.leb_le, Hcmp in Hle; [|done..].
        constructor; [by constructor|].
        constructor; [done|]. rewrite Forall_forall in Hy |- *.
        intros z Hz. apply (Htrans x y z); auto.
      + apply Z.leb_gt in Hle.
        assert (R y x) as Hyx.
        { apply Htotal; [done..|]. intros Hxy%Hcmp; [lia|done..]. }
        constructor; [by apply IH|].
        rewrite Forall_forall in Hy |- *.
        intros z [->|Hz]%elem_of_insertBy; auto. }
  assert (Hall : ∀ k, (∀ y, y ∈ k → y ∈ l) → StronglySorted R (sortBy cmp k)).
  { induction k as [|x k IH]; intros Hk; [constructor|].
    change (sortBy cmp (x :: k)) with (insertBy cmp x (sortBy cmp k)).
    apply Hins.
    - apply Hk. by left.
    - intros y Hy%elem_of_sortBy. apply Hk. by right.
    - apply IH. intros y Hy. apply Hk. by right. }
  by apply Hall.
Qed.
End SortExtras.

(** * The payment list *)

Section PaymentListExtras.
Context `{JsBuiltins Num} `{!JsExtras Num}.
Implicit Types s : Idb Num.

(** X13. The payment list has one row for every payment of the component,
    and, when the dates of the payments are valid, the rows come latest
    first. *)
Theorem paymentsWithDetails_rows (v : RentTracking.Refs Num) :
  RentTrackingList.paymentsWithDetails v
    ≡ₚ RentTrackingList.paymentDetails v <$> RentTracking.payments v
  ∧ ((∀ p, p ∈ RentTracking.payments v → is_Some (date_getTime (RentPayment.date p))) →
     inOrder (λ a b, timeOf (RentTrackingList.payment b)
                     ≤ timeOf (RentTrackingList.payment a))
             (RentTrackingList.paymentsWithDetails v)).
Proof.
  split; [apply sortBy_perm|].
  intros Hvalid. apply StronglySorted_inOrder, sortBy_sorted.
  - intros a b (p & -> & Hp)%list_elem_of_fmap (q & -> & Hq)%list_elem_of_fmap.
    unfold RentTrackingList.rowsByDateDesc, TenantList.byDateDesc, timeOf.
    replace (RentTrackingList.payment (RentTrackingList.paymentDetails v p))
      with p by (unfold RentTrackingList.paymentDetails; by destruct (find _ _)).
    replace (RentTrackingList.payment (RentTrackingList.paymentDetails v q))
      with q by (unfold RentTrackingList.paymentDetails; by destruct (find _ _)).
    destruct (Hvalid p Hp) as [tp ->], (Hvalid q Hq) as [tq ->]. simpl. lia.
  - intros a b c _ _ _. lia.
  - intros a b _ _. lia.
Qed.

Lemma paymentDetails_payment (v : RentTracking.Refs Num) (p : RentPayment.t Num) :
  RentTrackingList.payment (RentTrackingList.paymentDetails v p) = p
  ∧ RentTrackingList.isEffectivelyArchived (RentTrackingList.paymentDetails v p)
    = RentPayment.archive p
      || RentTracking.isTenantEffectivelyArchived v
           (find (λ t, Tenant.id t = RentPayment.tenantId p) (RentTracking.tenants v)).
Proof.
  unfold RentTrackingList.paymentDetails. by destruct (find _ _).
Qed.

Lemma elem_of_paymentsWithDetails (v : RentTracking.Refs Num)
    (row : RentTrackingList.PaymentDetails Num) :
  row ∈ RentTrackingList.paymentsWithDetails v ↔
  ∃ p, p ∈ RentTracking.payments v ∧ row = RentTrackingList.paymentDetails v p.
Proof.
  unfold RentTrackingList.paymentsWithDetails.
  rewrite elem_of_sortBy, list_elem_of_fmap. split.
  - intros (p & -> & Hp). eauto.
  - intros (p & Hp & ->). eauto.
Qed.

(** The form [editPayment] opens for a row of the list. *)
Lemma editPayment_form (v : RentTracking.Refs Num)
    (row : RentTrackingList.PaymentDetails Num) :
  row ∈ RentTrackingList.paymentsWithDetails v →
  (RentTrackingList.editPayment v row).1 = None →
  ∃ original,
    find (λ p, RentPayment.id p = RentPayment.id (RentTrackingList.payment row))
         (RentTracking.payments v) = Some original
    ∧ RentTracking.newPayment (RentTrackingList.editPayment v row).2
      = PaymentDraft.mk (Some (RentPayment.id original))
          (Some (RentPayment.tenantId original))
          (Some (RentPayment.amount original))
          (Some (RentPayment.date original))
          (Some (RentPayment.status original))
          (Some (RentPayment.month original))
          (Some (RentPayment.archive original))
    ∧ RentTracking.isEditingPayment (RentTrackingList.editPayment v row).2 = true
    ∧ RentTracking.editingPaymentId (RentTrackingList.editPayment v row).2
      = Some (RentPayment.id original).
Proof.
  intros (p & Hp & ->)%elem_of_paymentsWithDetails.
  destruct (paymentDetails_payment v p) as [Hpay Harch].
  rewrite Hpay. unfold RentTrackingList.editPayment. rewrite Harch, Hpay.
  destruct (find_is_Some (λ q, RentPayment.id q = RentPayment.id p) _ p Hp eq_refl)
    as [original Horiginal].
  rewrite Horiginal.
  destruct (RentPayment.archive p || _); simpl; [done|].
  intros _. exists original.
  apply find_Some_elem in Horiginal as [_ Hid]. simpl. by rewrite Hid.
Qed.

(** X14. [editPayment] opens the modal for a row of the list exactly when the
    payment is not archived itself and its tenant is found and is not
    effectively archived; a payment whose tenant is gone cannot be edited.
    When it opens, the form holds the fields of the first payment of the
    component with the id of the row. *)
Theorem editPayment_opens_only_active_rows (v : RentTracking.Refs Num)
    (row : RentTrackingList.PaymentDetails Num) :
  row ∈ RentTrackingList.paymentsWithDetails v →
  let tenant :=
    find (λ t, Tenant.id t = RentPayment.tenantId (RentTrackingList.payment row))
         (RentTracking.tenants v) in
  ((RentTrackingList.editPayment v row).1 = None ↔
   RentPayment.archive (RentTrackingList.payment row) = false
   ∧ is_Some tenant
   ∧ RentTracking.isTenantEffectivelyArchived v tenant = false)
  ∧ ((RentTrackingList.editPayment v row).1 ≠ None →
     (RentTrackingList.editPayment v row).2 = v)
  ∧ ((RentTrackingList.editPayment v row).1 = None →
     ∃ original,
       find (λ p, RentPayment.id p = RentPayment.id (RentTrackingList.payment row))
            (RentTracking.payments v) = Some original
       ∧ RentTracking.newPayment (RentTrackingList.editPayment v row).2
         = PaymentDraft.mk (Some (RentPayment.id original))
             (Some (RentPayment.tenantId original))
             (Some (RentPayment.amount original))
             (Some (RentPayment.date original))
             (Some (RentPayment.status original))
             (Some (RentPayment.month original))
             (Some (RentPayment.archive original))
       ∧ RentTracking.isEditingPayment (RentTrackingList.editPayment v row).2 = true
       ∧ RentTracking.editingPaymentId (RentTrackingList.editPayment v row).2
         = Some (RentPayment.id original)).
Proof.
  intros (p & Hp & ->)%elem_of_paymentsWithDetails tenant. subst tenant.
  destruct (paymentDetails_payment v p) as [Hpay Harch].
  rewrite Hpay. unfold RentTrackingList.editPayment. rewrite Harch, Hpay.
  destruct (find_is_Some (λ q, RentPayment.id q = RentPayment.id p) _ p Hp eq_refl)
    as [original Horiginal].
  rewrite Horiginal.
  destruct (RentPayment.archive p); simpl.
  { split_and!; [|done|done]. split; [done|]. by intros [? _]. }
  destruct (find (λ t, Tenant.id t = RentPayment.tenantId p) _) as [t|] eqn:Ht.
  - destruct (RentTracking.isTenantEffectivelyArchived v (Some t)) eqn:Ha; simpl.
    + split_and!; [|done|done]. split; [done|]. by intros (_ & _ & ?).
    + split_and!; [by eauto|done|]. intros _. exists original.
      apply find_Some_elem in Horiginal as [_ Hid]. simpl.
      by rewrite Hid.
  - simpl. split_and!; [|done|done]. split; [done|]. by intros (_ & [? ?] & _).
Qed.

Lemma addOrUpdatePayment_not_archived (v : RentTracking.Refs Num) env s
    (t : Tenant.t Num) :
  RentTracking.missingDetails (RentTracking.newPayment v) = false →
  RentTracking.selectedTenant v = Some t →
  RentTracking.isTenantEffectivelyArchived v (Some t) = false →
  (RentTracking.addOrUpdatePayment v env s).1.1
  ≠ RentTracking.Rejected RentTracking.AlertTenantArchived.
Proof.
  intros Hm Hsel Harch. unfold RentTracking.addOrUpdatePayment.
  rewrite Hm, Hsel, Harch.
  destruct (missingDetails_amount _ Hm) as [amount ->].
  destruct (bool_decide (_ = Some "partial") && _); [done|].
  destruct (bool_decide (_ = Some "paid") && _ && _); [done|].
  by rewrite !bind_eq.
Qed.

(** X15. The dropdown and the guard agree: a complete payment form is turned
    down for an archived tenant exactly when the tenant it selects is not
    one of the active tenants the dropdown offers. *)
Theorem dropdown_agrees_with_guard (v : RentTracking.Refs Num) env s :
  RentTracking.missingDetails (RentTracking.newPayment v) = false →
  (RentTracking.addOrUpdatePayment v env s).1.1
  = RentTracking.Rejected RentTracking.AlertTenantArchived
  ↔ ¬ ∃ t, RentTracking.selectedTenant v = Some t
           ∧ t ∈ RentTrackingList.activeTenantsForSelect v.
Proof.
  intros Hm. split.
  - intros Hrejected (t & Hsel & [Hactive _]%list_elem_of_filter).
    by apply (addOrUpdatePayment_not_archived v env s t Hm Hsel Hactive).
  - intros Hnone.
    rewrite addOrUpdatePayment_archived; [done|done|].
    destruct (RentTracking.selectedTenant v) as [t|] eqn:Hsel; [|done].
    destruct (RentTracking.isTenantEffectivelyArchived v (Some t)) eqn:Harch; [done|].
    destruct Hnone. exists t. split; [done|].
    apply list_elem_of_filter. split; [done|].
    by apply find_Some_elem in Hsel as [? _].
Qed.

Lemma editPayment_refs (v : RentTracking.Refs Num)
    (row : RentTrackingList.PaymentDetails Num) :
  RentTracking.tenants (RentTrackingList.editPayment v row).2 = RentTracking.tenants v
  ∧ RentTracking.properties (RentTrackingList.editPayment v row).2
    = RentTracking.properties v
  ∧ RentTracking.payments (RentTrackingList.editPayment v row).2
    = RentTracking.payments v.
Proof.
  unfold RentTrackingList.editPayment.
  destruct (RentTrackingList.isEffectivelyArchived row); [done|].
  by destruct (find _ _).
Qed.

(** Writing a stored record back at its index leaves the store as it is. *)
Lemma same_payment_restores (original : RentPayment.t Num) (i : nat) s :
  Collections.payments (data s) !! i = Some original →
  coll_put paymentsColl (<[i := original]> (Collections.payments (data s))) (data s)
  = data s.
Proof. intros Hi. rewrite (list_insert_id _ _ _ Hi). by destruct (data s). Qed.

(** A submission of the edit form of the payment [pid]: either the store is
    left as it is, or the first record of that id is overwritten with the
    fields of the form. *)
Lemma resubmit_edit (v2 : RentTracking.Refs Num) env s (pid tid : string)
    (amount : Num) (date status month : string) (archive : bool) (i : nat) :
  RentTracking.isEditingPayment v2 = true →
  RentTracking.editingPaymentId v2 = Some pid →
  pid ≠ "" →
  RentTracking.newPayment v2
  = PaymentDraft.mk (Some pid) (Some tid) (Some amount) (Some date) (Some status)
                    (Some month) (Some archive) →
  findIndex (λ x, RentPayment.id x = pid) (Collections.payments (data s)) = Some i →
  data (RentTracking.addOrUpdatePayment v2 env s).2 = data s
  ∨ (RentTracking.addOrUpdatePayment v2 env s).1.1 = RentTracking.Saved
    ∧ data (RentTracking.addOrUpdatePayment v2 env s).2
      = coll_put paymentsColl
          (<[i := RentPayment.mk pid tid amount date status month archive]>
             (Collections.payments (data s)))
          (data s).
Proof.
  intros Hediting Heid Hpid Hdraft Hi. unfold RentTracking.addOrUpdatePayment.
  destruct (RentTracking.missingDetails _); [by left|].
  destruct (RentTracking.selectedTenant v2) as [t|]; [|by left].
  rewrite Hdraft. simpl.
  destruct (Tenant.archive t || _); [by left|].
  destruct (bool_decide (_ = Some "partial") && _); [by left|].
  destruct (bool_decide (_ = Some "paid") && _ && _); [by left|].
  rewrite Hediting, Heid. simpl.
  rewrite (bool_decide_false (pid = "")) by done. simpl.
  rewrite !bind_eq. simpl.
  unfold Db.updatePayment. rewrite updateIn_eq. simpl. rewrite Hi. simpl.
  by right.
Qed.

(** The same after the watcher on the tenant id of the draft has run, or has
    not: the only record a submission can then store differs from the stored
    one in its amount, which is the rent of the tenant. *)
Lemma resubmit_after_watcher (v1 : RentTracking.Refs Num) env s
    (original : RentPayment.t Num) (i : nat) (fired : bool) :
  RentTracking.isEditingPayment v1 = true →
  RentTracking.editingPaymentId v1 = Some (RentPayment.id original) →
  RentPayment.id original ≠ "" →
  RentTracking.newPayment v1
  = PaymentDraft.mk (Some (RentPayment.id original))
      (Some (RentPayment.tenantId original)) (Some (RentPayment.amount original))
      (Some (RentPayment.date original)) (Some (RentPayment.status original))
      (Some (RentPayment.month original)) (Some (RentPayment.archive original)) →
  findIndex (λ x, RentPayment.id x = RentPayment.id original)
            (Collections.payments (data s)) = Some i →
  Collections.payments (data s) !! i = Some original →
  let v' := if fired then RentTrackingList.onTenantIdChange v1 else v1 in
  data (RentTracking.addOrUpdatePayment v' env s).2 = data s
  ∨ fired = true
    ∧ ∃ tenant,
        find (λ t, Tenant.id t = RentPayment.tenantId original)
             (RentTracking.tenants v1) = Some tenant
        ∧ (RentTracking.addOrUpdatePayment v' env s).1.1 = RentTracking.Saved
        ∧ data (RentTracking.addOrUpdatePayment v' env s).2
          = coll_put paymentsColl
              (<[i := RentPayment.mk (RentPayment.id original)
                        (RentPayment.tenantId original) (Tenant.rent tenant)
                        (RentPayment.date original) (RentPayment.status original)
                        (RentPayment.month original) (RentPayment.archive original)]>
                 (Collections.payments (data s)))
              (data s).
Proof.
  intros Hediting Heid Hpid Hdraft Hi Hlook v'.
  assert (Hplain : data (RentTracking.addOrUpdatePayment v1 env s).2 = data s).
  { destruct (resubmit_edit v1 env s (RentPayment.id original)
                (RentPayment.tenantId original) (RentPayment.amount original)
                (RentPayment.date original) (RentPayment.status original)
                (RentPayment.month original) (RentPayment.archive original) i
                Hediting Heid Hpid Hdraft Hi)
      as [Hsame|[_ Hstored]]; [done|].
    rewrite Hstored.
    replace (RentPayment.mk (RentPayment.id original) (RentPayment.tenantId original)
               (RentPayment.amount original) (RentPayment.date original)
               (RentPayment.status original) (RentPayment.month original)
               (RentPayment.archive original))
      with original by (by destruct original).
    by apply same_payment_restores. }
  subst v'. destruct fired; [|by left].
  unfold RentTrackingList.onTenantIdChange. rewrite Hdraft. simpl.
  case_bool_decide as Hempty; simpl.
  { left. unfold RentTracking.addOrUpdatePayment, RentTracking.missingDetails.
    simpl. by rewrite bool_decide_true. }
  destruct (find (λ t, Some (Tenant.id t) = Some (RentPayment.tenantId original))
                 (RentTracking.tenants v1)) as [t|] eqn:Htenant.
  - destruct (RentTracking.isTenantEffectivelyArchived v1 (Some t)) eqn:Harchived;
      [by left|].
    set (v2 := RentTrackingList.withNewPayment v1 _).
    destruct (resubmit_edit v2 env s (RentPayment.id original)
                (RentPayment.tenantId original) (Tenant.rent t)
                (RentPayment.date original) (RentPayment.status original)
                (RentPayment.month original) (RentPayment.archive original) i
                Hediting Heid Hpid eq_refl Hi)
      as [Hsame|[Hsaved Hstored]]; [by left|].
    right. split; [done|]. exists t. split_and!; [|done|done].
    rewrite <- Htenant. apply find_ext. intros x.
    split; [by intros ->|by intros [= ->]].
  - left. unfold RentTracking.addOrUpdatePayment.
    destruct (RentTracking.missingDetails _); [done|].
    unfold RentTracking.selectedTenant. simpl. by rewrite Htenant.
Qed.

(** X16. Opening a stored payment for editing and submitting the form as it
    is leaves the stored collections as they are, or overwrites the amount
    of that payment with the rent of its tenant and nothing else: the
    watcher on the tenant of the form, which runs when the form did not
    name that tenant before, replaces the amount by the rent. Nothing is
    changed when the watcher does not run, or when the stored amount is the
    rent. The component shows the stored payments and the id of the payment
    is not empty. *)
Theorem edit_and_resubmit_resets_amount (v : RentTracking.Refs Num)
    (row : RentTrackingList.PaymentDetails Num) env s :
  row ∈ RentTrackingList.paymentsWithDetails v →
  RentTracking.payments v = Collections.payments (data s) →
  RentPayment.id (RentTrackingList.payment row) ≠ "" →
  (RentTrackingList.editPaymentClick v row).1 = None →
  let r := RentTracking.addOrUpdatePayment
             (RentTrackingList.editPaymentClick v row).2 env s in
  ∃ (original : RentPayment.t Num) (i : nat),
    findIndex (λ p, RentPayment.id p = RentPayment.id (RentTrackingList.payment row))
              (Collections.payments (data s)) = Some i
    ∧ Collections.payments (data s) !! i = Some original
    ∧ (data r.2 = data s
       ∨ ∃ tenant,
           find (λ t, Tenant.id t = RentPayment.tenantId original)
                (RentTracking.tenants v) = Some tenant
           ∧ r.1.1 = RentTracking.Saved
           ∧ data r.2
             = coll_put paymentsColl
                 (<[i := RentPayment.mk (RentPayment.id original)
                           (RentPayment.tenantId original) (Tenant.rent tenant)
                           (RentPayment.date original) (RentPayment.status original)
                           (RentPayment.month original)
                           (RentPayment.archive original)]>
                    (Collections.payments (data s)))
                 (data s))
    ∧ (PaymentDraft.tenantId (RentTracking.newPayment v)
       = Some (RentPayment.tenantId original) →
       data r.2 = data s)
    ∧ (∀ tenant,
         find (λ t, Tenant.id t = RentPayment.tenantId original)
              (RentTracking.tenants v) = Some tenant →
         RentPayment.amount original = Tenant.rent tenant →
         data r.2 = data s).
Proof.
  intros Hrow Hsync Hid Hopen r.
  assert (Hopen1 : (RentTrackingList.editPayment v row).1 = None).
  { revert Hopen. unfold RentTrackingList.editPaymentClick. simpl.
    by case_bool_decide. }
  destruct (editPayment_form v row Hrow Hopen1)
    as (original & Horiginal & Hdraft & Hediting & Heid).
  destruct (editPayment_refs v row) as (Htenants & _ & _).
  apply find_Some_elem in Horiginal as Helem. destruct Helem as [_ Hsame].
  rewrite Hsync in Horiginal.
  destruct (find_findIndex _ _ _ Horiginal) as (i & Hi & Hlook).
  exists original, i. split; [done|]. split; [done|].
  set (v1 := (RentTrackingList.editPayment v row).2) in *.
  set (fired := negb (bool_decide
                        (PaymentDraft.tenantId (RentTracking.newPayment v1)
                         = PaymentDraft.tenantId (RentTracking.newPayment v)))).
  assert (Hclick : (RentTrackingList.editPaymentClick v row).2
                   = if fired then RentTrackingList.onTenantIdChange v1 else v1).
  { unfold RentTrackingList.editPaymentClick, fired. simpl. fold v1.
    by case_bool_decide. }
  assert (Hi' : findIndex (λ x, RentPayment.id x = RentPayment.id original)
                          (Collections.payments (data s)) = Some i).
  { apply (findIndex_Some (λ x, RentPayment.id x = RentPayment.id original)).
    apply (findIndex_Some
             (λ x, RentPayment.id x = RentPayment.id (RentTrackingList.payment row)))
      in Hi as (x & Hx & Hpx & Hmin).
    exists x. rewrite Hsame. done. }
  assert (Hpid : RentPayment.id original ≠ "") by congruence.
  pose proof (resubmit_after_watcher v1 env s original i fired Hediting Heid Hpid
                Hdraft Hi' Hlook) as Hcases.
  cbv zeta in Hcases. rewrite <- Hclick in Hcases. fold r in Hcases.
  rewrite Htenants in Hcases.
  split_and!.
  - destruct Hcases as [Hsame'|[_ Hstored]]; [by left|by right].
  - intros Hnamed. destruct Hcases as [Hsame'|[Hfired _]]; [done|].
    unfold fired in Hfired. rewrite Hdraft in Hfired. simpl in Hfired.
    by rewrite Hnamed, bool_decide_true in Hfired.
  - intros tenant Htenant Hamount.
    destruct Hcases as [Hsame'|[_ (tenant' & Htenant' & _ & Hstored)]]; [done|].
    assert (tenant' = tenant) as -> by congruence.
    rewrite Hstored, <- Hamount.
    replace (RentPayment.mk (RentPayment.id original) (RentPayment.tenantId original)
               (RentPayment.amount original) (RentPayment.date original)
               (RentPayment.status original) (RentPayment.month original)
               (RentPayment.archive original))
      with original by (by destruct original).
    by apply same_payment_restores.
Qed.
End PaymentListExtras.

(** * Alerts and the to-do list *)

Section AlertsExtras.
Context `{JsBuiltins Num} `{!JsExtras Num}.
Implicit Types s : Idb Num.

Lemma byDateDesc_valid (a b : RentPayment.t Num) :
  is_Some (date_getTime (RentPayment.date a)) →
  is_Some (date_getTime (RentPayment.date b)) →
  TenantList.byDateDesc a b = timeOf b - timeOf a.
Proof.
  intros [ta Ha] [tb Hb]. unfold TenantList.byDateDesc, timeOf.
  by rewrite Ha, Hb.
Qed.

(** What a status returned by [getLatestPaymentStatus] is the status of. *)
Lemma getLatestPaymentStatus_Some (v : AlertsTodo.Refs Num) (tenantId st : string) :
  AlertsTodoLists.getLatestPaymentStatus v tenantId = Some st →
  ∃ latest,
    latest ∈ AlertsTodo.payments v
    ∧ RentPayment.tenantId latest = tenantId
    ∧ AlertsTodoLists.hasValidDate latest
    ∧ (∀ p, p ∈ AlertsTodo.payments v → RentPayment.tenantId p = tenantId →
            AlertsTodoLists.hasValidDate p → timeOf p ≤ timeOf latest)
    ∧ RentPayment.status latest ≠ ""
    ∧ st = toLowerCase (RentPayment.status latest).
Proof.
  unfold AlertsTodoLists.getLatestPaymentStatus.
  case_bool_decide; [done|].
  set (mine := filter AlertsTodoLists.hasValidDate
                 (filter (λ p, RentPayment.tenantId p = tenantId) (AlertsTodo.payments v))).
  destruct (sortBy TenantList.byDateDesc mine) as [|latest rest] eqn:Hsort; [done|].
  case_bool_decide as Hstatus; [done|]. intros [= <-].
  assert (Hmine : ∀ p, p ∈ mine ↔
            AlertsTodoLists.hasValidDate p ∧ RentPayment.tenantId p = tenantId
            ∧ p ∈ AlertsTodo.payments v).
  { intros p. subst mine. by rewrite !list_elem_of_filter. }
  destruct (sortBy_head_max TenantList.byDateDesc timeOf mine latest rest)
    as [Hlatest Hmax]; [|done|].
  { intros a b [[_ Ha] _]%Hmine [[_ Hb] _]%Hmine. by apply byDateDesc_valid. }
  apply Hmine in Hlatest as (Hvalid & Hid & Hin).
  exists latest. split_and!; try done.
  intros p Hp Hpid Hpvalid. apply Hmax, Hmine. done.
Qed.

(** X17. Every tenant listed as overdue is a tenant of the component that
    is not effectively archived, and among its payments with a valid date
    one of the latest has a status that reads 'overdue' in lower case. *)
Theorem overdueTenants_are_overdue (v : AlertsTodo.Refs Num) (tenant : Tenant.t Num) :
  tenant ∈ AlertsTodoLists.overdueTenants v →
  tenant ∈ AlertsTodo.tenants v
  ∧ AlertsTodo.isTenantEffectivelyArchived v (Some tenant) = false
  ∧ ∃ latest,
      latest ∈ AlertsTodo.payments v
      ∧ RentPayment.tenantId latest = Tenant.id tenant
      ∧ AlertsTodoLists.hasValidDate latest
      ∧ (∀ p, p ∈ AlertsTodo.payments v →
              RentPayment.tenantId p = Tenant.id tenant →
              AlertsTodoLists.hasValidDate p → timeOf p ≤ timeOf latest)
      ∧ toLowerCase (RentPayment.status latest) = "overdue".
Proof.
  unfold AlertsTodoLists.overdueTenants.
  destruct (_ || _ || _); [by intros ?%elem_of_nil|].
  intros [[Harch Hstatus] Hin]%list_elem_of_filter.
  split_and!; [done|done|].
  destruct (getLatestPaymentStatus_Some v _ _ Hstatus)
    as (latest & ? & ? & ? & ? & ? & ?).
  exists latest. by split_and!.
Qed.

(** X18. The tenant list and the action center agree on the latest payment:
    for a tenant of the list that is not effectively archived and whose
    payments all have a valid date, the action center returns the status
    the tenant list shows, in lower case, provided that status is not
    empty. *)
Theorem latest_status_views_agree (w : TenantList.Refs Num) (v : AlertsTodo.Refs Num)
    (tenantId : string) (tenant : Tenant.t Num) :
  AlertsTodo.payments v = TenantList.payments w →
  find (λ t, Tenant.id t = tenantId) (TenantList.tenants w) = Some tenant →
  TenantList.isEffectivelyArchived w tenant = false →
  (∃ p, p ∈ TenantList.payments w ∧ RentPayment.tenantId p = tenantId) →
  (∀ p, p ∈ TenantList.payments w → RentPayment.tenantId p = tenantId →
        AlertsTodoLists.hasValidDate p) →
  TenantList.getLatestRentStatus w tenantId ≠ "" →
  AlertsTodoLists.getLatestPaymentStatus v tenantId
  = Some (toLowerCase (TenantList.getLatestRentStatus w tenantId)).
Proof.
  intros Hsame Hfind Hactive (p0 & Hp0 & Hid0) Hvalid.
  unfold TenantList.getLatestRentStatus, AlertsTodoLists.getLatestPaymentStatus.
  rewrite Hfind, Hactive, Hsame.
  rewrite bool_decide_false by (intros Hlen; by destruct Hp0).
  rewrite (filter_all AlertsTodoLists.hasValidDate).
  - destruct (sortBy _ _) as [|latest rest] eqn:Hsort.
    + apply sortBy_nil_inv in Hsort.
      assert (p0 ∈ filter (λ p, RentPayment.tenantId p = tenantId)
                          (TenantList.payments w)) as Hmem
        by (by apply list_elem_of_filter).
      rewrite Hsort in Hmem. by apply elem_of_nil in Hmem.
    + intros Hstatus. by rewrite bool_decide_false.
  - apply Forall_forall. intros p [Hp Hin]%list_elem_of_filter. by apply Hvalid.
Qed.

End AlertsExtras.

Section TodoExtras.
Context `{JsBuiltins Num} `{!JsExtras Num}.
Implicit Types s : Idb Num.

(** X19. Once loaded, the to-do list shows every task of the component
    once; when the creation dates are valid, open tasks come before
    completed ones and, within each group, the newest first. *)
Theorem allTodosSorted_order (v : AlertsTodo.Refs Num) :
  AlertsTodo.isLoading v = false →
  falsyStr (AlertsTodo.errorLoading v) = true →
  AlertsTodoLists.allTodosSorted v ≡ₚ AlertsTodo.todos v
  ∧ ((∀ t, t ∈ AlertsTodo.todos v → is_Some (date_getTime (TodoItem.createdAt t))) →
     inOrder todoOrder (AlertsTodoLists.allTodosSorted v)).
Proof.
  intros Hloaded Hok. unfold AlertsTodoLists.allTodosSorted.
  rewrite Hloaded, Hok. simpl. split; [apply sortBy_perm|].
  intros Hvalid. apply StronglySorted_inOrder, sortBy_sorted.
  - intros a b Ha Hb. unfold AlertsTodoLists.byCompletedThenNewest, todoOrder.
    destruct (Hvalid a Ha) as [ta ->], (Hvalid b Hb) as [tb ->]. simpl.
    destruct (TodoItem.completed a), (TodoItem.completed b); simpl; split.
    + intros Hle. right. split; [done|lia].
    + intros [[? _]|[_ Hle]]; [done|lia].
    + lia.
    + by intros [[? _]|[? _]].
    + intros _. by left.
    + lia.
    + intros Hle. right. split; [done|lia].
    + intros [[_ ?]|[_ Hle]]; [done|lia].
  - intros a b c _ _ _. unfold todoOrder.
    intros [[Ha Hb]|[Hab Hle1]] [[Hb' Hc]|[Hbc Hle2]].
    + congruence.
    + left. split; congruence.
    + left. split; congruence.
    + right. split; [congruence|lia].
  - intros a b _ _. unfold todoOrder.
    destruct (TodoItem.completed a), (TodoItem.completed b); intros Hn.
    + right. split; [done|].
      destruct (decide (default 0 (date_getTime (TodoItem.createdAt a))
                        ≤ default 0 (date_getTime (TodoItem.createdAt b)))); [done|].
      destruct Hn. right. split; [done|lia].
    + by left.
    + destruct Hn. by left.
    + right. split; [done|].
      destruct (decide (default 0 (date_getTime (TodoItem.createdAt a))
                        ≤ default 0 (date_getTime (TodoItem.createdAt b)))); [done|].
      destruct Hn. right. split; [done|lia].
Qed.

(** X20. Every lease listed as expiring belongs to a tenant of the component
    that is not effectively archived and ends, on a valid date, between
    today and three months from now; the list is in the order of the lease
    ends, the soonest first. *)
Theorem expiringLeases_sound_and_sorted (v : AlertsTodo.Refs Num)
    (today threeMonthsFromNow : Z) :
  (∀ t, t ∈ AlertsTodoLists.expiringLeases v today threeMonthsFromNow →
        t ∈ AlertsTodo.tenants v
        ∧ AlertsTodo.isTenantEffectivelyArchived v (Some t) = false
        ∧ ∃ leaseEnd, date_getTime (Tenant.leaseEnd t) = Some leaseEnd
                      ∧ today ≤ leaseEnd ≤ threeMonthsFromNow)
  ∧ inOrder (λ a b, leaseEndOf a ≤ leaseEndOf b)
            (AlertsTodoLists.expiringLeases v today threeMonthsFromNow).
Proof.
  unfold AlertsTodoLists.expiringLeases.
  destruct (_ || _ || _).
  { split; [by intros t ?%elem_of_nil|]. intros i j a b _ Hi.
    by rewrite lookup_nil in Hi. }
  assert (Hsound : ∀ t,
    t ∈ filter (λ tenant, AlertsTodoLists.leaseExpiring v today threeMonthsFromNow
                            tenant = true) (AlertsTodo.tenants v) →
    t ∈ AlertsTodo.tenants v
    ∧ AlertsTodo.isTenantEffectivelyArchived v (Some t) = false
    ∧ ∃ leaseEnd, date_getTime (Tenant.leaseEnd t) = Some leaseEnd
                  ∧ today ≤ leaseEnd ≤ threeMonthsFromNow).
  { intros t [Hexp Hin]%list_elem_of_filter.
    unfold AlertsTodoLists.leaseExpiring in Hexp.
    destruct (AlertsTodo.isTenantEffectivelyArchived v (Some t)); [done|].
    simpl in Hexp. case_bool_decide; [done|].
    destruct (date_getTime _) as [leaseEnd|]; [|done].
    apply andb_true_iff in Hexp as [?%Z.leb_le ?%Z.leb_le].
    split_and!; [done|done|]. exists leaseEnd. split; [done|lia]. }
  split.
  - intros t Ht%elem_of_sortBy. by apply Hsound.
  - apply StronglySorted_inOrder, sortBy_sorted.
    + intros a b (_ & _ & ta & Ha & _)%Hsound (_ & _ & tb & Hb & _)%Hsound.
      unfold AlertsTodoLists.byLeaseEndAsc, leaseEndOf. rewrite Ha, Hb. simpl. lia.
    + intros a b c _ _ _. lia.
    + intros a b _ _. lia.
Qed.

Lemma toggleComplete_data (v : AlertsTodo.Refs Num) (todo : TodoItem.t) s :
  let r := AlertsTodoLists.toggleComplete v todo s in
  data r.2 = data (Db.updateTodo (AlertsTodoLists.withCompletedToggled todo) s).2
  ∧ AlertsTodo.todos r.1 = Collections.todos (data r.2).
Proof.
  unfold AlertsTodoLists.toggleComplete. rewrite bind_eq. done.
Qed.

(** X21. Ticking a stored task and ticking it again, the second time on the
    record the first tick stored, gives back the contents as they were, and
    the list shows them. *)
Theorem toggleComplete_twice (v : AlertsTodo.Refs Num) (todo : TodoItem.t) s :
  find (λ x, TodoItem.id x = TodoItem.id todo) (Collections.todos (data s)) = Some todo →
  let r1 := AlertsTodoLists.toggleComplete v todo s in
  let r2 := AlertsTodoLists.toggleComplete r1.1
              (AlertsTodoLists.withCompletedToggled todo) r1.2 in
  find (λ x, TodoItem.id x = TodoItem.id todo) (AlertsTodo.todos r1.1)
  = Some (AlertsTodoLists.withCompletedToggled todo)
  ∧ data r2.2 = data s
  ∧ AlertsTodo.todos r2.1 = Collections.todos (data s).
Proof.
  intros Hfind r1 r2.
  assert (Hback : AlertsTodoLists.withCompletedToggled
                    (AlertsTodoLists.withCompletedToggled todo) = todo).
  { destruct todo. unfold AlertsTodoLists.withCompletedToggled. simpl.
    by rewrite negb_involutive. }
  destruct (toggleComplete_data v todo s) as [Hd1 Ht1]. fold r1 in Hd1, Ht1.
  destruct (toggleComplete_data r1.1 (AlertsTodoLists.withCompletedToggled todo) r1.2)
    as [Hd2 Ht2].
  fold r2 in Hd2, Ht2. rewrite Hback in Hd2.
  assert (Hdata2 : data r2.2 = data s).
  { rewrite Hd2. unfold Db.updateTodo.
    rewrite (updateIn_data_congr todosColl todo r1.2
               (Db.updateIn todosColl (AlertsTodoLists.withCompletedToggled todo) s).2)
      by exact Hd1.
    by apply (updateIn_back todosColl todo (AlertsTodoLists.withCompletedToggled todo)). }
  split_and!; [|done|by rewrite Ht2, Hdata2].
  rewrite Ht1, Hd1.
  destruct (find_findIndex _ _ _ Hfind) as (i & Hi & _).
  unfold Db.updateTodo. rewrite updateIn_eq. simpl. rewrite Hi. simpl.
  by apply (find_insert (λ x, TodoItem.id x = TodoItem.id todo)).
Qed.

(** X22. A task whose text is blank once trimmed is not added: no storage
    call is made and the input is left as it is. Any other text is stored,
    trimmed, as the last task, open, under the fresh id, and the input is
    cleared; deleting that id afterwards gives back the contents as they
    were, when no task had the id before. *)
Theorem addTodo_trims_and_appends (v : AlertsTodo.Refs Num) (newTodoText : string)
    (randomUUID : string) (now : Z) s :
  (trim newTodoText = "" →
   AlertsTodoLists.addTodo v newTodoText randomUUID now s = ((v, newTodoText), s))
  ∧ (trim newTodoText ≠ "" →
     let r := AlertsTodoLists.addTodo v newTodoText randomUUID now s in
     let todo := TodoItem.mk randomUUID (trim newTodoText) false (date_toISOString now) in
     Collections.todos (data r.2) = Collections.todos (data s) ++ [todo]
     ∧ AlertsTodo.todos r.1.1 = Collections.todos (data s) ++ [todo]
     ∧ r.1.2 = ""
     ∧ (Forall (λ x, TodoItem.id x ≠ randomUUID) (Collections.todos (data s)) →
        data (AlertsTodoLists.deleteTodo r.1.1 randomUUID r.2).2 = data s)).
Proof.
  split.
  - intros Htext. unfold AlertsTodoLists.addTodo. by rewrite Htext.
  - intros Htext r todo.
    assert (Hrun : r = bind (Db.addTodo todo)
                     (λ _, bind Db.getTodos
                             (λ todos', ret (AlertsTodoLists.setTodos v todos', "")))
                     s)
      by (subst r; unfold AlertsTodoLists.addTodo; by rewrite bool_decide_false).
    assert (Hdata : data r.2 = data (Db.addTodo todo s).2)
      by (rewrite Hrun; by rewrite !bind_eq).
    assert (Hrefs : AlertsTodo.todos r.1.1 = Collections.todos (data s) ++ [todo]
                    ∧ r.1.2 = "")
      by (rewrite Hrun; by rewrite !bind_eq).
    destruct Hrefs as [Hshown Hinput].
    split_and!; [by rewrite Hdata|done|done|].
    intros Hfresh.
    transitivity (data (Db.deleteTodo randomUUID r.2).2).
    { unfold AlertsTodoLists.deleteTodo. by rewrite !bind_eq. }
    unfold Db.deleteTodo. rewrite (deleteFrom_data todosColl) by auto.
    rewrite Hdata. simpl. unfold push.
    rewrite filter_app, (filter_all _ _ Hfresh).
    rewrite filter_cons_False, filter_nil by (simpl; intros Hne; by apply Hne).
    rewrite app_nil_r. by destruct (data s).
Qed.
End TodoExtras.

(** * Accounts and sessions *)

Section AuthExtras.
Context `{JsBuiltins Num} `{!JsExtras Num}.
Implicit Types s : Idb Num.
Implicit Types a : UseAuth.State.

Lemma find_push {A} (P : A → Prop) `{!∀ x, Decision (P x)} (l : list A) (x : A) :
  find P l = None → P x → find P (push l x) = Some x.
Proof.
  intros Hnone HP. apply find_None in Hnone. apply (find_Some P).
  exists (length l). unfold push. split_and!.
  - by rewrite lookup_app_r, Nat.sub_diag.
  - done.
  - intros j y Hj Hlt. rewrite lookup_app_l in Hj by done.
    rewrite Forall_forall in Hnone. apply Hnone. by eapply list_elem_of_lookup_2.
Qed.

(** Two searches that stop at the same record stop at the same index. *)
Lemma find_same_index {A} (P Q : A → Prop) `{!∀ x, Decision (P x)}
    `{!∀ x, Decision (Q x)} (l : list A) (x : A) (i : nat) :
  find P l = Some x → find Q l = Some x →
  findIndex P l = Some i → findIndex Q l = Some i.
Proof.
  intros (i1 & Hi1 & HP1 & Hmin1)%(find_Some P) (i2 & Hi2 & HQ2 & Hmin2)%(find_Some Q)
         (y & Hi & HPy & Hmin)%(findIndex_Some P).
  assert (i = i1) as ->.
  { destruct (Nat.lt_trichotomy i i1) as [Hlt|[->|Hlt]]; [|done|].
    - by destruct (Hmin1 i y Hi Hlt).
    - by destruct (Hmin i1 x Hi1 Hlt). }
  assert (i1 = i2) as ->.
  { destruct (Nat.lt_trichotomy i1 i2) as [Hlt|[->|Hlt]]; [|done|].
    - by destruct (Hmin2 i1 x Hi1 Hlt).
    - by destruct (Hmin1 i2 x Hi2 Hlt). }
  apply (findIndex_Some Q). by exists x.
Qed.

Lemma getUserByUsername_eq (username : string) s :
  Db.getUserByUsername username s
  = (find (λ u, toLowerCase (User.username u) = toLowerCase username)
          (Collections.users (data s)),
     logCall (IdbGet "users") s).
Proof. done. Qed.

(** X23. Whatever the outcome, [login] reads the users once and writes
    nothing. It returns [true] only for a stored user whose username is the
    one typed, letter case aside, and whose password is exactly the one
    typed; that user becomes the current user and its stored username the
    session item. When it returns [false], the session, the current user
    and [isAuthenticated] are as before. *)
Theorem login_sound a (username password : string) s :
  let r := UseAuth.login a username password s in
  r.2 = logCall (IdbGet "users") s
  ∧ (r.1.1 = true →
     ∃ user, user ∈ Collections.users (data s)
             ∧ toLowerCase (User.username user) = toLowerCase username
             ∧ User.password user = password
             ∧ UseAuth.currentUser r.1.2 = Some user
             ∧ UseAuth.sessionItem r.1.2 = Some (User.username user)
             ∧ UseAuth.isAuthenticated r.1.2 = true)
  ∧ (r.1.1 = false →
     UseAuth.currentUser r.1.2 = UseAuth.currentUser a
     ∧ UseAuth.sessionItem r.1.2 = UseAuth.sessionItem a
     ∧ UseAuth.isAuthenticated r.1.2 = UseAuth.isAuthenticated a
     ∧ UseAuth.authError r.1.2 = Some "Invalid username or password.").
Proof.
  intros r. subst r. unfold UseAuth.login.
  rewrite bind_eq, getUserByUsername_eq. simpl.
  destruct (find _ _) as [user|] eqn:Hfind; [|done].
  case_bool_decide as Hpw; simpl; [|done].
  split_and!; [done| |done]. intros _. exists user.
  apply find_Some_elem in Hfind as [Hin Hname]. done.
Qed.

Lemma login_found a (username password : string) (user : User.t) s :
  find (λ u, toLowerCase (User.username u) = toLowerCase username)
       (Collections.users (data s)) = Some user →
  (UseAuth.login a username password s).1.1 = bool_decide (User.password user = password)
  ∧ (User.password user = password →
     UseAuth.currentUser (UseAuth.login a username password s).1.2 = Some user
     ∧ UseAuth.sessionItem (UseAuth.login a username password s).1.2
       = Some (User.username user)
     ∧ UseAuth.isAuthenticated (UseAuth.login a username password s).1.2 = true).
Proof.
  intros Hfind. unfold UseAuth.login.
  rewrite bind_eq, getUserByUsername_eq. simpl. rewrite Hfind.
  case_bool_decide; done.
Qed.

(** X24. Registering a username that no stored user has, letter case aside,
    succeeds, and the user can then sign in with the same password, typing
    the username in any letter case: the session item is the username as
    registered. Another password is turned down. *)
Theorem register_then_login a (username name password randomUUID : string) s :
  Forall (λ u, toLowerCase (User.username u) ≠ toLowerCase username)
         (Collections.users (data s)) →
  let r1 := UseAuth.register a username name password randomUUID s in
  r1.1.1 = true
  ∧ ∀ typed : string,
      toLowerCase typed = toLowerCase username →
      (let r2 := UseAuth.login r1.1.2 typed password r1.2 in
       r2.1.1 = true
       ∧ UseAuth.currentUser r2.1.2
         = Some (User.mk randomUUID username password (Some name))
       ∧ UseAuth.sessionItem r2.1.2 = Some username
       ∧ UseAuth.isAuthenticated r2.1.2 = true)
      ∧ ∀ other : string,
          other ≠ password →
          (UseAuth.login r1.1.2 typed other r1.2).1.1 = false.
Proof.
  intros Hfresh r1.
  set (newUser := User.mk randomUUID username password (Some name)).
  assert (Hnone : find (λ x, toLowerCase (User.username x)
                             = toLowerCase (User.username newUser))
                       (Collections.users (data s)) = None)
    by (by apply find_None).
  assert (Hr1 : r1.1.1 = true
                ∧ Collections.users (data r1.2)
                  = push (Collections.users (data s)) newUser).
  { subst r1. unfold UseAuth.register. rewrite bind_eq. fold newUser.
    rewrite addUser_eq, Hnone. simpl. by destruct (data s). }
  destruct Hr1 as [Hok Hdata]. split; [done|]. intros typed Htyped.
  assert (Hfound : find (λ u, toLowerCase (User.username u) = toLowerCase typed)
                        (Collections.users (data r1.2)) = Some newUser).
  { rewrite Hdata. apply find_push; [|done].
    rewrite <- Hnone. apply find_ext. intros x. simpl. by rewrite Htyped. }
  destruct (login_found r1.1.2 typed password newUser r1.2 Hfound) as [Hres Hstate].
  split.
  - intros r2. subst r2. rewrite Hres, bool_decide_true by done.
    split; [done|]. by apply Hstate.
  - intros other Hother.
    destruct (login_found r1.1.2 typed other newUser r1.2 Hfound) as [Hres' _].
    rewrite Hres'. by apply bool_decide_false.
Qed.

(** X25. When the current user is the stored record, found by its id and by
    its username, has a password that is not empty, and gives it together
    with a new password of six characters or more, [updateProfile] succeeds:
    the ids and the usernames of the collection are as before, and the user
    then signs in with the new password and with no other. *)
Theorem password_change_then_login a (user : User.t) (newPassword : string) s :
  UseAuth.currentUser a = Some user →
  UseAuth.isAuthenticated a = true →
  find (λ u, User.id u = User.id user) (Collections.users (data s)) = Some user →
  find (λ u, toLowerCase (User.username u) = toLowerCase (User.username user))
       (Collections.users (data s)) = Some user →
  User.password user ≠ "" →
  (6 ≤ String.length newPassword)%nat →
  let updates := {| UseAuth.name := None;
                    UseAuth.currentPassword := Some (User.password user);
                    UseAuth.newPassword := Some newPassword |} in
  let r1 := UseAuth.updateProfile a updates s in
  let stored := User.mk (User.id user) (User.username user) newPassword (User.name user) in
  r1.1.1 = {| Db.success := true; Db.message := Some "Profile and password updated." |}
  ∧ UseAuth.currentUser r1.1.2 = Some stored
  ∧ User.id <$> Collections.users (data r1.2) = User.id <$> Collections.users (data s)
  ∧ User.username <$> Collections.users (data r1.2)
    = User.username <$> Collections.users (data s)
  ∧ (UseAuth.login r1.1.2 (User.username user) newPassword r1.2).1.1 = true
  ∧ ∀ other, other ≠ newPassword →
      (UseAuth.login r1.1.2 (User.username user) other r1.2).1.1 = false.
Proof.
  intros Hcurrent Hauth Hbyid Hbyname Hpw Hlen updates r1 stored.
  assert (Hprep : UseAuth.prepareUpdate user updates = inr (stored, true)).
  { unfold UseAuth.prepareUpdate. simpl.
    rewrite (bool_decide_false (newPassword = "")) by (intros ->; simpl in Hlen; lia).
    rewrite (bool_decide_false (User.password user = "")) by done.
    rewrite bool_decide_true by done. simpl.
    by rewrite (proj2 (Nat.ltb_ge _ _) Hlen). }
  destruct (find_findIndex _ _ _ Hbyid) as (i & Hi & Hlook).
  assert (Hr1 : r1.1.1 = {| Db.success := true;
                            Db.message := Some "Profile and password updated." |}
                ∧ UseAuth.currentUser r1.1.2 = Some stored
                ∧ Collections.users (data r1.2)
                  = <[i := stored]> (Collections.users (data s))).
  { subst r1. unfold UseAuth.updateProfile. rewrite Hcurrent, Hauth. simpl.
    rewrite Hprep, bind_eq, updateUser_eq. simpl. rewrite Hi. simpl.
    by destruct (data s). }
  destruct Hr1 as (Hres & Huser & Hdata).
  assert (Hfound : find (λ u, toLowerCase (User.username u)
                              = toLowerCase (User.username user))
                        (Collections.users (data r1.2)) = Some stored).
  { rewrite Hdata. apply find_insert; [done|].
    by apply (find_same_index (λ u, User.id u = User.id user) _ _ user). }
  split_and!; [done|done| | | |].
  - rewrite Hdata. by apply (insert_at_match_ids User.id _ stored).
  - rewrite Hdata, list_fmap_insert. apply list_insert_id.
    by rewrite list_lookup_fmap, Hlook.
  - destruct (login_found r1.1.2 (User.username user) newPassword stored r1.2 Hfound)
      as [-> _]. by apply bool_decide_true.
  - intros other Hother.
    destruct (login_found r1.1.2 (User.username user) other stored r1.2 Hfound)
      as [-> _]. by apply bool_decide_false.
Qed.
Lemma prepareUpdate_password (user : User.t) (updates : UseAuth.Updates)
    (userToUpdate : User.t) (changed : bool) :
  UseAuth.prepareUpdate user updates = inr (userToUpdate, changed) →
  User.id userToUpdate = User.id user
  ∧ User.username userToUpdate = User.username user
  ∧ (User.password userToUpdate ≠ User.password user →
     UseAuth.newPassword updates = Some (User.password userToUpdate)
     ∧ UseAuth.currentPassword updates = Some (User.password user)
     ∧ (6 ≤ String.length (User.password userToUpdate))%nat).
Proof.
  unfold UseAuth.prepareUpdate.
  destruct (falsyStr (UseAuth.newPassword updates)) eqn:Hnew; simpl.
  - intros [= <- <-]. done.
  - destruct (falsyStr (UseAuth.currentPassword updates)); simpl; [done|].
    case_bool_decide as Hcurrent; simpl; [|done].
    destruct (_ <? 6)%nat eqn:Hlen; simpl; [done|].
    intros [= <- <-]. apply Nat.ltb_ge in Hlen. simpl.
    destruct (UseAuth.newPassword updates); done.
Qed.

(** What [updateProfile] does to a current user that is the stored record of
    its id. *)
Lemma updateProfile_cases a (updates : UseAuth.Updates) (user : User.t) s :
  UseAuth.currentUser a = Some user →
  find (λ u, User.id u = User.id user) (Collections.users (data s)) = Some user →
  ∃ user',
    UseAuth.currentUser (UseAuth.updateProfile a updates s).1.2 = Some user'
    ∧ find (λ u, User.id u = User.id user)
           (Collections.users (data (UseAuth.updateProfile a updates s).2)) = Some user'
    ∧ User.id user' = User.id user
    ∧ User.username user' = User.username user
    ∧ (User.password user' ≠ User.password user →
       Db.success (UseAuth.updateProfile a updates s).1.1 = true
       ∧ UseAuth.isAuthenticated a = true
       ∧ UseAuth.newPassword updates = Some (User.password user')
       ∧ UseAuth.currentPassword updates = Some (User.password user)
       ∧ (6 ≤ String.length (User.password user'))%nat)
    ∧ (Db.success (UseAuth.updateProfile a updates s).1.1 = false →
       user' = user ∧ data (UseAuth.updateProfile a updates s).2 = data s).
Proof.
  intros Hcurrent Hbyid. unfold UseAuth.updateProfile. rewrite Hcurrent.
  destruct (UseAuth.isAuthenticated a) eqn:Hauth; simpl;
    [|exists user; split_and!; done].
  destruct (UseAuth.prepareUpdate user updates) as [result|[userToUpdate changed]]
    eqn:Hprep.
  { exists user. simpl. split_and!; done. }
  destruct (prepareUpdate_password _ _ _ _ Hprep) as (Hid & Hname & Hpw).
  destruct (find_findIndex _ _ _ Hbyid) as (i & Hi & Hlook).
  rewrite bind_eq, updateUser_eq, Hid, Hi. simpl.
  exists userToUpdate. split_and!; try done.
  - destruct (data s). simpl in *. apply find_insert; done.
  - intros Hne. destruct (Hpw Hne) as (? & ? & ?). done.
Qed.

(** X26. The profile form keeps the current user and the stored record of
    its id the same record, and never changes the id or the username. The
    password of that record changes only when the two entries of the new
    password agree, the current password typed is the stored one and the new
    one has six characters or more; the password fields are then cleared.
    A new password whose confirmation differs is turned down without any
    storage call. *)
Theorem profile_form_guards_password a (f : ProfileView.Form) (user : User.t) s :
  UseAuth.currentUser a = Some user →
  find (λ u, User.id u = User.id user) (Collections.users (data s)) = Some user →
  let r := ProfileView.handleProfileUpdate a f s in
  (∃ user',
     UseAuth.currentUser r.1.1 = Some user'
     ∧ find (λ u, User.id u = User.id user) (Collections.users (data r.2)) = Some user'
     ∧ User.id user' = User.id user
     ∧ User.username user' = User.username user
     ∧ (User.password user' ≠ User.password user →
        ProfileView.newPassword f = ProfileView.confirmPassword f
        ∧ ProfileView.currentPassword f = User.password user
        ∧ User.password user' = ProfileView.newPassword f
        ∧ (6 ≤ String.length (ProfileView.newPassword f))%nat
        ∧ ProfileView.currentPassword r.1.2 = ""
        ∧ ProfileView.newPassword r.1.2 = ""
        ∧ ProfileView.confirmPassword r.1.2 = ""))
  ∧ (ProfileView.newPassword f ≠ "" →
     ProfileView.newPassword f ≠ ProfileView.confirmPassword f →
     r.2 = s ∧ r.1.1 = a).
Proof.
  intros Hcurrent Hbyid r. subst r. unfold ProfileView.handleProfileUpdate.
  rewrite Hcurrent.
  destruct (bool_decide (ProfileView.newPassword f = "")) eqn:Hnew; simpl.
  - apply bool_decide_eq_true in Hnew.
    destruct (bool_decide (ProfileView.displayName f = _)) eqn:Hname; simpl.
    { split; [|done]. exists user. split_and!; done. }
    split; [|done]. rewrite bind_eq.
    destruct (updateProfile_cases a (ProfileView.updatesOf user f) user s Hcurrent Hbyid)
      as (user' & Huser & Hfind & Hid & Husername & Hpw & Hfail).
    destruct (UseAuth.updateProfile a (ProfileView.updatesOf user f) s)
      as [[result a'] s'] eqn:Hrun. simpl in *.
    exists user'.
    assert (Hsame : User.password user' = User.password user).
    { destruct (decide (User.password user' = User.password user)) as [|Hne]; [done|].
      destruct (Hpw Hne) as (_ & _ & Hnone & _).
      unfold ProfileView.updatesOf in Hnone. simpl in Hnone.
      by rewrite bool_decide_true in Hnone by done. }
    destruct (Db.success result); simpl; split_and!; done.
  - apply bool_decide_eq_false in Hnew.
    destruct (bool_decide (ProfileView.newPassword f = ProfileView.confirmPassword f))
      eqn:Hconfirm; simpl.
    2:{ split; [|done]. exists user. split_and!; done. }
    apply bool_decide_eq_true in Hconfirm.
    destruct (bool_decide (ProfileView.currentPassword f = "")) eqn:Hcur; simpl.
    { split; [|done]. exists user. split_and!; done. }
    rewrite andb_false_r. split; [|done]. rewrite bind_eq.
    destruct (updateProfile_cases a (ProfileView.updatesOf user f) user s Hcurrent Hbyid)
      as (user' & Huser & Hfind & Hid & Husername & Hpw & Hfail).
    destruct (UseAuth.updateProfile a (ProfileView.updatesOf user f) s)
      as [[result a'] s'] eqn:Hrun. simpl in *.
    exists user'.
    assert (Hchanged : User.password user' ≠ User.password user →
                       Db.success result = true
                       ∧ ProfileView.currentPassword f = User.password user
                       ∧ User.password user' = ProfileView.newPassword f
                       ∧ (6 ≤ String.length (ProfileView.newPassword f))%nat).
    { intros Hne. destruct (Hpw Hne) as (Hok & _ & Hnp & Hcp & Hlen).
      unfold ProfileView.updatesOf in Hnp, Hcp. simpl in Hnp, Hcp.
      rewrite bool_decide_false in Hnp, Hcp by done.
      injection Hnp as Hnp. injection Hcp as Hcp. rewrite Hnp. done. }
    destruct (Db.success result) eqn:Hok; simpl; split_and!; try done.
    + intros Hne. destruct (Hchanged Hne) as (_ & ? & ? & ?). done.
    + intros Hne. by destruct (Hchanged Hne) as (? & _).
Qed.

(** X27. A redirect of the navigation guard lands: the route it names is in
    the route table, and the guard lets that route through for the same
    session, so no navigation is redirected twice. *)
Theorem redirects_land (to : Router.Route) (sessionItem : option string) (name : string) :
  Router.beforeEach to sessionItem = Router.RedirectTo name →
  ∃ target, target ∈ Router.routes
            ∧ Router.name target = name
            ∧ Router.beforeEach target sessionItem = Router.Proceed.
Proof.
  unfold Router.beforeEach.
  destruct (Router.checkAuth sessionItem) eqn:Hauth; simpl.
  - rewrite andb_false_r, andb_true_r.
    destruct (_ || _); [|done]. intros [= <-].
    exists {| Router.path := "/"; Router.name := "home"; Router.requiresAuth := true |}.
    split_and!; [|reflexivity|reflexivity].
    unfold Router.routes. rewrite !elem_of_cons. tauto.
  - rewrite andb_true_r, andb_false_r.
    destruct (Router.requiresAuth to); [|done]. intros [= <-].
    exists {| Router.path := "/login"; Router.name := "login";
              Router.requiresAuth := false |}.
    split_and!; [|reflexivity|reflexivity].
    unfold Router.routes. rewrite !elem_of_cons. tauto.
Qed.

(** X28. After [logout] the guard lets a route through exactly when it does
    not require a session, and sends the others to the login page, which is
    the route [logout] pushes and which the guard lets through. After a
    login that succeeded, the guard sends the login and register pages to
    the home page and lets every other route through, provided the stored
    username is not empty; for a user stored with the empty username the
    login succeeds and the guard still treats the session as signed out. *)
Theorem guard_follows_session a (username password : string) s (to : Router.Route) :
  Router.beforeEach to (UseAuth.sessionItem (UseAuth.logout a))
  = (if Router.requiresAuth to then Router.RedirectTo "login" else Router.Proceed)
  ∧ (∃ target, target ∈ Router.routes
               ∧ UseAuth.pushed (UseAuth.logout a) = Some (Router.name target)
               ∧ Router.beforeEach target (UseAuth.sessionItem (UseAuth.logout a))
                 = Router.Proceed)
  ∧ (let r := UseAuth.login a username password s in
     r.1.1 = true →
     (UseAuth.sessionItem r.1.2 ≠ Some "" →
      Router.beforeEach to (UseAuth.sessionItem r.1.2)
      = (if bool_decide (Router.name to = "login")
            || bool_decide (Router.name to = "register")
         then Router.RedirectTo "home" else Router.Proceed))
     ∧ (UseAuth.sessionItem r.1.2 = Some "" →
        Router.beforeEach to (UseAuth.sessionItem r.1.2)
        = (if Router.requiresAuth to then Router.RedirectTo "login"
           else Router.Proceed))).
Proof.
  split_and!.
  - unfold Router.beforeEach. simpl. rewrite andb_true_r, andb_false_r.
    by destruct (Router.requiresAuth to).
  - exists {| Router.path := "/login"; Router.name := "login";
              Router.requiresAuth := false |}.
    split_and!; [|done|done].
    unfold Router.routes. rewrite !elem_of_cons. tauto.
  - intros r. subst r. unfold UseAuth.login.
    rewrite bind_eq, getUserByUsername_eq. simpl.
    destruct (find _ _) as [user|]; [|done].
    case_bool_decide; simpl; [|done]. intros _.
    unfold Router.beforeEach, Router.checkAuth. simpl. split.
    + intros Hne. rewrite bool_decide_false by congruence. simpl.
      by rewrite andb_false_r, andb_true_r.
    + intros [= ->]. simpl. rewrite andb_true_r, andb_false_r.
      by destruct (Router.requiresAuth to).
Qed.

(** X29. Loading the module with a session item re-validates it against the
    store without writing: the state is signed in exactly when a stored user
    has the username of the item, letter case aside, and that user is then
    the current user; a non-empty item that names no stored user is removed,
    after which the guard treats the session as signed out. *)
Theorem init_revalidates_session (initialUsername : option string) s :
  let r := UseAuth.init initialUsername s in
  data r.2 = data s
  ∧ signedIn r.1
  ∧ (UseAuth.isAuthenticated r.1 = true →
     Router.checkAuth (UseAuth.sessionItem r.1) = true)
  ∧ (∀ user, UseAuth.currentUser r.1 = Some user →
             user ∈ Collections.users (data s)
             ∧ Some (toLowerCase (User.username user))
               = toLowerCase <$> initialUsername)
  ∧ (UseAuth.isAuthenticated r.1 = false →
     Router.checkAuth initialUsername = true →
     UseAuth.sessionItem r.1 = None
     ∧ Forall (λ u, Some (toLowerCase (User.username u))
                    ≠ toLowerCase <$> initialUsername)
              (Collections.users (data s))).
Proof.
  intros r. subst r. unfold UseAuth.init, signedIn, Router.checkAuth.
  destruct (falsyStr initialUsername) eqn:Hfalsy; simpl.
  { split_and!; done. }
  destruct initialUsername as [u|]; [|done]. simpl.
  rewrite bind_eq, getUserByUsername_eq. simpl.
  destruct (find _ _) as [user|] eqn:Hfind; simpl.
  - simpl in Hfalsy. split_and!.
    + done.
    + split; [by eexists|done].
    + intros _. by rewrite Hfalsy.
    + intros ? [= <-]. apply find_Some_elem in Hfind as [Hin Hname].
      split; [done|]. by rewrite Hname.
    + done.
  - split_and!.
    + done.
    + split; [done|]. by intros [].
    + done.
    + done.
    + intros _ _. split; [done|]. apply find_None in Hfind.
      apply (Forall_impl _ _ _ Hfind). intros x Hne [= Heq]. by apply Hne.
Qed.

(** X30. Consistency of the session is an invariant of the module: [login],
    [register], [updateProfile] and [logout] keep it, whatever their
    arguments and their outcome. *)
Theorem session_consistency_kept a s :
  signedIn a →
  (∀ username password, signedIn (UseAuth.login a username password s).1.2)
  ∧ (∀ username name password randomUUID,
       signedIn (UseAuth.register a username name password randomUUID s).1.2)
  ∧ (∀ updates, signedIn (UseAuth.updateProfile a updates s).1.2)
  ∧ signedIn (UseAuth.logout a).
Proof.
  unfold signedIn. intros Ha. split_and!.
  - intros username password. unfold UseAuth.login.
    rewrite bind_eq, getUserByUsername_eq. simpl.
    destruct (find _ _) as [user|]; [|done].
    case_bool_decide; simpl; [|done]. split; [by eexists|done].
  - intros username name password randomUUID. unfold UseAuth.register.
    rewrite bind_eq. by destruct (Db.success _).
  - intros updates. unfold UseAuth.updateProfile.
    destruct (UseAuth.currentUser a) as [user|] eqn:Hcurrent.
    2:{ simpl. by rewrite Hcurrent. }
    destruct (UseAuth.isAuthenticated a) eqn:Hauth; simpl.
    2:{ by rewrite Hcurrent, Hauth. }
    destruct (UseAuth.prepareUpdate user updates) as [result|[userToUpdate changed]].
    + simpl. by rewrite Hcurrent, Hauth.
    + rewrite bind_eq. destruct (Db.success _); simpl.
      * split; [by eexists|done].
      * by rewrite Hcurrent, Hauth.
  - simpl. split; [done|]. by intros [].
Qed.
End AuthExtras.

(** * The properties on the scenario

    The theorems above applied to the contents of the scenario, with the
    concrete runtime. *)

Lemma add_then_delete_restores_witness :
  data (Db.deleteTodo "todo-2"
          (Db.addTodo (TodoItem.mk "todo-2" "Call the plumber." false "2025-05-02")
                      Fixture.scenarioDb).2).2
  = data Fixture.scenarioDb.
Proof.
  destruct (add_then_delete_restores Fixture.scenarioDb) as (_ & _ & _ & Htodo).
  apply (Htodo (TodoItem.mk "todo-2" "Call the plumber." false "2025-05-02")).
  apply Forall_cons. split; [done|apply Forall_nil_2].
Defined.

Lemma update_keeps_ids_witness :
  Collections.tenants (data (Db.updateTenant Fixture.tenantT1_archived
                               Fixture.scenarioDb).2) !! 1%nat
  = Some Fixture.tenantDangling.
Proof.
  destruct (update_keeps_ids Fixture.scenarioDb) as (_ & _ & Htenant & _).
  destruct (Htenant Fixture.tenantT1_archived) as [_ Hothers].
  apply Hothers; [reflexivity|done].
Defined.

Lemma addUser_keeps_usernames_unique_witness :
  uniqueUsernames
    (Collections.users (data (Db.addUser Fixture.bob Fixture.scenarioDb).2)).
Proof.
  apply (addUser_keeps_usernames_unique Fixture.bob Fixture.scenarioDb).
  unfold uniqueUsernames. simpl. apply NoDup_singleton.
Defined.

Lemma registered_user_is_found_witness :
  (Db.getUserByUsername "BOB" (Db.addUser Fixture.bob Fixture.scenarioDb).2).1
  = Some Fixture.bob.
Proof.
  apply (registered_user_is_found Fixture.bob "BOB" Fixture.scenarioDb); reflexivity.
Defined.

Lemma toggleArchiveProperty_reaches_tenants_witness :
  TenantList.isEffectivelyArchived
    (TenantList.onMounted
       (PropertyList.toggleArchiveProperty Fixture.propertyListRefs Fixture.propertyP
          Fixture.scenarioDb).2).1
    Fixture.tenantT1
  = true.
Proof.
  pose proof (toggleArchiveProperty_reaches_tenants Fixture.propertyListRefs
                Fixture.propertyP Fixture.scenarioDb) as Hreach.
  cbv zeta in Hreach. destruct Hreach as [_ Hreach].
  - apply elem_of_cons. left. reflexivity.
  - apply (Hreach Fixture.tenantT1). reflexivity.
Defined.

Lemma toggleArchiveProperty_twice_witness :
  let r1 := PropertyList.toggleArchiveProperty Fixture.propertyListRefs
              Fixture.propertyP Fixture.scenarioDb in
  data (PropertyList.toggleArchiveProperty r1.1
          (PropertyList.withArchiveToggled Fixture.propertyP) r1.2).2
  = data Fixture.scenarioDb.
Proof.
  intros r1.
  pose proof (toggleArchiveProperty_twice Fixture.propertyListRefs
                Fixture.propertyP Fixture.scenarioDb) as Htwice.
  cbv zeta in Htwice. destruct Htwice as (_ & Hdata & _); [reflexivity|].
  exact Hdata.
Defined.

Lemma deleteProperty_leaves_tenants_witness :
  TenantList.isEffectivelyArchived
    (TenantList.onMounted
       (PropertyList.deleteProperty Fixture.propertyListRefs "P"
          Fixture.scenarioDb).2).1
    Fixture.tenantT1
  = false.
Proof.
  pose proof (deleteProperty_leaves_tenants Fixture.propertyListRefs "P"
                Fixture.scenarioDb) as Hleft.
  cbv zeta in Hleft. destruct Hleft as (_ & _ & _ & _ & Hleft).
  apply (Hleft Fixture.tenantT1). reflexivity.
Defined.

Lemma tenant_not_saved_on_archived_property_witness :
  TenantListForm.addOrUpdateTenant Fixture.tenantListRefs_archived
    (Fixture.tenantForm Fixture.tenantDraftNew) Fixture.tenantEnv Fixture.scenarioDb
  = ((TenantListForm.Alerted
        "Cannot add or assign tenants to an archived property.",
      (Fixture.tenantListRefs_archived, Fixture.tenantForm Fixture.tenantDraftNew)),
     Fixture.scenarioDb).
Proof.
  destruct (tenant_not_saved_on_archived_property Fixture.tenantListRefs_archived
              (Fixture.tenantForm Fixture.tenantDraftNew) Fixture.tenantEnv
              Fixture.scenarioDb Fixture.propertyP_archived) as [_ Halert].
  - reflexivity.
  - reflexivity.
  - apply Halert; reflexivity.
Defined.

Lemma new_tenant_is_stored_active_witness :
  ∃ t : Tenant.t Z,
    Collections.tenants
      (data (TenantListForm.addOrUpdateTenant Fixture.tenantListRefs
               (Fixture.tenantForm Fixture.tenantDraftNew) Fixture.tenantEnv
               Fixture.scenarioDb).2)
    = [Fixture.tenantT1; Fixture.tenantDangling] ++ [t]
    ∧ Tenant.archive t = false.
Proof.
  pose proof (new_tenant_is_stored_active Fixture.tenantListRefs
                (Fixture.tenantForm Fixture.tenantDraftNew) Fixture.tenantEnv
                Fixture.scenarioDb) as Hnew.
  cbv zeta in Hnew.
  destruct Hnew as (t & Hstored & _ & Harchive & _); [reflexivity|reflexivity|].
  exists t. split; [exact Hstored|exact Harchive].
Defined.

Lemma toggleArchiveTenant_guarded_and_reversible_witness :
  ∃ msg,
    TenantListForm.toggleArchiveTenant Fixture.tenantListRefs_archived
      Fixture.tenantT1 Fixture.scenarioDb
    = ((Some msg, Fixture.tenantListRefs_archived), Fixture.scenarioDb).
Proof.
  destruct (toggleArchiveTenant_guarded_and_reversible Fixture.tenantListRefs_archived
              Fixture.tenantT1 Fixture.scenarioDb) as [Hguard _].
  apply Hguard. reflexivity.
Defined.

Lemma watcher_keeps_form_consistent_witness :
  is_Some (TenantListForm.onPropertyIdChange Fixture.tenantListRefs_archived
             (Fixture.tenantForm Fixture.tenantDraftNew)).1.
Proof.
  pose proof (watcher_keeps_form_consistent Fixture.tenantListRefs_archived
                (Fixture.tenantForm Fixture.tenantDraftNew)) as Hwatch.
  cbv zeta in Hwatch. destruct Hwatch as (_ & Halert & _); [reflexivity|].
  apply (Halert Fixture.propertyP_archived); reflexivity.
Defined.

Lemma paymentsWithDetails_rows_witness :
  inOrder (λ a b, timeOf (RentTrackingList.payment b)
                  ≤ timeOf (RentTrackingList.payment a))
          (RentTrackingList.paymentsWithDetails
             (Fixture.rentTrackingRefs [Fixture.propertyP] Fixture.draftPaid)).
Proof.
  destruct (paymentsWithDetails_rows
              (Fixture.rentTrackingRefs [Fixture.propertyP] Fixture.draftPaid))
    as [_ Horder].
  apply Horder. intros p Hp. simpl in Hp.
  repeat (apply elem_of_cons in Hp as [->|Hp]; [by eexists|]).
  by apply elem_of_nil in Hp.
Defined.

Lemma editPayment_opens_only_active_rows_witness :
  let v := Fixture.rentTrackingRefs [Fixture.propertyP] Fixture.draftPaid in
  RentTracking.isEditingPayment
    (RentTrackingList.editPayment v
       (RentTrackingList.paymentDetails v Fixture.paymentMay)).2
  = true.
Proof.
  intros v.
  pose proof (editPayment_opens_only_active_rows v
                (RentTrackingList.paymentDetails v Fixture.paymentMay)) as Hedit.
  cbv zeta in Hedit. destruct Hedit as (_ & _ & Hopen).
  - apply (list_elem_of_lookup_2 _ 0%nat). reflexivity.
  - destruct Hopen as (original & _ & _ & Hediting & _); [reflexivity|].
    exact Hediting.
Defined.

Lemma dropdown_agrees_with_guard_witness :
  let v := Fixture.rentTrackingRefs [Fixture.propertyP_archived] Fixture.draftPaid in
  ¬ ∃ t, RentTracking.selectedTenant v = Some t
         ∧ t ∈ RentTrackingList.activeTenantsForSelect v.
Proof.
  intros v.
  apply (dropdown_agrees_with_guard v Fixture.env0 Fixture.scenarioDb); reflexivity.
Defined.

Lemma edit_and_resubmit_resets_amount_witness :
  let v := Fixture.rentTrackingOverpaid in
  let row := RentTrackingList.paymentDetails v Fixture.paymentOverpaid in
  let r := RentTracking.addOrUpdatePayment
             (RentTrackingList.editPaymentClick v row).2 Fixture.env0
             Fixture.overpaidDb in
  ∃ (original : RentPayment.t Z) (i : nat),
    Collections.payments (data Fixture.overpaidDb) !! i = Some original
    ∧ (data r.2 = data Fixture.overpaidDb ∨ r.1.1 = RentTracking.Saved).
Proof.
  intros v row r.
  pose proof (edit_and_resubmit_resets_amount v row Fixture.env0 Fixture.overpaidDb)
    as Hedit.
  cbv zeta in Hedit.
  destruct Hedit as (original & i & _ & Hlook & Hcases & _).
  - apply (list_elem_of_lookup_2 _ 0%nat). reflexivity.
  - reflexivity.
  - done.
  - reflexivity.
  - exists original, i. split; [exact Hlook|].
    destruct Hcases as [Hsame|(tenant & _ & Hsaved & _)];
      [left; exact Hsame|right; exact Hsaved].
Defined.

Lemma overdueTenants_are_overdue_witness :
  ∃ latest,
    latest ∈ AlertsTodo.payments Fixture.alertsRefsOverdue
    ∧ RentPayment.tenantId latest = "T1"
    ∧ toLowerCase (RentPayment.status latest) = "overdue".
Proof.
  destruct (overdueTenants_are_overdue Fixture.alertsRefsOverdue Fixture.tenantT1)
    as (_ & _ & latest & Hin & Htenant & _ & _ & Hstatus).
  - apply (list_elem_of_lookup_2 _ 0%nat). reflexivity.
  - exists latest. split_and!; [exact Hin|exact Htenant|exact Hstatus].
Defined.

Lemma latest_status_views_agree_witness :
  AlertsTodoLists.getLatestPaymentStatus Fixture.alertsRefs "T1" = Some "paid".
Proof.
  change (AlertsTodoLists.getLatestPaymentStatus Fixture.alertsRefs "T1"
          = Some (toLowerCase
                    (TenantList.getLatestRentStatus Fixture.tenantListRefs "T1"))).
  apply (latest_status_views_agree Fixture.tenantListRefs Fixture.alertsRefs "T1"
           Fixture.tenantT1).
  - reflexivity.
  - reflexivity.
  - reflexivity.
  - exists Fixture.paymentMay. split; [|reflexivity].
    apply (list_elem_of_lookup_2 _ 1%nat). reflexivity.
  - intros p Hp _. simpl in Hp.
    repeat (apply elem_of_cons in Hp as [->|Hp]; [split; [done|by eexists]|]).
    by apply elem_of_nil in Hp.
  - done.
Defined.

Lemma allTodosSorted_order_witness :
  AlertsTodoLists.allTodosSorted Fixture.alertsRefs
    ≡ₚ AlertsTodo.todos Fixture.alertsRefs.
Proof.
  destruct (allTodosSorted_order Fixture.alertsRefs) as [Hperm _];
    [reflexivity|reflexivity|exact Hperm].
Defined.

Lemma expiringLeases_sound_and_sorted_witness :
  ∃ leaseEnd,
    date_getTime (Tenant.leaseEnd Fixture.tenantT1) = Some leaseEnd
    ∧ Fixture.startOfNovember ≤ leaseEnd ≤ Fixture.startOfFebruary.
Proof.
  destruct (expiringLeases_sound_and_sorted Fixture.alertsRefs
              Fixture.startOfNovember Fixture.startOfFebruary) as [Hsound _].
  destruct (Hsound Fixture.tenantT1) as (_ & _ & Hend).
  - apply (list_elem_of_lookup_2 _ 0%nat). reflexivity.
  - exact Hend.
Defined.

Lemma toggleComplete_twice_witness :
  let r1 := AlertsTodoLists.toggleComplete Fixture.alertsRefs Fixture.todo1
              Fixture.scenarioDb in
  data (AlertsTodoLists.toggleComplete r1.1
          (AlertsTodoLists.withCompletedToggled Fixture.todo1) r1.2).2
  = data Fixture.scenarioDb.
Proof.
  intros r1.
  pose proof (toggleComplete_twice Fixture.alertsRefs Fixture.todo1
                Fixture.scenarioDb) as Htwice.
  cbv zeta in Htwice. destruct Htwice as (_ & Hdata & _); [reflexivity|].
  exact Hdata.
Defined.

Lemma addTodo_trims_and_appends_witness :
  AlertsTodoLists.addTodo Fixture.alertsRefs "   " "todo-2" Fixture.startOfMay
    Fixture.scenarioDb
  = ((Fixture.alertsRefs, "   "), Fixture.scenarioDb).
Proof.
  destruct (addTodo_trims_and_appends Fixture.alertsRefs "   " "todo-2"
              Fixture.startOfMay Fixture.scenarioDb) as [Hblank _].
  apply Hblank. reflexivity.
Defined.

Lemma login_sound_witness :
  ∃ user, user ∈ Collections.users (data Fixture.scenarioDb)
          ∧ User.password user = "secret1".
Proof.
  pose proof (login_sound Fixture.signedOut "ALICE" "secret1" Fixture.scenarioDb)
    as Hlogin.
  cbv zeta in Hlogin. destruct Hlogin as (_ & Hok & _).
  destruct Hok as (user & Hin & _ & Hpassword & _); [reflexivity|].
  exists user. split; [exact Hin|exact Hpassword].
Defined.

Lemma register_then_login_witness :
  (UseAuth.register Fixture.signedOut "Bob" "Bob B" "hunter22" "u-9"
     Fixture.scenarioDb).1.1
  = true.
Proof.
  pose proof (register_then_login Fixture.signedOut "Bob" "Bob B" "hunter22" "u-9"
                Fixture.scenarioDb) as Hregister.
  cbv zeta in Hregister. destruct Hregister as [Hok _].
  - apply Forall_cons. split; [done|apply Forall_nil_2].
  - exact Hok.
Defined.

Lemma password_change_then_login_witness :
  let r1 := UseAuth.updateProfile Fixture.aliceSession
              {| UseAuth.name := None;
                 UseAuth.currentPassword := Some "secret1";
                 UseAuth.newPassword := Some "secret22" |}
              Fixture.scenarioDb in
  (UseAuth.login r1.1.2 "alice" "secret22" r1.2).1.1 = true.
Proof.
  intros r1.
  pose proof (password_change_then_login Fixture.aliceSession Fixture.alice
                "secret22" Fixture.scenarioDb) as Hchange.
  cbv zeta in Hchange.
  destruct Hchange as (_ & _ & _ & _ & Hlogin & _);
    [reflexivity|reflexivity|reflexivity|reflexivity|done|simpl; lia|].
  exact Hlogin.
Defined.

Lemma profile_form_guards_password_witness :
  ∃ user',
    UseAuth.currentUser
      (ProfileView.handleProfileUpdate Fixture.aliceSession Fixture.passwordForm
         Fixture.scenarioDb).1.1
    = Some user'
    ∧ User.username user' = "alice".
Proof.
  pose proof (profile_form_guards_password Fixture.aliceSession Fixture.passwordForm
                Fixture.alice Fixture.scenarioDb) as Hform.
  cbv zeta in Hform.
  destruct Hform as [(user' & Hcurrent & _ & _ & Husername & _) _];
    [reflexivity|reflexivity|].
  exists user'. split; [exact Hcurrent|exact Husername].
Defined.

Lemma redirects_land_witness :
  ∃ target, target ∈ Router.routes
            ∧ Router.name target = "login"
            ∧ Router.beforeEach target None = Router.Proceed.
Proof.
  apply (redirects_land Fixture.homeRoute None "login"). reflexivity.
Defined.

Lemma guard_follows_session_witness :
  Router.beforeEach Fixture.homeRoute
    (UseAuth.sessionItem
       (UseAuth.login Fixture.signedOut "alice" "secret1" Fixture.scenarioDb).1.2)
  = Router.Proceed.
Proof.
  pose proof (guard_follows_session Fixture.signedOut "alice" "secret1"
                Fixture.scenarioDb Fixture.homeRoute) as Hguard.
  cbv zeta in Hguard. destruct Hguard as (_ & _ & Hin).
  destruct Hin as [Hin _]; [reflexivity|].
  apply Hin. done.
Defined.

Lemma init_revalidates_session_witness :
  UseAuth.sessionItem (UseAuth.init (Some "carol") Fixture.scenarioDb).1 = None.
Proof.
  pose proof (init_revalidates_session (Some "carol") Fixture.scenarioDb) as Hinit.
  cbv zeta in Hinit. destruct Hinit as (_ & _ & _ & _ & Hstale).
  destruct Hstale as [Hgone _]; [reflexivity|reflexivity|].
  exact Hgone.
Defined.

Lemma session_consistency_kept_witness :
  signedIn (UseAuth.logout Fixture.aliceSession).
Proof.
  destruct (session_consistency_kept Fixture.aliceSession Fixture.scenarioDb)
    as (_ & _ & _ & Hlogout).
  - split; [by eexists|done].
  - exact Hlogout.
Defined.
